(** * TradingView chart capture engine: a shallow embedding of
    [tview_scraper.py] and [main.py], and the properties of the
    capture engine stated in the specification.

  Python [str] values are modelled as [string] over 8-bit code points,
  [bytes] as [list byte], time as milliseconds in [N]; where the code
  compares readings of the clock it does so on binary64 floats, and so
  does the model. *)

From Stdlib Require Import Bool Arith NArith ZArith QArith Lia List.
From Stdlib Require Import SpecFloat.
From Stdlib.Strings Require Import Ascii String Byte.
Import ListNotations.
Close Scope Q_scope.
Open Scope string_scope.

(* ================================================================== *)
(** * Part I. Definitions *)
(* ================================================================== *)

(** ** Python string primitives *)

Module PyStr.

(** The character class [[a-zA-Z0-9]] of the share-link pattern. *)
Definition is_alnum (c : ascii) : bool :=
  let n := N_of_ascii c in
  (((48 <=? n) && (n <=? 57)) || ((65 <=? n) && (n <=? 90))
   || ((97 <=? n) && (n <=? 122)))%N.

(** [str.lower()] on one character; only ever applied to a character of
    [[a-zA-Z0-9]], where it shifts [A-Z] onto [a-z]. *)
Definition lower_char (c : ascii) : ascii :=
  let n := N_of_ascii c in
  if ((65 <=? n) && (n <=? 90))%N then ascii_of_N (n + 32) else c.

(** [str.isspace()] for one 8-bit code point: TAB, LF, VT, FF, CR,
    FS, GS, RS, US, SPACE, NEL and NBSP. *)
Definition is_space (c : ascii) : bool :=
  let n := N_of_ascii c in
  (((9 <=? n) && (n <=? 13)) || ((28 <=? n) && (n <=? 32))
   || (n =? 133) || (n =? 160))%N.

(** [s[len(p):]] when [s.startswith(p)]. *)
Fixpoint strip_prefix (p s : string) : option string :=
  match p with
  | EmptyString => Some s
  | String a p' =>
      match s with
      | EmptyString => None
      | String b s' => if Ascii.eqb a b then strip_prefix p' s' else None
      end
  end.

(** [s.startswith(p)]. *)
Definition startswith (s p : string) : bool :=
  match strip_prefix p s with Some _ => true | None => false end.

(** The longest prefix whose characters satisfy [f], and the rest. *)
Fixpoint span (f : ascii -> bool) (s : string) : string * string :=
  match s with
  | EmptyString => (EmptyString, EmptyString)
  | String c s' =>
      if f c then let (a, b) := span f s' in (String c a, b)
      else (EmptyString, s)
  end.

Fixpoint forall_chars (f : ascii -> bool) (s : string) : bool :=
  match s with
  | EmptyString => true
  | String c s' => f c && forall_chars f s'
  end.

(** [sub in s]. *)
Fixpoint contains (sub s : string) : bool :=
  startswith s sub
  || match s with
     | EmptyString => false
     | String _ s' => contains sub s'
     end.

(** [s.replace(old, new)]: occurrences are found from the left and do
    not overlap.  [skip] counts the characters of the occurrence just
    replaced that are still to be passed over.  For an empty [old]
    Python inserts [new] before every character and at the end. *)
Fixpoint replace_from (skip : nat) (old new s : string) : string :=
  match s with
  | EmptyString => EmptyString
  | String c s' =>
      match skip with
      | S k => replace_from k old new s'
      | O =>
          if startswith s old
          then new ++ replace_from (String.length old - 1) old new s'
          else String c (replace_from 0 old new s')
      end
  end.

Fixpoint intersperse (new s : string) : string :=
  match s with
  | EmptyString => new
  | String c s' => new ++ String c (intersperse new s')
  end.

Definition replace (s old new : string) : string :=
  match old with
  | EmptyString => intersperse new s
  | _ => replace_from 0 old new s
  end.

Fixpoint lstrip (s : string) : string :=
  match s with
  | EmptyString => EmptyString
  | String c s' => if is_space c then lstrip s' else s
  end.

(** [rstrip] keeps a character when it is not a space or when
    something remains after it. *)
Fixpoint rstrip (s : string) : string :=
  match s with
  | EmptyString => EmptyString
  | String c s' =>
      match rstrip s' with
      | EmptyString => if is_space c then EmptyString else String c EmptyString
      | r => String c r
      end
  end.

(** [s.strip()]. *)
Definition strip (s : string) : string := rstrip (lstrip s).

(** Truth value of a [str]: non-empty. *)
Definition truthy (s : string) : bool :=
  match s with EmptyString => false | _ => true end.

(** [s.split(",", 1)]: the text before the first comma and the text
    after it, or [None] when there is no comma (one-element list). *)
Fixpoint split_comma (s : string) : option (string * string) :=
  match s with
  | EmptyString => None
  | String c s' =>
      if Ascii.eqb c "," then Some (EmptyString, s')
      else match split_comma s' with
           | Some (h, d) => Some (String c h, d)
           | None => None
           end
  end.

(** [s[n:]] *)
Fixpoint drop (n : nat) (s : string) : string :=
  match n, s with
  | S k, String _ s' => drop k s'
  | _, _ => s
  end.

End PyStr.

(** ** Result Normalizer: share link to snapshot URL
  ([TradingViewScraper.convert_link_to_image_url]) *)

Module Normalizer.
Import PyStr.

(** One match of the share-link pattern: [group0] is [match.group(0)],
    the whole matched text, [group1] is the captured identifier. *)
Record re_match := { group0 : string; group1 : string }.

(** The alternatives of [(?:www\.|in\.)?], in the order the regex
    engine tries them: the two hosts, then the empty alternative. *)
Definition share_hosts : list string := ["www."; "in."; ""].

(** The pattern after [https://] with the host alternative [h]:
    [tradingview\.com/x/([a-zA-Z0-9]+)/?].  Both quantifiers are greedy
    and nothing follows them, so the identifier is the longest run and a
    following slash is taken whenever present. *)
Definition match_after_host (h s1 : string) : option re_match :=
  match strip_prefix h s1 with
  | None => None
  | Some s2 =>
      match strip_prefix "tradingview.com/x/" s2 with
      | None => None
      | Some s3 =>
          let (id, s4) := span is_alnum s3 in
          match id with
          | EmptyString => None
          | _ =>
              let slash := if startswith s4 "/" then "/" else "" in
              Some {| group0 := "https://" ++ h ++ "tradingview.com/x/"
                                  ++ id ++ slash;
                      group1 := id |}
          end
      end
  end.

Fixpoint first_match (alts : list string) (s1 : string) : option re_match :=
  match alts with
  | [] => None
  | h :: alts' =>
      match match_after_host h s1 with
      | Some m => Some m
      | None => first_match alts' s1
      end
  end.

(** The pattern
    [https://(?:www\.|in\.)?tradingview\.com/x/([a-zA-Z0-9]+)/?]
    anchored at the start of [s]. *)
Definition match_here (s : string) : option re_match :=
  match strip_prefix "https://" s with
  | None => None
  | Some s1 => first_match share_hosts s1
  end.

(** [re.finditer(pattern, s)]: leftmost matches, not overlapping.
    [skip] counts the characters of the last match still to pass. *)
Fixpoint finditer_from (skip : nat) (s : string) : list re_match :=
  match s with
  | EmptyString => []
  | String _ s' =>
      match skip with
      | S k => finditer_from k s'
      | O =>
          match match_here s with
          | Some m => m :: finditer_from (String.length (group0 m) - 1) s'
          | None => finditer_from 0 s'
          end
      end
  end.

Definition finditer (s : string) : list re_match := finditer_from 0 s.

(** [re.search(r"tradingview\.com/x/", s)]. *)
Definition has_host_marker (s : string) : bool :=
  contains "tradingview.com/x/" s.

(** [f"https://s3.tradingview.com/snapshots/{match_id[0].lower()}/{match_id}.png"] *)
Definition new_link (match_id : string) : string :=
  match match_id with
  | EmptyString => EmptyString (* unreachable: the group is [+] *)
  | String c _ =>
      "https://s3.tradingview.com/snapshots/" ++ String (lower_char c) "/"
        ++ match_id ++ ".png"
  end.

(** The body of the [for match in re.finditer(...)] loop, on the pair
    [(output_string, found_match)]. *)
Definition convert_step (acc : string * bool) (m : re_match) : string * bool :=
  let (output_string, found_match) := acc in
  if contains (group0 m) output_string
  then (replace output_string (group0 m) (new_link (group1 m)), true)
  else (output_string, found_match).

(** What the function logs besides the conversions. *)
Inductive convert_note := NoteConverted | NoteMarkerNoMatch | NoteNoLinks.

Definition convert_loop (input_string : string) : string * bool :=
  fold_left convert_step (finditer input_string) (input_string, false).

Definition convert_note_of (input_string : string) : convert_note :=
  let found_match := snd (convert_loop input_string) in
  if negb found_match && has_host_marker input_string then NoteMarkerNoMatch
  else if negb found_match then NoteNoLinks
  else NoteConverted.

(** [convert_link_to_image_url(input_string)]; [None] is Python's
    [None], for the argument and for the result. *)
Definition convert_link_to_image_url (input_string : option string)
  : option string :=
  match input_string with
  | None => None
  | Some EmptyString => None
  | Some s => Some (fst (convert_loop s))
  end.

(** *** Notions used to state the properties of the normalizer *)

(** The text of a share link with host part [host] and identifier [id]. *)
Definition share_link (host id : string) : string :=
  "https://" ++ host ++ "tradingview.com/x/" ++ id.

(** The pattern matches at offset [n] of [s]. *)
Definition matches_at (s : string) (n : nat) : bool :=
  match match_here (drop n s) with Some _ => true | None => false end.

(** The offsets of [s] at which the pattern matches. *)
Definition match_offsets (s : string) : list nat :=
  filter (matches_at s) (seq 0 (String.length s)).

(** The text after an identifier does not go on with a character of
    the identifier class. *)
Definition id_ends_before (post : string) : bool :=
  match post with
  | EmptyString => true
  | String c _ => negb (is_alnum c)
  end.

(** The slash the pattern takes after the identifier, if any, and the
    text without it. *)
Definition slash_of (post : string) : string :=
  if startswith post "/" then "/" else "".

Definition without_slash (post : string) : string :=
  match strip_prefix "/" post with Some r => r | None => post end.

(** The match found at a share link that is followed by [x]. *)
Definition match_of (host x : string) : option re_match :=
  let (id, r) := span is_alnum x in
  match id with
  | EmptyString => None
  | _ => Some {| group0 := share_link host id ++ slash_of r; group1 := id |}
  end.

End Normalizer.

(** ** Image bytes to canonical URL
  ([TradingViewScraper._convert_clipboard_to_image_url]) *)

Module Base64.

(** [base64.b64encode] and [base64.b64decode] belong to Python's standard
    library, not to the repository.  They are modelled after RFC 4648
    section 4 and CPython's [binascii] module, which implements them. *)

Definition alphabet : string :=
  "ABCDEFGHIJKLMNOPQRSTUVWXYZabcdefghijklmnopqrstuvwxyz0123456789+/".

Definition BASE64_PAD : ascii := "="%char.

(** [table_b2a_base64[n]] *)
Definition table_b2a (n : N) : ascii :=
  match String.get (N.to_nat n) alphabet with
  | Some c => c
  | None => BASE64_PAD
  end.

Fixpoint index_of (c : ascii) (s : string) (i : N) : option N :=
  match s with
  | EmptyString => None
  | String d s' => if Ascii.eqb c d then Some i else index_of c s' (i + 1)
  end.

(** [table_a2b_base64[c]]; [None] for a character outside the alphabet. *)
Definition table_a2b (c : ascii) : option N := index_of c alphabet 0.

(** Storing into an [unsigned char]. *)
Definition u8 (n : N) : byte :=
  match Byte.of_N (n mod 256) with
  | Some b => b
  | None => x00
  end.

(** [binascii.b2a_base64(data, newline=False)]: three octets give four
    characters; one or two remaining octets are padded with [=]. *)
Fixpoint b2a_base64 (data : list byte) : string :=
  match data with
  | [] => EmptyString
  | [a] =>
      let a := Byte.to_N a in
      String (table_b2a (N.shiftr a 2))
        (String (table_b2a (N.shiftl (N.land a 3) 4))
           (String BASE64_PAD (String BASE64_PAD EmptyString)))
  | [a; b] =>
      let a := Byte.to_N a in
      let b := Byte.to_N b in
      String (table_b2a (N.shiftr a 2))
        (String (table_b2a (N.lor (N.shiftl (N.land a 3) 4) (N.shiftr b 4)))
           (String (table_b2a (N.shiftl (N.land b 15) 2))
              (String BASE64_PAD EmptyString)))
  | a :: b :: c :: rest =>
      let a := Byte.to_N a in
      let b := Byte.to_N b in
      let c := Byte.to_N c in
      String (table_b2a (N.shiftr a 2))
        (String (table_b2a (N.lor (N.shiftl (N.land a 3) 4) (N.shiftr b 4)))
           (String (table_b2a (N.lor (N.shiftl (N.land b 15) 2) (N.shiftr c 6)))
              (String (table_b2a (N.land c 63)) (b2a_base64 rest))))
  end.

(** [base64.b64encode(data).decode("utf-8")] *)
Definition b64encode (data : list byte) : string := b2a_base64 data.

Definition emit (b : byte) (r : option (list byte)) : option (list byte) :=
  match r with
  | Some l => Some (b :: l)
  | None => None
  end.

(** The loop of [binascii.a2b_base64] in its default, non-strict mode.
    [quad_pos] is the position inside the current group of four,
    [leftchar] the bits not yet written, [pads] the padding characters
    seen since the last data character.  Characters outside the alphabet
    are skipped; enough padding after at least two data characters ends
    the decoding; input that ends inside a group is an error ([None],
    Python's [binascii.Error]). *)
Fixpoint a2b_loop (quad_pos leftchar pads : N) (s : string)
  : option (list byte) :=
  match s with
  | EmptyString => if (quad_pos =? 0)%N then Some [] else None
  | String ch s' =>
      if Ascii.eqb ch BASE64_PAD then
        if (2 <=? quad_pos)%N then
          if (4 <=? quad_pos + (pads + 1))%N then Some []
          else a2b_loop quad_pos leftchar (pads + 1) s'
        else a2b_loop quad_pos leftchar pads s'
      else
        match table_a2b ch with
        | None => a2b_loop quad_pos leftchar pads s'
        | Some this_ch =>
            match quad_pos with
            | 0%N => a2b_loop 1 this_ch 0 s'
            | 1%N =>
                emit (u8 (N.lor (N.shiftl leftchar 2) (N.shiftr this_ch 4)))
                  (a2b_loop 2 (N.land this_ch 15) 0 s')
            | 2%N =>
                emit (u8 (N.lor (N.shiftl leftchar 4) (N.shiftr this_ch 2)))
                  (a2b_loop 3 (N.land this_ch 3) 0 s')
            | _ =>
                emit (u8 (N.lor (N.shiftl leftchar 6) this_ch))
                  (a2b_loop 0 0 0 s')
            end
        end
  end.

Definition a2b_base64 (s : string) : option (list byte) := a2b_loop 0 0 0 s.

Definition is_ascii (c : ascii) : bool := (N_of_ascii c <? 128)%N.

(** [base64.b64decode(s)] for a [str] argument: a character outside
    ASCII is a [ValueError], as is [binascii.Error]; both are [None]. *)
Definition b64decode (s : string) : option (list byte) :=
  if PyStr.forall_chars is_ascii s then a2b_base64 s else None.

(** A bounded universal quantifier that computes: [P] holds of every
    number below [n]. *)
Fixpoint all_below (n : nat) (P : N -> bool) : bool :=
  match n with
  | O => true
  | S k => P (N.of_nat k) && all_below k P
  end.

(** The four digits of a group of three octets, as [b2a_base64] computes
    them, and the digit that closes a group of one or of two octets. *)
Definition digit1 (a : N) : N := N.shiftr a 2.
Definition digit2 (a b : N) : N := N.lor (N.shiftl (N.land a 3) 4) (N.shiftr b 4).
Definition digit3 (b c : N) : N := N.lor (N.shiftl (N.land b 15) 2) (N.shiftr c 6).
Definition digit4 (c : N) : N := N.land c 63.
Definition last_digit_of_one (a : N) : N := N.shiftl (N.land a 3) 4.
Definition last_digit_of_two (b : N) : N := N.shiftl (N.land b 15) 2.

(** What decoding relies on, for two neighbouring octets [x] and [y]:
    the digits are digits, and the shifts and masks of [a2b_base64] undo
    those of [b2a_base64]. *)
Definition octet_facts (x y : N) : list bool :=
  [ (digit1 x <? 64)%N;
    (digit2 x y <? 64)%N;
    (digit3 x y <? 64)%N;
    (digit4 x <? 64)%N;
    (last_digit_of_one x <? 64)%N;
    (last_digit_of_two x <? 64)%N;
    (N.lor (N.shiftl (digit1 x) 2) (N.shiftr (digit2 x y) 4) =? x)%N;
    (N.lor (N.shiftl (digit1 x) 2) (N.shiftr (last_digit_of_one x) 4) =? x)%N;
    (N.land (digit2 x y) 15 =? N.shiftr y 4)%N;
    (N.shiftr (digit3 x y) 2 =? N.land x 15)%N;
    (N.shiftr (last_digit_of_two x) 2 =? N.land x 15)%N;
    (N.lor (N.shiftl (N.shiftr x 4) 4) (N.land x 15) =? x)%N;
    (N.land (digit3 x y) 3 =? N.shiftr y 6)%N;
    (N.lor (N.shiftl (N.shiftr x 6) 6) (digit4 x) =? x)%N ].

End Base64.

Module ImageUrl.

Definition DATA_URL_PREFIX : string := "data:image/png;base64,".

(** [_convert_clipboard_to_image_url(image_data)].  The [except
    Exception] branch of the source cannot be taken for a [bytes]
    argument: neither the encoding nor the formatting raises. *)
Definition _convert_clipboard_to_image_url (image_data : list byte) : string :=
  let base64_encoded := Base64.b64encode image_data in
  DATA_URL_PREFIX ++ base64_encoded.

End ImageUrl.

(** ** Exceptions, values and the browser *)

Module Py.

(** The exception classes the code raises, catches or can receive from
    its collaborators; all are subclasses of [Exception]. *)
Inductive exn :=
| WebDriverException
| TimeoutException          (* selenium; a WebDriverException *)
| NoSuchWindowException     (* selenium; a WebDriverException *)
| OSError
| ConnectionError           (* an OSError *)
| ValueError (msg : string)
| JSONDecodeError           (* json; a ValueError *)
| TypeError
| AttributeError
| TradingViewScraperError (msg : string)
| TradingViewClipboardServerError (msg : string)   (* a TradingViewScraperError *)
| TradingViewServerError (msg : string)            (* a TradingViewScraperError *)
| OtherException (msg : string).  (* [Exception] itself or any other subclass *)

(** [isinstance(e, WebDriverException)] and the like. *)
Definition is_WebDriverException (e : exn) : bool :=
  match e with
  | WebDriverException | TimeoutException | NoSuchWindowException => true
  | _ => false
  end.

Definition is_TimeoutException (e : exn) : bool :=
  match e with TimeoutException => true | _ => false end.

Definition is_OSError (e : exn) : bool :=
  match e with OSError | ConnectionError => true | _ => false end.

Definition is_ValueError (e : exn) : bool :=
  match e with ValueError _ | JSONDecodeError => true | _ => false end.

Definition is_TradingViewScraperError (e : exn) : bool :=
  match e with
  | TradingViewScraperError _ | TradingViewClipboardServerError _
  | TradingViewServerError _ => true
  | _ => false
  end.

Definition is_TradingViewClipboardServerError (e : exn) : bool :=
  match e with TradingViewClipboardServerError _ => true | _ => false end.

Definition is_Exception (e : exn) : bool := true.

(** What [driver.quit()] can raise in [close]: an [Exception], or the
    [KeyboardInterrupt] that [close] names, which is a [BaseException]
    only.  Interruption is modelled nowhere else. *)
Inductive base_exn :=
| Exc (e : exn)
| KeyboardInterrupt.

(** What a script run in the page returns to Python. *)
Inductive jsval :=
| JsNull                  (* None *)
| JsBool (b : bool)
| JsNum (z : Z)
| JsStr (s : string)
| JsList (n : nat).       (* a list of [n] items *)

(** Truth value of such a value. *)
Definition js_truthy (v : jsval) : bool :=
  match v with
  | JsNull => false
  | JsBool b => b
  | JsNum z => negb (z =? 0)%Z
  | JsStr s => PyStr.truthy s
  | JsList n => negb (n =? 0)%nat
  end.

(** What [json.loads] returns.  A finite [float] is given by its exact
    value; [JNonFinite] stands for [nan] and the infinities.  A [dict]
    lists its items, one per key. *)
#[local] Unset Elimination Schemes.
Inductive jvalue :=
| JNull
| JBool (b : bool)
| JInt (z : Z)
| JFloat (q : Q)
| JNonFinite
| JStr (s : string)
| JList (l : list jvalue)
| JDict (d : list (string * jvalue)).
#[local] Set Elimination Schemes.

Fixpoint dict_get (k : string) (d : list (string * jvalue)) : option jvalue :=
  match d with
  | [] => None
  | (k', v) :: d' => if String.eqb k k' then Some v else dict_get k d'
  end.

(** [k in d] *)
Definition dict_has (k : string) (d : list (string * jvalue)) : bool :=
  match dict_get k d with Some _ => true | None => false end.

(** The numeric value of an [int], [bool] or finite [float]. *)
Definition num_value (v : jvalue) : option Q :=
  match v with
  | JInt z => Some (inject_Z z)
  | JBool b => Some (inject_Z (if b then 1 else 0))
  | JFloat q => Some q
  | _ => None
  end.

(** [v == c] for a constant [c] that is a number or a string. *)
Definition py_eq_const (v c : jvalue) : bool :=
  match c with
  | JStr s => match v with JStr s' => String.eqb s' s | _ => false end
  | _ =>
      match num_value v, num_value c with
      | Some a, Some b => Qeq_bool a b
      | _, _ => false
      end
  end.

(** Keyboard chords sent through [ActionChains(...).perform()]. *)
Inductive chord :=
| AltS          (* screenshot link *)
| ShiftCtrlS    (* save image, Windows and Linux *)
| ShiftCmdS     (* save image, macOS *)
| CtrlAltS | CtrlS | AltShiftS.   (* the alternative shortcuts *)

(** The scripts the scraper runs in the page. *)
Inductive script :=
| ReadText          (* return navigator.clipboard.readText(); *)
| ClearClipboard    (* navigator.clipboard.writeText(''); *)
| HasClipboardApi   (* navigator.clipboard && typeof ....read === 'function' *)
| ReadImage.        (* the asynchronous clipboard image reader *)

(** Every interaction with the browser and its driver. *)
Inductive op :=
| ChromedriverPath                 (* _get_chromedriver_path *)
| StartChrome                      (* webdriver.Chrome(...) *)
| SetScriptTimeout
| ImplicitlyWait
| Get (url : string)               (* driver.get *)
| AddCookie (name value : string)  (* driver.add_cookie *)
| Refresh                          (* driver.refresh *)
| WaitInfrastructure               (* self.wait.until(EC.any_of(...)) *)
| FindElements (css : string)      (* driver.find_elements *)
| Perform (c : chord)              (* ActionChains(...).perform() *)
| Execute (s : script)             (* execute_script / execute_async_script *)
| Quit.                            (* driver.quit *)

Inductive level := Info | Warning | Error.

Inductive event :=
| Call (o : op)
| Sleep (ms : N)                         (* time.sleep *)
| LogAttempt (n total : nat)             (* "... (attempt n/total)..." *)
| Log (l : level) (msg : string).        (* logger and ctx messages *)

(** The interaction so far, latest event first. *)
Definition history := list event.

Inductive reply (A : Type) :=
| Returns (a : A)
| Raises (e : exn).
Arguments Returns {A} a.
Arguments Raises {A} e.

(** The collaborators outside the repository.  The browser answers each
    call as a function of everything that happened before; [json_loads]
    is [json.loads] on a [str], which returns a value or raises
    ([JSONDecodeError] for a text that is not JSON, and whatever else
    the library raises, such as a plain [ValueError] or a
    [RecursionError]); [py_repr] is [repr] on values that are not
    strings. *)
Record World := {
  outcome : history -> op -> option exn;        (* calls whose result is unused *)
  find_elements : history -> string -> reply nat;   (* number of elements found *)
  execute : history -> script -> reply jsval;
  quit : history -> option base_exn;
  latency : history -> op -> N;                (* how long the call takes, ms *)
  json_loads : string -> reply jvalue;
  py_repr : jvalue -> string
}.

(** The configuration of one scraper object and of the process. *)
Record Config := {
  chart_page_id : string;
  use_save_shortcut : bool;
  platform_system : string;                    (* platform.system() *)
  session_id : option string;                  (* os.getenv(SESSION_ID_ENV_VAR) *)
  session_id_sign : option string
}.

(** The mutable part: [self.driver] is set, the clock, the history. *)
Record State := {
  driver : bool;
  now : N;
  trace : history
}.

Inductive result (A : Type) :=
| Ok (a : A)
| Raise (e : exn)
| OutOfFuel.
Arguments Ok {A} a.
Arguments Raise {A} e.
Arguments OutOfFuel {A}.

Definition M (A : Type) : Type := State -> result A * State.

Definition ret {A} (a : A) : M A := fun st => (Ok a, st).

Definition bind {A B} (m : M A) (k : A -> M B) : M B := fun st =>
  match m st with
  | (Ok a, st') => k a st'
  | (Raise e, st') => (Raise e, st')
  | (OutOfFuel, st') => (OutOfFuel, st')
  end.

Definition raise {A} (e : exn) : M A := fun st => (Raise e, st).

Definition out_of_fuel {A} : M A := fun st => (OutOfFuel, st).

Declare Scope py_scope.
Delimit Scope py_scope with py.
Notation "x <- m ;; k" := (bind m (fun x => k))
  (at level 61, m at next level, right associativity) : py_scope.
Notation "m ;; k" := (bind m (fun _ => k))
  (at level 61, right associativity) : py_scope.
Open Scope py_scope.

(** [try: m  except C1: h1  except C2: h2 ...]: the first clause whose
    class the exception belongs to handles it. *)
Fixpoint select_handler {A} (clauses : list ((exn -> bool) * (exn -> M A)))
  (e : exn) : option (M A) :=
  match clauses with
  | [] => None
  | (cls, h) :: rest => if cls e then Some (h e) else select_handler rest e
  end.

Definition try_except {A} (m : M A)
  (clauses : list ((exn -> bool) * (exn -> M A))) : M A := fun st =>
  match m st with
  | (Raise e, st') =>
      match select_handler clauses e with
      | Some h => h st'
      | None => (Raise e, st')
      end
  | r => r
  end.

Definition get_driver : M bool := fun st => (Ok (driver st), st).

Definition set_driver (d : bool) : M unit := fun st =>
  (Ok tt, {| driver := d; now := now st; trace := trace st |}).

(** [time.time()] *)
Definition time_now : M N := fun st => (Ok (now st), st).

Definition emit (ev : event) (dt : N) : State -> State := fun st =>
  {| driver := driver st; now := now st + dt; trace := ev :: trace st |}.

(** [time.sleep(ms / 1000)] *)
Definition sleep (ms : N) : M unit := fun st => (Ok tt, emit (Sleep ms) ms st).

Definition log (ev : event) : M unit := fun st => (Ok tt, emit ev 0 st).

(** A driver call whose result the code does not use. *)
Definition act (w : World) (o : op) : M unit := fun st =>
  let st' := emit (Call o) (latency w (trace st) o) st in
  match outcome w (trace st) o with
  | None => (Ok tt, st')
  | Some e => (Raise e, st')
  end.

Definition of_reply {A} (r : reply A) (st' : State) : result A * State :=
  match r with
  | Returns a => (Ok a, st')
  | Raises e => (Raise e, st')
  end.

(** [len(self.driver.find_elements(By.CSS_SELECTOR, css))] *)
Definition count_elements (w : World) (css : string) : M nat := fun st =>
  let o := FindElements css in
  of_reply (find_elements w (trace st) css)
    (emit (Call o) (latency w (trace st) o) st).

(** [self.driver.execute_script(...)] and [execute_async_script(...)] *)
Definition run_script (w : World) (s : script) : M jsval := fun st =>
  let o := Execute s in
  of_reply (execute w (trace st) s)
    (emit (Call o) (latency w (trace st) o) st).

(** Python's [float] is IEEE 754 binary64. *)
Definition prec : Z := 53.
Definition emax : Z := 1024.

(** The [float] nearest to a whole number. *)
Definition float_of_N (n : N) : spec_float :=
  binary_normalize prec emax (Z.of_N n) 0 false.

(** The reading [time.time()] gives when the clock stands at [ms]
    milliseconds, and the [float] of a time limit or a literal such as
    [1.5]: the [float] nearest to [ms / 1000] seconds. *)
Definition seconds (ms : N) : spec_float :=
  SFdiv prec emax (float_of_N ms) (float_of_N 1000).

(** [(t - start) < limit] as the floats decide it. *)
Definition float_elapsed_below (start t limit : N) : bool :=
  SFltb (SFsub prec emax (seconds t) (seconds start)) (seconds limit).

(** The loop test [(time.time() - start) < limit].  The code computes it
    on floats.  Two readings of a clock that counts milliseconds differ
    from their exact difference by far less than a millisecond, so the
    floats can decide otherwise than the exact values only where the time
    elapsed is the limit itself: there the outcome is the one of the
    binary64 subtraction and comparison, and the loop may make one more
    pass. *)
Definition elapsed_below (start t limit : N) : bool :=
  match (t - start ?= limit)%N with
  | Lt => true
  | Eq => float_elapsed_below start t limit
  | Gt => false
  end.

(** A polling loop of the source:
    [while (time.time() - start) < limit: <body>; time.sleep(interval)],
    where the body leaves the loop with a value ([Some]) or falls through
    to the sleep ([None]).  The loop returns [None] when the time is up.
    [fuel] bounds the number of passes. *)
Fixpoint poll {A} (fuel : nat) (start limit interval : N)
  (body : M (option A)) : M (option A) :=
  t <- time_now ;;
  if elapsed_below start t limit then
    match fuel with
    | O => out_of_fuel
    | S fuel' =>
        r <- body ;;
        match r with
        | Some a => ret (Some a)
        | None => sleep interval ;; poll fuel' start limit interval body
        end
    end
  else ret None.

End Py.

(** ** The scraper ([class TradingViewScraper]) *)

Module Scraper.
Import PyStr Py.
Open Scope py_scope.

Definition TRADINGVIEW_CHART_BASE_URL : string := "https://in.tradingview.com/chart/".
Definition SESSION_ID_COOKIE : string := "sessionid".
Definition SESSION_ID_SIGN_COOKIE : string := "sessionid_sign".
Definition MAX_CLIPBOARD_ATTEMPTS : nat := 5.
Definition CLIPBOARD_RETRY_INTERVAL : N := 1000.
Definition MAX_CHART_WAIT_TIME : N := 6000.
Definition MAX_CLIPBOARD_WAIT_TIME : N := 3000.
Definition SAVE_SHORTCUT_IMAGE_DELAY : N := 300.
Definition ACTION_DELAY : N := 300.

Definition when (b : bool) (m : M unit) : M unit := if b then m else ret tt.

(** What one pass of a retry loop decides: [return] a value, go on to
    the next attempt, or [break]. *)
Inductive attempt (A : Type) :=
| Return (a : A)
| Retry
| Abort.
Arguments Return {A} a.
Arguments Retry {A}.
Arguments Abort {A}.

(** *** Session Resource *)

(** [_get_chromedriver_path] reduced to its outcome: every exception
    inside it becomes a [TradingViewScraperError]. *)
Definition _get_chromedriver_path (w : World) : M unit :=
  try_except (act w ChromedriverPath)
    [(is_Exception,
      fun _ => raise (TradingViewScraperError "Failed to get ChromeDriver path"))].

Definition _setup_driver (w : World) : M unit :=
  log (Log Info "Initializing WebDriver...") ;;
  _get_chromedriver_path w ;;
  try_except
    (act w StartChrome ;;
     set_driver true ;;
     act w SetScriptTimeout ;;
     act w ImplicitlyWait)
    [(is_WebDriverException,
      fun _ => raise (TradingViewScraperError "WebDriver initialization failed"))].

(** [close]: the three [except] clauses around [self.driver.quit()]. *)
Definition close (w : World) : M unit := fun st =>
  if driver st then
    let st' := emit (Call Quit) (latency w (trace st) Quit) st in
    match quit w (trace st) with
    | None => set_driver false st'
    | Some (Exc e) =>
        if is_WebDriverException e then
          log (Log Warning "Error quitting WebDriver (might be already closed)") st'
        else if is_OSError e then
          (log (Log Warning "Connection error during WebDriver quit (ignoring)") ;;
           set_driver false) st'
        else
          (log (Log Warning "Unexpected error during WebDriver quit (ignoring)") ;;
           set_driver false) st'
    | Some KeyboardInterrupt =>
        (log (Log Warning "Connection error during WebDriver quit (ignoring)") ;;
         set_driver false) st'
    end
  else (Ok tt, st).

Definition __enter__ (w : World) : M unit := _setup_driver w.

Definition __exit__ (w : World) : M unit := close w.

(** [with TradingViewScraper(...) as scraper: body].  The constructor
    sets [self.driver = None]; [__exit__] runs on every way out of the
    body and returns [None], so an exception of the body goes on. *)
Definition with_scraper {A} (w : World) (body : M A) : M A :=
  set_driver false ;;
  __enter__ w ;;
  fun st =>
    match body st with
    | (Ok a, st') => (__exit__ w ;; ret a) st'
    | (Raise e, st') => (__exit__ w ;; raise e) st'
    | (OutOfFuel, st') => (OutOfFuel, st')
    end.

(** *** Auth Injector *)

Definition env_set (v : option string) : bool :=
  match v with Some s => truthy s | None => false end.

Definition env_value (v : option string) : string :=
  match v with Some s => s | None => EmptyString end.

Definition _set_auth_cookies_optimized (w : World) (c : Config)
  (chart_url : string) : M bool :=
  if negb (env_set (session_id c)) || negb (env_set (session_id_sign c)) then
    log (Log Warning "TradingView session cookies not found.") ;; ret false
  else
    d <- get_driver ;;
    if negb d then
      log (Log Error "Driver not initialized before setting cookies.") ;; ret false
    else
      try_except
        (act w (Get chart_url) ;;
         when (env_set (session_id c))
           (act w (AddCookie SESSION_ID_COOKIE (env_value (session_id c)))) ;;
         when (env_set (session_id_sign c))
           (act w (AddCookie SESSION_ID_SIGN_COOKIE (env_value (session_id_sign c)))) ;;
         act w Refresh ;;
         ret true)
        [(is_WebDriverException,
          fun _ => log (Log Error "Error setting cookies") ;; ret false)].

(** *** Readiness Prober *)

Definition CANVAS_CSS : string := "canvas".
Definition WIDGET_CSS : string :=
  ".chart-widget, .tv-chart-widget, [data-name='chart-widget']".
Definition PRICE_CSS : string :=
  ".tv-symbol-header, [data-name='legend-source-item']".
Definition PRICE_DATA_CSS : string :=
  "[data-name='legend-source-item'], .tv-symbol-header, .js-button-text".
Definition SPINNER_CSS : string :=
  ".tv-spinner--shown, .loading, [data-role='spinner']".

(** Body of the loop "Parallel check for chart rendering elements". *)
Definition element_poll_body (w : World) : M (option unit) :=
  try_except
    (canvas_elements <- count_elements w CANVAS_CSS ;;
     chart_widgets <- count_elements w WIDGET_CSS ;;
     price_elements <- count_elements w PRICE_CSS ;;
     if (((0 <? canvas_elements) || (0 <? chart_widgets)) && (0 <? price_elements))%nat
     then ret (Some tt)
     else ret None)
    [(is_Exception, fun _ => ret None)].

(** Body of the loop "Just ensure no major loading indicators". *)
Definition loading_check_body (w : World) : M (option unit) :=
  try_except
    (loading_indicators <- count_elements w SPINNER_CSS ;;
     if (loading_indicators =? 0)%nat then ret (Some tt) else ret None)
    [(is_Exception, fun _ => ret None)].

(** Body of the loop "Traditional method with minimal data check". *)
Definition data_check_body (w : World) : M (option unit) :=
  try_except
    (price_elements <- count_elements w PRICE_DATA_CSS ;;
     canvas_elements <- count_elements w CANVAS_CSS ;;
     loading_indicators <- count_elements w SPINNER_CSS ;;
     if ((0 <? price_elements) && (0 <? canvas_elements) && (loading_indicators =? 0))%nat
     then ret (Some tt)
     else ret None)
    [(is_Exception, fun _ => ret None)].

(** The readiness probing of [_navigate_and_wait], from
    [start_time = time.time()] to the end of the inner [try]. *)
Definition wait_for_chart (fuel : nat) (w : World) (c : Config) : M unit :=
  log (Log Info "Waiting for chart to be ready...") ;;
  start_time <- time_now ;;
  try_except
    (act w WaitInfrastructure ;;
     element_wait_start <- time_now ;;
     chart_elements_ready <- poll fuel element_wait_start 2000 100 (element_poll_body w) ;;
     if use_save_shortcut c then
       loading_check_start <- time_now ;;
       _ <- poll fuel loading_check_start 1500 100 (loading_check_body w) ;;
       ret tt
     else
       data_wait_start <- time_now ;;
       chart_ready <- poll fuel data_wait_start 2000 100 (data_check_body w) ;;
       ret tt)
    [(is_TimeoutException,
      fun _ =>
        log (Log Warning "Chart elements not found, using minimal fallback...") ;;
        sleep 500)].

Definition _navigate_and_wait (fuel : nat) (w : World) (c : Config)
  (url : string) : M unit :=
  d <- get_driver ;;
  if negb d then
    raise (TradingViewScraperError "Driver not available for navigation.")
  else
    try_except
      (act w (Get url) ;;
       wait_for_chart fuel w c)
      [(is_WebDriverException,
        fun _ => raise (TradingViewScraperError ("Navigation to " ++ url ++ " failed")))].

(** *** Capture Strategy, link variant
    ([_trigger_screenshot_and_get_link]) *)

(** [v and isinstance(v, str) and v.strip()], giving the stripped text. *)
Definition stripped_text (v : jsval) : option string :=
  match v with
  | JsStr s => if truthy s && truthy (strip s) then Some (strip s) else None
  | _ => None
  end.

Definition link_poll_body (w : World) : M (option string) :=
  try_except
    (test_content <- run_script w ReadText ;;
     ret (stripped_text test_content))
    [(is_WebDriverException, fun _ => ret None)].

(** The [try] block of one attempt and its [except] clause. *)
Definition link_attempt (fuel : nat) (w : World) : M (attempt string) :=
  try_except
    (act w (Perform AltS) ;;
     clipboard_wait_start <- time_now ;;
     polled <- poll fuel clipboard_wait_start 5000 200 (link_poll_body w) ;;
     clipboard_content <-
       match polled with
       | Some s => ret (JsStr s)
       | None =>
           log (Log Info "Final attempt to read clipboard...") ;;
           try_except (run_script w ReadText)
             [(is_WebDriverException,
               fun _ => log (Log Warning "Failed to read clipboard") ;; ret JsNull)]
       end ;;
     match stripped_text clipboard_content with
     | Some s => ret (Return s)
     | None =>
         log (Log Warning "Clipboard was empty or returned non-string/empty content.") ;;
         ret Retry
     end)
    [(is_WebDriverException,
      fun _ =>
        log (Log Error "Error during screenshot trigger or clipboard read") ;;
        ret Abort)].

(** [for attempt in range(MAX_CLIPBOARD_ATTEMPTS)] with [remaining]
    passes to go, and what follows the loop. *)
Fixpoint link_attempts (fuel : nat) (w : World) (remaining : nat)
  : M (option string) :=
  match remaining with
  | O =>
      log (Log Error "Failed to retrieve screenshot link from clipboard after retries.") ;;
      ret None
  | S remaining' =>
      let attempt := (MAX_CLIPBOARD_ATTEMPTS - remaining)%nat in
      log (LogAttempt (attempt + 1)%nat MAX_CLIPBOARD_ATTEMPTS) ;;
      r <- link_attempt fuel w ;;
      match r with
      | Return s => ret (Some s)
      | Abort =>
          log (Log Error "Failed to retrieve screenshot link from clipboard after retries.") ;;
          ret None
      | Retry =>
          when (attempt <? MAX_CLIPBOARD_ATTEMPTS - 1)%nat (sleep CLIPBOARD_RETRY_INTERVAL) ;;
          link_attempts fuel w remaining'
      end
  end.

Definition _trigger_screenshot_and_get_link (fuel : nat) (w : World)
  : M (option string) :=
  d <- get_driver ;;
  if negb d then
    raise (TradingViewScraperError "Driver not available for triggering screenshot.")
  else link_attempts fuel w MAX_CLIPBOARD_ATTEMPTS.

(** *** Capture Strategy, image variant and its text channel
    ([_get_clipboard_content]) *)

Definition _send_save_shortcut (w : World) (c : Config) : M unit :=
  d <- get_driver ;;
  if negb d then
    raise (TradingViewScraperError "Driver not available for sending shortcuts.")
  else
    try_except
      (if String.eqb (platform_system c) "Darwin"
       then act w (Perform ShiftCmdS)
       else act w (Perform ShiftCtrlS))
      [(is_Exception,
        fun e => log (Log Error "Error sending save shortcut") ;; raise e)].

(** The [for] loop of [_try_alternative_shortcuts]. *)
Fixpoint try_shortcuts (w : World) (shortcuts : list chord) : M bool :=
  match shortcuts with
  | [] => ret false
  | shortcut :: rest =>
      sent <- try_except
                (act w (Perform shortcut) ;; sleep 2000 ;; ret true)
                [(is_WebDriverException, fun _ => ret false)] ;;
      if sent then ret true else try_shortcuts w rest
  end.

Definition _try_alternative_shortcuts (w : World) : M bool :=
  try_shortcuts w [CtrlAltS; CtrlS; AltShiftS].

(** What [_read_image_from_clipboard] makes of the value the image
    reader returned: the test [image_data_url and
    image_data_url.startswith("data:image/")], then [split(",", 1)] and
    [base64.b64decode]. *)
Definition image_bytes_of (image_data_url : jsval) : result (option (list byte)) :=
  if js_truthy image_data_url then
    match image_data_url with
    | JsStr s =>
        if startswith s "data:image/" then
          match split_comma s with
          | Some (header, data) =>
              match Base64.b64decode data with
              | Some image_bytes => Ok (Some image_bytes)
              | None => Raise (ValueError "binascii.Error")
              end
          | None => Raise (ValueError "not enough values to unpack")
          end
        else Ok None
    | _ => Raise AttributeError
    end
  else Ok None.

Definition lift {A} (r : result A) : M A := fun st => (r, st).

Definition _read_image_from_clipboard (w : World) : M (option (list byte)) :=
  d <- get_driver ;;
  if negb d then
    raise (TradingViewScraperError "Driver not available for reading image from clipboard.")
  else
    try_except
      (has_clipboard_api <- run_script w HasClipboardApi ;;
       if negb (js_truthy has_clipboard_api) then ret None
       else
         image_data_url <- run_script w ReadImage ;;
         lift (image_bytes_of image_data_url))
      [(is_WebDriverException,
        fun _ => log (Log Warning "Failed to read image from clipboard") ;; ret None)].

(** [v and v.strip()] on a clipboard value: the text when it is a
    string with something besides white space, [None] when the test is
    false, [AttributeError] for a true value that is not a string. *)
Definition nonblank_text (v : jsval) : M (option string) :=
  if js_truthy v then
    match v with
    | JsStr s => if truthy (strip s) then ret (Some s) else ret None
    | _ => raise AttributeError
    end
  else ret None.

Definition retryable_codes : list jvalue :=
  [JStr "40001"; JInt 40001; JStr "50000"; JInt 50000;
   JStr "502"; JInt 502; JStr "503"; JInt 503].

(** [response.get(k)] *)
Definition dict_get_or_none (k : string) (d : list (string * jvalue)) : jvalue :=
  match dict_get k d with Some v => v | None => JNull end.

(** [str(v)] *)
Definition py_str (w : World) (v : jvalue) : string :=
  match v with JStr s => s | _ => py_repr w v end.

Definition is_JSONDecodeError_or_TypeError (e : exn) : bool :=
  match e with JSONDecodeError | TypeError => true | _ => false end.

(** The test on the decoded clipboard text: an object with [code],
    [msg] and [success] being [False], whose code is one of
    [retryable_codes] or whose message contains "Server Error". *)
Definition retryable_error_object (w : World) (response : jvalue) : bool :=
  match response with
  | JDict d =>
      if dict_has "code" d && dict_has "msg" d
         && match dict_get_or_none "success" d with
            | JBool false => true
            | _ => false
            end
      then
        let error_code := dict_get_or_none "code" d in
        let error_msg := dict_get_or_none "msg" d in
        existsb (py_eq_const error_code) retryable_codes
        || contains "Server Error" (py_str w error_msg)
      else false
  | _ => false
  end.

(** "Check for server error JSON in clipboard content": raises
    [TradingViewClipboardServerError] for a retryable error object and
    returns otherwise. *)
Definition check_server_error (w : World) (clipboard_content : string) : M unit :=
  try_except
    (response <- of_reply (json_loads w clipboard_content) ;;
     if retryable_error_object w response then
       log (Log Warning "Detected retryable server error in clipboard") ;;
       raise (TradingViewClipboardServerError "Server error in clipboard")
     else ret tt)
    [(is_JSONDecodeError_or_TypeError, fun _ => ret tt)].

Definition text_poll_body (w : World) : M (option string) :=
  try_except
    (test_content <- run_script w ReadText ;;
     nonblank_text test_content)
    [(is_WebDriverException, fun _ => ret None)].

(** The traditional branch of one attempt.  Every pass assigns
    [clipboard_content] before it reads it, so the variable is local
    to the pass. *)
Definition text_attempt (fuel : nat) (w : World) : M (attempt string) :=
  clipboard_wait_start <- time_now ;;
  polled <- poll fuel clipboard_wait_start MAX_CLIPBOARD_WAIT_TIME 100 (text_poll_body w) ;;
  clipboard_content <-
    match polled with
    | Some s => ret (JsStr s)
    | None =>
        try_except (run_script w ReadText)
          [(is_WebDriverException,
            fun _ => log (Log Warning "Failed to read text from clipboard") ;; ret JsNull)]
    end ;;
  valid <- nonblank_text clipboard_content ;;
  match valid with
  | Some s =>
      check_server_error w s ;;
      log (Log Info "Successfully retrieved text content from clipboard.") ;;
      ret (Return s)
  | None =>
      log (Log Info "No content found, trying alternative shortcuts...") ;;
      sent <- _try_alternative_shortcuts w ;;
      if sent then
        try_except
          (alt_clipboard_content <- run_script w ReadText ;;
           alt <- nonblank_text alt_clipboard_content ;;
           match alt with
           | Some s => ret (Return s)
           | None => ret Retry
           end)
          [(is_WebDriverException,
            fun _ =>
              log (Log Warning "Failed to read clipboard after alternative shortcut") ;;
              ret Retry)]
      else ret Retry
  end.

(** The save-shortcut branch of one attempt. *)
Definition image_attempt (w : World) : M (attempt string) :=
  sleep SAVE_SHORTCUT_IMAGE_DELAY ;;
  image_data <- _read_image_from_clipboard w ;;
  match image_data with
  | Some (b :: l) => ret (Return (ImageUrl._convert_clipboard_to_image_url (b :: l)))
  | _ => log (Log Warning "No image data found in clipboard, will retry...") ;; ret Retry
  end.

Definition clipboard_attempt (fuel : nat) (w : World) (c : Config)
  : M (attempt string) :=
  try_except
    (_send_save_shortcut w c ;;
     if use_save_shortcut c then image_attempt w else text_attempt fuel w)
    [(is_TradingViewClipboardServerError,
      fun _ =>
        log (Log Warning "[Clipboard] Server error detected in clipboard, will retry") ;;
        ret Retry);
     (is_WebDriverException,
      fun _ => log (Log Warning "Error during clipboard operation") ;; ret Retry)].

Fixpoint clipboard_attempts (fuel : nat) (w : World) (c : Config)
  (remaining : nat) : M string :=
  match remaining with
  | O =>
      log (Log Error "Failed to get clipboard content after multiple attempts.") ;;
      raise (TradingViewScraperError "Failed to get clipboard content after multiple attempts")
  | S remaining' =>
      let attempt := (MAX_CLIPBOARD_ATTEMPTS - remaining)%nat in
      log (LogAttempt (attempt + 1)%nat MAX_CLIPBOARD_ATTEMPTS) ;;
      r <- clipboard_attempt fuel w c ;;
      match r with
      | Return s => ret s
      | _ =>
          when (attempt <? MAX_CLIPBOARD_ATTEMPTS - 1)%nat
            (sleep (if use_save_shortcut c then 500%N else CLIPBOARD_RETRY_INTERVAL)) ;;
          clipboard_attempts fuel w c remaining'
      end
  end.

Definition _get_clipboard_content (fuel : nat) (w : World) (c : Config)
  : M string :=
  d <- get_driver ;;
  if negb d then
    raise (TradingViewScraperError "Driver not available for clipboard reading.")
  else clipboard_attempts fuel w c MAX_CLIPBOARD_ATTEMPTS.

(** *** Capture Orchestrator *)

Definition chart_url (c : Config) (ticker interval : string) : string :=
  TRADINGVIEW_CHART_BASE_URL ++ chart_page_id c ++ "/?symbol=" ++ ticker
    ++ "&interval=" ++ interval.

(** The [try] block of [get_chart_image_url]: authentication,
    navigation, clearing the clipboard and the capture, up to
    [return image_url]. *)
Definition chart_image_steps (fuel : nat) (w : World) (c : Config)
  (ticker interval : string) : M (option string) :=
  authenticated <- _set_auth_cookies_optimized w c (chart_url c ticker interval) ;;
  when (negb authenticated)
    (log (Log Warning "Proceeding without guaranteed authentication (cookies not set).")) ;;
  _navigate_and_wait fuel w c (chart_url c ticker interval) ;;
  try_except
    (_ <- run_script w ClearClipboard ;;
     sleep ACTION_DELAY)
    [(is_WebDriverException,
      fun _ => log (Log Warning "Could not clear browser clipboard"))] ;;
  image_url <- _get_clipboard_content fuel w c ;;
  (if truthy image_url
      && (startswith image_url "https://s3.tradingview.com/snapshots/"
          || startswith image_url "data:image/")
   then log (Log Info "[Result] Successfully obtained image URL")
   else log (Log Warning "[Result] Unexpected image URL or format")) ;;
  ret (Some image_url).

Definition get_chart_image_url (fuel : nat) (w : World) (c : Config)
  (ticker interval : string) : M (option string) :=
  log (Log Info "=== Starting chart capture ===") ;;
  d <- get_driver ;;
  if negb d then
    raise (TradingViewScraperError "Driver not initialized. Use within a 'with' statement.")
  else if negb (truthy ticker) || negb (truthy interval) then
    raise (ValueError "Ticker and Interval must be provided.")
  else
    try_except
      (chart_image_steps fuel w c ticker interval)
      [(is_TradingViewScraperError,
        fun _ => log (Log Error "Scraping failed") ;; ret None);
       (is_Exception,
        fun _ => log (Log Error "An unexpected error occurred") ;; ret None)].

Definition get_screenshot_link (fuel : nat) (w : World) (c : Config)
  (ticker interval : string) : M (option string) :=
  d <- get_driver ;;
  if negb d then
    raise (TradingViewScraperError "Driver not initialized. Use within a 'with' statement.")
  else if negb (truthy ticker) || negb (truthy interval) then
    raise (ValueError "Ticker and Interval must be provided.")
  else
    try_except
      (authenticated <- _set_auth_cookies_optimized w c (chart_url c ticker interval) ;;
       when (negb authenticated)
         (log (Log Warning "Proceeding without guaranteed authentication (cookies not set).")) ;;
       _navigate_and_wait fuel w c (chart_url c ticker interval) ;;
       _trigger_screenshot_and_get_link fuel w)
      [(is_TradingViewScraperError, fun e => raise e);
       (is_WebDriverException,
        fun _ => raise (TradingViewScraperError
                          "Screenshot capture failed due to WebDriver error"));
       (is_Exception,
        fun _ => raise (TradingViewScraperError
                          "An unexpected error occurred during screenshot capture"))].

End Scraper.

(** ** Notions used to state the properties of the engine *)

Module Observe.
Import PyStr Py Scraper.

(** The number of attempts a retry loop has announced. *)
Fixpoint attempts_of (h : history) : nat :=
  match h with
  | [] => 0
  | LogAttempt _ _ :: h' => S (attempts_of h')
  | _ :: h' => attempts_of h'
  end.

(** The interactions with the browser, latest first. *)
Fixpoint calls_of (h : history) : list op :=
  match h with
  | [] => []
  | Call o :: h' => o :: calls_of h'
  | _ :: h' => calls_of h'
  end.

(** The pauses of a given length. *)
Fixpoint sleeps_of (ms : N) (h : history) : nat :=
  match h with
  | [] => 0
  | Sleep d :: h' => (if (d =? ms)%N then 1 else 0) + sleeps_of ms h'
  | _ :: h' => sleeps_of ms h'
  end.

(** How often a chord was sent. *)
Fixpoint chords_of (c : chord) (h : history) : nat :=
  match h with
  | [] => 0
  | Call (Perform c') :: h' =>
      (match c, c' with
       | AltS, AltS | ShiftCtrlS, ShiftCtrlS | ShiftCmdS, ShiftCmdS
       | CtrlAltS, CtrlAltS | CtrlS, CtrlS | AltShiftS, AltShiftS => 1
       | _, _ => 0
       end) + chords_of c h'
  | _ :: h' => chords_of c h'
  end.

(** A read of the text clipboard that the link variant takes for empty:
    nothing, white space, not a string, or a WebDriver error. *)
Definition empty_for_link (r : reply jsval) : bool :=
  match r with
  | Returns v => match stripped_text v with None => true | Some _ => false end
  | Raises e => is_WebDriverException e
  end.

(** A read of the text clipboard that [_get_clipboard_content] takes
    for empty: a false value, white space, or a WebDriver error. *)
Definition empty_for_text (r : reply jsval) : bool :=
  match r with
  | Returns v =>
      negb (js_truthy v)
      || match v with JsStr s => negb (truthy (strip s)) | _ => false end
  | Raises e => is_WebDriverException e
  end.



(** Sending a chord works or fails with a WebDriver error. *)
Definition chord_sent_or_driver_error (r : option exn) : bool :=
  match r with
  | None => true
  | Some e => is_WebDriverException e
  end.

(** The clipboard text is a retryable server error. *)
Definition clipboard_server_error (w : World) (s : string) : bool :=
  match json_loads w s with
  | Returns response => retryable_error_object w response
  | Raises _ => false
  end.

(** The clipboard text passes the check for a server error: it decodes
    to something that is no retryable error, or it does not decode and
    [json.loads] raises one of the two exceptions the check catches. *)
Definition clipboard_text_passes (w : World) (s : string) : bool :=
  match json_loads w s with
  | Returns response => negb (retryable_error_object w response)
  | Raises e => is_JSONDecodeError_or_TypeError e
  end.

(** The save chord of the platform. *)
Definition save_chord (c : Config) : chord :=
  if String.eqb (platform_system c) "Darwin" then ShiftCmdS else ShiftCtrlS.

(** What a pass of a retry loop keeps: the driver and the number of
    attempts announced; the clock only advances. *)
Definition kept (s s' : State) : Prop :=
  driver s' = driver s
  /\ attempts_of (trace s') = attempts_of (trace s)
  /\ (now s <= now s')%N.

(** The line that opens the readiness probing. *)
Definition WAITING : event := Log Info "Waiting for chart to be ready...".

(** The line that opens [get_chart_image_url]. *)
Definition STARTING : event := Log Info "=== Starting chart capture ===".

(** A computation that, run with the fuel it was given, comes to an end
    and does not set the clock back. *)
Definition sound {A} (m : M A) : Prop :=
  forall st, fst (m st) <> OutOfFuel /\ (now st <= now (snd (m st)))%N.

(** A computation that takes at most [d] milliseconds. *)
Definition lasts {A} (d : N) (m : M A) : Prop :=
  forall st, (now (snd (m st)) <= now st + d)%N.

(** A computation that returns a value: it neither raises nor runs out
    of fuel. *)
Definition returns {A} (m : M A) : Prop :=
  forall st, exists a, fst (m st) = Ok a.

(** The fuel that is enough for every polling loop of the scraper: the
    longest one, 3 s in steps of 0.1 s, makes at most 31 passes, the last
    of them when the floats let the test at the limit itself pass. *)
Definition ENOUGH_FUEL : nat := 31.

(** A browser in which every call succeeds at once and finds nothing. *)
Definition idle_world : World :=
  {| outcome := fun _ _ => None;
     find_elements := fun _ _ => Returns 0%nat;
     execute := fun _ _ => Returns JsNull;
     quit := fun _ => None;
     latency := fun _ _ => 0%N;
     json_loads := fun _ => Raises JSONDecodeError;
     py_repr := fun _ => EmptyString |}.

(** The same browser, except that [driver.quit()] raises a
    [WebDriverException]. *)
Definition quit_fails_world : World :=
  {| outcome := fun _ _ => None;
     find_elements := fun _ _ => Returns 0%nat;
     execute := fun _ _ => Returns JsNull;
     quit := fun _ => Some (Exc WebDriverException);
     latency := fun _ _ => 0%N;
     json_loads := fun _ => Raises JSONDecodeError;
     py_repr := fun _ => EmptyString |}.

(** What a retry loop of the link variant leaves in the history: the
    attempts announced, the pauses between attempts, the screenshot chords. *)
Definition tally (h : history) : nat * nat * nat :=
  (attempts_of h, sleeps_of CLIPBOARD_RETRY_INTERVAL h, chords_of AltS h).

(** The link variant finds the clipboard empty: the chord is sent and
    the read is empty. *)
Definition link_empty_at (w : World) (h : history) : Prop :=
  outcome w h (Perform AltS) = None
  /\ empty_for_link (execute w h ReadText) = true.



(** [_get_clipboard_content] finds a payload that makes it return
    [url]: an image of at least one byte, of which [url] is the data URL,
    or, on the text channel, the text [url] itself, which is more than
    white space and passes the check for a server error. *)
Definition clipboard_valid_at (w : World) (c : Config) (h : history)
  (url : string) : Prop :=
  outcome w h (Perform (save_chord c)) = None
  /\ if use_save_shortcut c
     then exists probe data b l,
            execute w h HasClipboardApi = Returns probe
            /\ js_truthy probe = true
            /\ execute w h ReadImage = Returns data
            /\ image_bytes_of data = Ok (Some (b :: l))
            /\ url = ImageUrl._convert_clipboard_to_image_url (b :: l)
     else execute w h ReadText = Returns (JsStr url)
          /\ truthy (strip url) = true
          /\ clipboard_text_passes w url = true.

(** The text clipboard holds a retryable server error. *)
Definition clipboard_server_error_at (w : World) (c : Config) (h : history)
  (payload : string) : Prop :=
  (forall ch, chord_sent_or_driver_error (outcome w h (Perform ch)) = true)
  /\ execute w h ReadText = Returns (JsStr payload)
  /\ truthy (strip payload) = true
  /\ clipboard_server_error w payload = true.

(** The reads of the text clipboard made since the attempt in progress
    was announced. *)
Fixpoint reads_in_attempt (h : history) : nat :=
  match h with
  | [] => 0
  | LogAttempt _ _ :: _ => 0
  | Call (Execute ReadText) :: h' => S (reads_in_attempt h')
  | _ :: h' => reads_in_attempt h'
  end.


(** A payload that makes [_get_clipboard_content] return [url] reaches
    the clipboard during an attempt: on the text channel the reads of
    the attempt numbered below [late] are empty; from then on the
    payload is there. *)
Definition clipboard_arrives_at (w : World) (c : Config) (h : history)
  (late : nat) (url : string) : Prop :=
  if (reads_in_attempt h <? late)%nat
  then outcome w h (Perform (save_chord c)) = None
       /\ use_save_shortcut c = false
       /\ empty_for_text (execute w h ReadText) = true
  else clipboard_valid_at w c h url.

(** The text [payload] reaches the text clipboard during an attempt:
    the reads of the attempt numbered below [late] are empty, the later
    ones find [payload]. *)
Definition text_arrives_at (w : World) (h : history) (late : nat)
  (payload : string) : Prop :=
  if (reads_in_attempt h <? late)%nat
  then empty_for_text (execute w h ReadText) = true
  else execute w h ReadText = Returns (JsStr payload).

(** A retryable server error reaches the text clipboard during an
    attempt, in which chords are sent or fail with a WebDriver error. *)
Definition server_error_arrives_at (w : World) (h : history) (late : nat)
  (payload : string) : Prop :=
  (forall ch, chord_sent_or_driver_error (outcome w h (Perform ch)) = true)
  /\ truthy (strip payload) = true
  /\ clipboard_server_error w payload = true
  /\ text_arrives_at w h late payload.



Definition CLIPBOARD_EXHAUSTED : exn :=
  TradingViewScraperError "Failed to get clipboard content after multiple attempts".

(** The two payloads of the server error classification, and what
    [json.loads] makes of them. *)
Definition dq : string := String (ascii_of_N 34) EmptyString.

Definition SERVER_ERROR_PAYLOAD : string :=
  "{" ++ dq ++ "success" ++ dq ++ ": false, " ++ dq ++ "code" ++ dq ++ ": 50000, "
    ++ dq ++ "msg" ++ dq ++ ": " ++ dq ++ "Server Error" ++ dq ++ "}".

Definition BAD_INPUT_PAYLOAD : string :=
  "{" ++ dq ++ "success" ++ dq ++ ": false, " ++ dq ++ "code" ++ dq ++ ": 40099, "
    ++ dq ++ "msg" ++ dq ++ ": " ++ dq ++ "Bad Input" ++ dq ++ "}".

Definition SERVER_ERROR_OBJECT : jvalue :=
  JDict [("success", JBool false); ("code", JInt 50000); ("msg", JStr "Server Error")].

Definition BAD_INPUT_OBJECT : jvalue :=
  JDict [("success", JBool false); ("code", JInt 40099); ("msg", JStr "Bad Input")].

(** [json.loads] as far as the example browsers need it. *)
Definition example_json_loads (s : string) : reply jvalue :=
  if String.eqb s SERVER_ERROR_PAYLOAD then Returns SERVER_ERROR_OBJECT
  else if String.eqb s BAD_INPUT_PAYLOAD then Returns BAD_INPUT_OBJECT
  else Raises JSONDecodeError.

(** A browser whose text clipboard always holds [payload]. *)
Definition clipboard_holds_world (payload : string) : World :=
  {| outcome := fun _ _ => None;
     find_elements := fun _ _ => Returns 0%nat;
     execute := fun _ s => match s with
                           | ReadText => Returns (JsStr payload)
                           | _ => Returns JsNull
                           end;
     quit := fun _ => None;
     latency := fun _ _ => 0%N;
     json_loads := example_json_loads;
     py_repr := fun _ => EmptyString |}.

(** A browser whose clipboard cannot be read: every read of the text
    clipboard raises a [WebDriverException]. *)
Definition clipboard_unreadable_world : World :=
  {| outcome := fun _ _ => None;
     find_elements := fun _ _ => Returns 0%nat;
     execute := fun _ s => match s with
                           | ReadText => Raises WebDriverException
                           | _ => Returns JsNull
                           end;
     quit := fun _ => None;
     latency := fun _ _ => 0%N;
     json_loads := fun _ => Raises JSONDecodeError;
     py_repr := fun _ => EmptyString |}.

(** A browser whose text clipboard is empty during the first two
    attempts and holds a share link from the third attempt on. *)
Definition link_on_third_attempt_world : World :=
  {| outcome := fun _ _ => None;
     find_elements := fun _ _ => Returns 0%nat;
     execute := fun h s =>
       match s with
       | ReadText =>
           if (attempts_of h <=? 2)%nat then Returns JsNull
           else Returns (JsStr " https://www.tradingview.com/x/AbCdEf12 ")
       | _ => Returns JsNull
       end;
     quit := fun _ => None;
     latency := fun _ _ => 0%N;
     json_loads := fun _ => Raises JSONDecodeError;
     py_repr := fun _ => EmptyString |}.

(** A browser whose text clipboard is empty at the first read of every
    attempt and holds [payload] at the later ones; [json.loads] is the
    one of the two example payloads. *)
Definition late_clipboard_world (payload : string) : World :=
  {| outcome := fun _ _ => None;
     find_elements := fun _ _ => Returns 0%nat;
     execute := fun h s =>
       match s with
       | ReadText =>
           if (reads_in_attempt h <? 1)%nat then Returns JsNull
           else Returns (JsStr payload)
       | _ => Returns JsNull
       end;
     quit := fun _ => None;
     latency := fun _ _ => 0%N;
     json_loads := example_json_loads;
     py_repr := fun _ => EmptyString |}.




(** A browser in which the screenshot chord fails with a
    [WebDriverException] at the second attempt. *)
Definition chord_fails_on_second_attempt_world : World :=
  {| outcome := fun h o =>
       match o with
       | Perform AltS =>
           if (attempts_of h =? 2)%nat then Some WebDriverException else None
       | _ => None
       end;
     find_elements := fun _ _ => Returns 0%nat;
     execute := fun _ _ => Returns JsNull;
     quit := fun _ => None;
     latency := fun _ _ => 0%N;
     json_loads := fun _ => Raises JSONDecodeError;
     py_repr := fun _ => EmptyString |}.

(** A browser in which the chart shell appears after [shell]
    milliseconds and in which no chart element ever shows while a
    spinner stays.  Queries take no time. *)
Definition shell_after_world (shell : N) : World :=
  {| outcome := fun _ _ => None;
     find_elements := fun _ css => if String.eqb css SPINNER_CSS then Returns 1%nat
                                   else Returns 0%nat;
     execute := fun _ _ => Returns JsNull;
     quit := fun _ => None;
     latency := fun _ o => match o with
                           | WaitInfrastructure => shell
                           | _ => 0%N
                           end;
     json_loads := fun _ => Raises JSONDecodeError;
     py_repr := fun _ => EmptyString |}.

(** The shell appears after three seconds, within the time given to the
    infrastructure wait. *)
Definition slow_chart_world : World := shell_after_world 3000.

Definition linux_link_config : Config :=
  {| chart_page_id := "XHDbt5Yy";
     use_save_shortcut := false;
     platform_system := "Linux";
     session_id := Some "sid";
     session_id_sign := Some "sign" |}.

Definition linux_image_config : Config :=
  {| chart_page_id := "XHDbt5Yy";
     use_save_shortcut := true;
     platform_system := "Linux";
     session_id := Some "sid";
     session_id_sign := Some "sign" |}.

(** A scraper outside and inside its [with] block. *)
Definition fresh_state : State := {| driver := false; now := 0; trace := [] |}.
Definition ready_state : State := {| driver := true; now := 0; trace := [] |}.

End Observe.

(** ** The tool entry point ([main.py]) *)

Module Main.
Import PyStr Py Scraper.
Open Scope py_scope.

(** [get_tradingview_chart_image(ticker, interval, ctx)]; the messages
    sent through [ctx] are recorded as log events. *)
Definition get_tradingview_chart_image (fuel : nat) (w : World) (c : Config)
  (ticker interval : string) : M string :=
  log (Log Info "Attempting to get chart image") ;;
  try_except
    (with_scraper w
       (screenshot_link <- get_screenshot_link fuel w c ticker interval ;;
        match screenshot_link with
        | Some (String a l) =>
            match Normalizer.convert_link_to_image_url (Some (String a l)) with
            | Some (String b u) =>
                log (Log Info "Successfully obtained image URL") ;;
                ret (String b u)
            | _ =>
                raise (TradingViewScraperError
                         "Failed to convert screenshot link to image URL.")
            end
        | _ =>
            raise (TradingViewScraperError
                     "Scraper did not return a screenshot link from clipboard.")
        end))
    [(is_TradingViewScraperError,
      fun _ => log (Log Error "Scraper Error") ;; raise (OtherException "Scraper Error"));
     (is_ValueError,
      fun _ => log (Log Error "Input Error") ;; raise (OtherException "Input Error"));
     (is_Exception,
      fun _ => log (Log Error "Unexpected error in get_tradingview_chart_image") ;;
               raise (OtherException "Unexpected error"))].

End Main.

(** ** The prompts of the tool server ([main.py]) *)

Module Prompts.
Import PyStr Py Scraper Main.
Open Scope py_scope.

(** [str.lower()] on one 8-bit code point: [A-Z] and the capital
    letters of Latin-1 (192 to 222 without the multiplication sign)
    move up by 32; nothing else changes. *)
Definition lower_code_point (c : ascii) : ascii :=
  let n := N_of_ascii c in
  if (((65 <=? n) && (n <=? 90))
      || ((192 <=? n) && (n <=? 222) && negb (n =? 215)))%N
  then ascii_of_N (n + 32)
  else c.

(** [s.lower()] *)
Fixpoint lower (s : string) : string :=
  match s with
  | EmptyString => EmptyString
  | String c s' => String (lower_code_point c) (lower s')
  end.

(** The dict literal [interval_map] of [get_chart_prompt_timeframe]. *)
Definition interval_map : list (string * string) :=
  [("daily", "D");
   ("weekly", "W");
   ("monthly", "M");
   ("1 minute", "1");
   ("5 minute", "5");
   ("15 minute", "15");
   ("1 hour", "60");
   ("4 hour", "240")].

(** [d.get(k, default)] on a dict given by its items. *)
Fixpoint dict_get_default (k : string) (d : list (string * string))
  (default : string) : string :=
  match d with
  | [] => default
  | (k', v) :: d' => if String.eqb k k' then v else dict_get_default k d' default
  end.

(** [interval_map.get(interval.lower(), interval)] *)
Definition mcp_interval (interval : string) : string :=
  dict_get_default (lower interval) interval_map interval.

Definition get_chart_prompt_minutes (fuel : nat) (w : World) (c : Config)
  (ticker interval : string) : M string :=
  log (Log Info "Executing prompt: Get the minute chart") ;;
  get_tradingview_chart_image fuel w c ticker interval.

Definition get_chart_prompt_daily (fuel : nat) (w : World) (c : Config)
  (ticker : string) : M string :=
  log (Log Info "Executing prompt: Show me the daily chart") ;;
  get_tradingview_chart_image fuel w c ticker "D".

Definition get_chart_prompt_timeframe (fuel : nat) (w : World) (c : Config)
  (ticker interval : string) : M string :=
  log (Log Info "Executing prompt: Fetch TradingView chart image") ;;
  let mcp_interval := mcp_interval interval in
  log (Log Info "Mapped interval") ;;
  get_tradingview_chart_image fuel w c ticker mcp_interval.

End Prompts.

(** ** Notions used to state properties of whole operations *)

Module Behaviour.
Import PyStr Py Scraper Observe.

(** [m] leaves [self.driver] as it found it. *)
Definition keeps_driver {A} (m : M A) : Prop :=
  forall st, driver (snd (m st)) = driver st.

(** Every value [m] returns satisfies [Q]. *)
Definition yields {A} (m : M A) (Q : A -> Prop) : Prop :=
  forall st a, fst (m st) = Ok a -> Q a.

(** A link read off the clipboard is not empty and has no white space
    around it. *)
Definition clean_link (s : string) : Prop := s <> "" /\ strip s = s.


(** The time spent in [time.sleep], in milliseconds. *)
Fixpoint slept (h : history) : N :=
  match h with
  | [] => 0
  | Sleep ms :: h' => ms + slept h'
  | _ :: h' => slept h'
  end.

(** [m] sleeps for [budget] milliseconds at most, and the clock moves
    on by at least the time slept. *)
Definition paced {A} (budget : N) (m : M A) : Prop :=
  forall st,
    (slept (trace st) <= slept (trace (snd (m st)))
     /\ slept (trace (snd (m st))) <= slept (trace st) + budget
     /\ now st + (slept (trace (snd (m st))) - slept (trace st))
        <= now (snd (m st)))%N.

(** [m] returns or runs out of fuel, but does not raise. *)
Definition never_raises {A} (m : M A) : Prop :=
  forall st e, fst (m st) <> Raise e.

(** The longest the readiness probing sleeps, in milliseconds: the
    element poll and the gate of the strategy, each with the pause after
    the pass that the test at the limit may still let in. *)
Definition probing_budget (c : Config) : N :=
  if use_save_shortcut c then 3700%N else 4200%N.

(** The longest [_get_clipboard_content] sleeps: five attempts and the
    four pauses between them. *)
Definition clipboard_budget (c : Config) : N :=
  if use_save_shortcut c then 3500%N else 29500%N.

(** The alternative shortcuts in the order in which
    [_try_alternative_shortcuts] lists them. *)
Definition ALTERNATIVE_SHORTCUTS : list chord := [CtrlAltS; CtrlS; AltShiftS].

(** The history once the first [i] alternative shortcuts have been
    tried one after the other, starting from [h]. *)
Definition tried (i : nat) (h : history) : history :=
  (rev (map (fun sc => Call (Perform sc)) (firstn i ALTERNATIVE_SHORTCUTS)) ++ h)%list.

(** The alternative shortcut numbered [i] is tried after those before
    it, and sending it fails with a WebDriver error. *)
Definition shortcut_fails (w : World) (h : history) (i : nat) : Prop :=
  exists sc e,
    nth_error ALTERNATIVE_SHORTCUTS i = Some sc
    /\ outcome w (tried i h) (Perform sc) = Some e
    /\ is_WebDriverException e = true.

(** The calls that set up the driver. *)
Definition setup_calls : list op :=
  [ChromedriverPath; StartChrome; SetScriptTimeout; ImplicitlyWait].

(** A browser whose clipboard holds an image of type [mime] with the
    bytes [data], and that answers every other call at once. *)
Definition image_world (mime : string) (data : list byte) : World :=
  {| outcome := fun _ _ => None;
     find_elements := fun _ _ => Returns 0%nat;
     execute := fun _ s =>
       match s with
       | HasClipboardApi => Returns (JsBool true)
       | ReadImage =>
           Returns (JsStr ("data:image/" ++ mime ++ "," ++ Base64.b64encode data))
       | _ => Returns JsNull
       end;
     quit := fun _ => None;
     latency := fun _ _ => 0%N;
     json_loads := fun _ => Raises JSONDecodeError;
     py_repr := fun _ => EmptyString |}.

(** A browser whose image reader returns the text [s]. *)
Definition reader_world (s : string) : World :=
  {| outcome := fun _ _ => None;
     find_elements := fun _ _ => Returns 0%nat;
     execute := fun _ sc =>
       match sc with
       | HasClipboardApi => Returns (JsBool true)
       | ReadImage => Returns (JsStr s)
       | _ => Returns JsNull
       end;
     quit := fun _ => None;
     latency := fun _ _ => 0%N;
     json_loads := fun _ => Raises JSONDecodeError;
     py_repr := fun _ => EmptyString |}.

(** A browser that starts, after which setting the script timeout
    raises a [WebDriverException]. *)
Definition setup_fails_world : World :=
  {| outcome := fun _ o =>
       match o with
       | SetScriptTimeout => Some WebDriverException
       | _ => None
       end;
     find_elements := fun _ _ => Returns 0%nat;
     execute := fun _ _ => Returns JsNull;
     quit := fun _ => None;
     latency := fun _ _ => 0%N;
     json_loads := fun _ => Raises JSONDecodeError;
     py_repr := fun _ => EmptyString |}.

(** A browser in which no page can be loaded: [driver.get] raises a
    [TimeoutException]. *)
Definition offline_world : World :=
  {| outcome := fun _ o =>
       match o with
       | Get _ => Some TimeoutException
       | _ => None
       end;
     find_elements := fun _ _ => Returns 0%nat;
     execute := fun _ _ => Returns JsNull;
     quit := fun _ => None;
     latency := fun _ _ => 0%N;
     json_loads := fun _ => Raises JSONDecodeError;
     py_repr := fun _ => EmptyString |}.

(** A browser in which the chart shell never shows: the infrastructure
    wait runs into its timeout after [MAX_CHART_WAIT_TIME]. *)
Definition no_chart_world : World :=
  {| outcome := fun _ o =>
       match o with
       | WaitInfrastructure => Some TimeoutException
       | _ => None
       end;
     find_elements := fun _ _ => Returns 0%nat;
     execute := fun _ _ => Returns JsNull;
     quit := fun _ => None;
     latency := fun _ o =>
       match o with
       | WaitInfrastructure => MAX_CHART_WAIT_TIME
       | _ => 0%N
       end;
     json_loads := fun _ => Raises JSONDecodeError;
     py_repr := fun _ => EmptyString |}.

(** A browser whose text clipboard is empty until the first
    alternative shortcut is sent and holds [payload] from then on;
    [json.loads] is the one of the two example payloads. *)
Definition alt_shortcut_world (payload : string) : World :=
  {| outcome := fun _ _ => None;
     find_elements := fun _ _ => Returns 0%nat;
     execute := fun h s =>
       match s with
       | ReadText =>
           if (0 <? chords_of CtrlAltS h)%nat then Returns (JsStr payload)
           else Returns JsNull
       | _ => Returns JsNull
       end;
     quit := fun _ => None;
     latency := fun _ _ => 0%N;
     json_loads := example_json_loads;
     py_repr := fun _ => EmptyString |}.

(** A configuration without session cookies in the environment. *)
Definition anonymous_config : Config :=
  {| chart_page_id := "XHDbt5Yy";
     use_save_shortcut := true;
     platform_system := "Linux";
     session_id := None;
     session_id_sign := Some "sign" |}.

End Behaviour.

(** ** Finding the ChromeDriver executable
    ([TradingViewScraper._get_chromedriver_path]) *)

Module Install.
Import PyStr Py.

(** What the scraper asks of its host: the driver manager, the file
    system and the search path. *)
Inductive host_op :=
| InstallDriver                     (* ChromeDriverManager().install() *)
| ProbeExecutable (path : string)   (* os.path.exists(path) and os.access(path, os.X_OK) *)
| ProbeCache                        (* os.path.exists(cache_dir), the directory ~/.wdm *)
| RemoveCache                       (* shutil.rmtree(cache_dir) *)
| Which.                            (* shutil.which("chromedriver") *)

(** What was asked so far, latest first. *)
Definition host_history := list host_op.

(** The host answers as a function of what was asked before;
    [dirname] and [join] are [os.path.dirname] and [os.path.join]. *)
Record Host := {
  system : string;                                (* platform.system() *)
  install : host_history -> reply string;
  executable : host_history -> string -> bool;
  cache_exists : host_history -> bool;
  rmtree : host_history -> option exn;
  which : host_history -> option string;
  dirname : string -> string;
  join : string -> list string -> string
}.

Definition H (A : Type) : Type := host_history -> reply A * host_history.

Definition hret {A} (a : A) : H A := fun hist => (Returns a, hist).

Definition hraise {A} (e : exn) : H A := fun hist => (Raises e, hist).

Definition hbind {A B} (m : H A) (k : A -> H B) : H B := fun hist =>
  match m hist with
  | (Returns a, hist') => k a hist'
  | (Raises e, hist') => (Raises e, hist')
  end.

Definition install_driver (h : Host) : H string := fun hist =>
  (install h hist, InstallDriver :: hist).

Definition probe_executable (h : Host) (path : string) : H bool := fun hist =>
  (Returns (executable h hist path), ProbeExecutable path :: hist).

Definition find_on_path (h : Host) : H (option string) := fun hist =>
  (Returns (which h hist), Which :: hist).

(** [s.endswith(suffix)]: some tail of [s] is [suffix]. *)
Fixpoint endswith (s suffix : string) : bool :=
  String.eqb s suffix
  || match s with
     | EmptyString => false
     | String _ s' => endswith s' suffix
     end.

(** The three places next to the downloaded file where the code looks
    for [chromedriver.exe]. *)
Definition possible_paths (h : Host) (chromedriver_dir : string) : list string :=
  [join h chromedriver_dir ["chromedriver.exe"];
   join h chromedriver_dir ["chromedriver-win32"; "chromedriver.exe"];
   join h chromedriver_dir ["chromedriver-win64"; "chromedriver.exe"]].

(** [for path in possible_paths: if os.path.exists(path) and
    os.access(path, os.X_OK): return path] *)
Fixpoint first_executable (h : Host) (paths : list string) : H (option string) :=
  match paths with
  | [] => hret None
  | path :: rest =>
      hbind (probe_executable h path)
        (fun found => if found then hret (Some path) else first_executable h rest)
  end.

(** [_clear_chromedriver_cache]: a failure of [shutil.rmtree] is logged
    and goes no further. *)
Definition _clear_chromedriver_cache (h : Host) : H unit := fun hist =>
  if String.eqb (system h) "Windows" then
    if cache_exists h hist then
      match rmtree h (ProbeCache :: hist) with
      | None => (Returns tt, RemoveCache :: ProbeCache :: hist)
      | Some _ => (Returns tt, RemoveCache :: ProbeCache :: hist)
      end
    else (Returns tt, ProbeCache :: hist)
  else (Returns tt, hist).

Definition NOT_FOUND : exn :=
  TradingViewScraperError
    "ChromeDriver executable not found. Please install ChromeDriver manually.".

Definition PATH_FAILED : exn :=
  TradingViewScraperError "Failed to get ChromeDriver path".

(** The [try] block of [_get_chromedriver_path].  The local variable
    [possible_paths] is bound only when the first path does not end in
    [.exe]; reading it unbound raises [UnboundLocalError]. *)
Definition search_chromedriver (h : Host) : H string :=
  hbind (install_driver h) (fun chromedriver_path =>
  if String.eqb (system h) "Windows" then
    let possible :=
      if negb (endswith chromedriver_path ".exe")
      then Some (possible_paths h (dirname h chromedriver_path))
      else None in
    hbind (match possible with
           | Some paths => first_executable h paths
           | None => hret None
           end) (fun found =>
    match found with
    | Some path => hret path
    | None =>
        hbind (_clear_chromedriver_cache h) (fun _ =>
        hbind (install_driver h) (fun chromedriver_path =>
        hbind (if negb (endswith chromedriver_path ".exe")
               then match possible with
                    | Some paths => first_executable h paths
                    | None => hraise (OtherException "UnboundLocalError")
                    end
               else hret None) (fun found =>
        match found with
        | Some path => hret path
        | None =>
            hbind (find_on_path h) (fun system_chromedriver =>
            match system_chromedriver with
            | Some path => if truthy path then hret path else hraise NOT_FOUND
            | None => hraise NOT_FOUND
            end)
        end)))
    end)
  else hret chromedriver_path).

(** [_get_chromedriver_path]: whatever the [try] block raises comes out
    as a [TradingViewScraperError]. *)
Definition _get_chromedriver_path (h : Host) : H string := fun hist =>
  match search_chromedriver h hist with
  | (Returns path, hist') => (Returns path, hist')
  | (Raises _, hist') => (Raises PATH_FAILED, hist')
  end.

(** How often the driver manager was asked to install. *)
Fixpoint installs (hist : host_history) : nat :=
  match hist with
  | [] => 0
  | InstallDriver :: hist' => S (installs hist')
  | _ :: hist' => installs hist'
  end.

(** Whether the cache directory was looked at. *)
Fixpoint cache_probed (hist : host_history) : bool :=
  match hist with
  | [] => false
  | ProbeCache :: _ => true
  | _ :: hist' => cache_probed hist'
  end.

(** The paths that were probed, latest first. *)
Fixpoint probed (hist : host_history) : list string :=
  match hist with
  | [] => []
  | ProbeExecutable path :: hist' => path :: probed hist'
  | _ :: hist' => probed hist'
  end.

(** A Windows host on which the driver manager installs
    [chromedriver.exe] properly and nothing is on the search path. *)
Definition windows_host : Host :=
  {| system := "Windows";
     install := fun _ => Returns "C:\wdm\chromedriver.exe";
     executable := fun _ _ => true;
     cache_exists := fun _ => true;
     rmtree := fun _ => None;
     which := fun _ => None;
     dirname := fun _ => "C:\wdm";
     join := fun d parts => fold_left (fun a p => a ++ "\" ++ p) parts d |}.

(** A Linux host. *)
Definition linux_host : Host :=
  {| system := "Linux";
     install := fun _ => Returns "/root/.wdm/chromedriver";
     executable := fun _ _ => true;
     cache_exists := fun _ => true;
     rmtree := fun _ => None;
     which := fun _ => Some "/usr/bin/chromedriver";
     dirname := fun _ => "/root/.wdm";
     join := fun d parts => fold_left (fun a p => a ++ "/" ++ p) parts d |}.

End Install.

(* ================================================================== *)
(** * Part II. Properties *)
(* ================================================================== *)

(** ** Strings *)

Section StringFacts.
Import PyStr.

Lemma string_app_assoc (a b c : string) : (a ++ b) ++ c = a ++ (b ++ c).
Proof. induction a; simpl; congruence. Qed.

Lemma string_app_nil_r (a : string) : a ++ "" = a.
Proof. induction a; simpl; congruence. Qed.

Lemma string_length_app (a b : string) :
  String.length (a ++ b) = String.length a + String.length b.
Proof. induction a; simpl; congruence. Qed.

Lemma strip_prefix_app p s : strip_prefix p (p ++ s) = Some s.
Proof. induction p; simpl; auto. now rewrite Ascii.eqb_refl. Qed.

Lemma strip_prefix_inv p s r : strip_prefix p s = Some r -> s = p ++ r.
Proof.
  revert s; induction p as [|a p IH]; intros s H; simpl in *.
  - now inversion H.
  - destruct s as [|b s]; [discriminate|].
    destruct (Ascii.eqb_spec a b); [subst|discriminate].
    f_equal. now apply IH.
Qed.

Lemma startswith_app p s : startswith (p ++ s) p = true.
Proof. unfold startswith. now rewrite strip_prefix_app. Qed.

Lemma startswith_inv s p : startswith s p = true -> exists r, s = p ++ r.
Proof.
  unfold startswith. destruct (strip_prefix p s) eqn:E; [|discriminate].
  intros _. eexists. eapply strip_prefix_inv; eauto.
Qed.

Lemma drop_app (a b : string) n : drop (String.length a + n) (a ++ b) = drop n b.
Proof. induction a; simpl; auto. Qed.

Lemma drop_0 s : drop 0 s = s.
Proof. now destruct s. Qed.

Lemma span_alnum_app id rest :
  forall_chars is_alnum id = true ->
  span is_alnum (id ++ rest)
  = (id ++ fst (span is_alnum rest), snd (span is_alnum rest)).
Proof.
  induction id as [|c id IH]; simpl; intros H.
  - now destruct (span is_alnum rest).
  - apply andb_true_iff in H as [Hc Hid]. rewrite Hc, (IH Hid). reflexivity.
Qed.

Lemma contains_startswith sub s : startswith s sub = true -> contains sub s = true.
Proof. destruct s; simpl; intros ->; reflexivity. Qed.

Lemma contains_app sub pre post : contains sub (pre ++ sub ++ post) = true.
Proof.
  induction pre as [|c pre IH]; simpl.
  - apply contains_startswith, startswith_app.
  - rewrite IH. apply orb_true_r.
Qed.

(** Replacing passes over the rest of an occurrence just replaced. *)
Lemma replace_from_skip old new a b :
  replace_from (String.length a) old new (a ++ b) = replace_from 0 old new b.
Proof. induction a; simpl; auto. Qed.

(** Text in which [old] starts nowhere is copied. *)
Lemma replace_from_absent old new a b :
  (forall n, n < String.length a -> startswith (drop n (a ++ b)) old = false) ->
  replace_from 0 old new (a ++ b) = a ++ replace_from 0 old new b.
Proof.
  induction a as [|c a IH]; intros H; simpl; auto.
  pose proof (H 0 ltac:(simpl; lia)) as H0. simpl in H0. rewrite H0.
  f_equal. apply IH. intros n Hn. apply (H (S n)). simpl; lia.
Qed.

Lemma replace_from_absent_all old new b :
  (forall n, startswith (drop n b) old = false) ->
  replace_from 0 old new b = b.
Proof.
  intros H. rewrite <- (string_app_nil_r b) at 1.
  rewrite replace_from_absent.
  - simpl. apply string_app_nil_r.
  - intros n _. rewrite string_app_nil_r. apply H.
Qed.

End StringFacts.

(** ** The share-link pattern *)

Section PatternFacts.
Import PyStr Normalizer.

(** At a share link the pattern matches, with the longest identifier
    and the slash that may follow it. *)
Lemma match_here_link host x :
  In host share_hosts -> match_here (share_link host x) = match_of host x.
Proof.
  intros Hin. unfold share_hosts in Hin. simpl in Hin.
  unfold match_of, share_link, slash_of.
  destruct Hin as [<-|[<-|[<-|[]]]]; cbn;
    destruct (span is_alnum x) as [id r]; destruct id; cbn;
    rewrite ?string_app_assoc; reflexivity.
Qed.

Lemma match_here_link_exact host id post :
  In host share_hosts -> id <> "" -> forall_chars is_alnum id = true ->
  id_ends_before post = true ->
  match_here (share_link host id ++ post)
  = Some {| group0 := share_link host id ++ slash_of post; group1 := id |}.
Proof.
  intros Hh Hne Hal Hend.
  replace (share_link host id ++ post) with (share_link host (id ++ post))
    by (unfold share_link; now rewrite !string_app_assoc).
  rewrite (match_here_link _ _ Hh). unfold match_of.
  rewrite (span_alnum_app _ _ Hal).
  assert (Hs : span is_alnum post = ("", post)).
  { destruct post as [|c p]; simpl in *; auto.
    apply negb_true_iff in Hend. now rewrite Hend. }
  rewrite Hs. simpl. rewrite string_app_nil_r.
  destruct id; [congruence|reflexivity].
Qed.

(** Where the text of a match starts, the pattern matches. *)
Lemma match_here_at_occurrence host id sl t :
  In host share_hosts -> id <> "" -> forall_chars is_alnum id = true ->
  startswith t (share_link host id ++ sl) = true ->
  match_here t <> None.
Proof.
  intros Hh Hne Hal Hst.
  apply startswith_inv in Hst as [r ->].
  replace ((share_link host id ++ sl) ++ r)
    with (share_link host (id ++ sl ++ r))
    by (unfold share_link; now rewrite !string_app_assoc).
  rewrite (match_here_link _ _ Hh). unfold match_of.
  rewrite (span_alnum_app _ _ Hal). simpl.
  destruct id; [congruence|]. simpl. discriminate.
Qed.

Lemma finditer_from_skip a b :
  finditer_from (String.length a) (a ++ b) = finditer_from 0 b.
Proof. induction a; simpl; auto. Qed.

Lemma finditer_from_absent a b :
  (forall n, n < String.length a -> matches_at (a ++ b) n = false) ->
  finditer_from 0 (a ++ b) = finditer_from 0 b.
Proof.
  induction a as [|c a IH]; intros H; simpl; auto.
  pose proof (H 0 ltac:(simpl; lia)) as H0. unfold matches_at in H0. simpl in H0.
  destruct (match_here (String c (a ++ b))); [discriminate|].
  apply IH. intros n Hn. apply (H (S n)). simpl; lia.
Qed.

Lemma finditer_absent s :
  (forall n, matches_at s n = false) -> finditer s = [].
Proof.
  intros H. unfold finditer. rewrite <- (string_app_nil_r s).
  rewrite finditer_from_absent; [reflexivity|].
  intros n _. rewrite string_app_nil_r. apply H.
Qed.

Lemma share_link_cons host id :
  exists c tl, share_link host id = String c tl.
Proof. unfold share_link. simpl. eauto. Qed.

(** The loop of the normalizer when the pattern matches at one place
    only, the text [G], and [G] starts nowhere else. *)
Lemma convert_loop_one pre c tl post m :
  let G := String c tl in
  match_here (G ++ post) = Some m -> group0 m = G ->
  (forall n, n <> String.length pre -> matches_at (pre ++ G ++ post) n = false) ->
  (forall n, n < String.length pre ->
             startswith (drop n (pre ++ G ++ post)) G = false) ->
  (forall n, startswith (drop n post) G = false) ->
  convert_loop (pre ++ G ++ post) = (pre ++ new_link (group1 m) ++ post, true).
Proof.
  intros G Hm Hg0 Hno Hbefore Hafter. subst G.
  assert (Hfind : finditer (pre ++ String c tl ++ post) = [m]).
  { unfold finditer.
    rewrite finditer_from_absent by (intros n Hn; apply Hno; lia).
    change (String c tl ++ post) with (String c (tl ++ post)) in *.
    cbn [finditer_from]. rewrite Hm, Hg0. f_equal.
    cbn [String.length]. rewrite Nat.sub_succ, Nat.sub_0_r, finditer_from_skip.
    apply finditer_absent. intros n.
    specialize (Hno (String.length (pre ++ String c tl) + n)).
    unfold matches_at in *.
    change (String c (tl ++ post)) with (String c tl ++ post) in Hno.
    rewrite <- string_app_assoc, drop_app in Hno.
    apply Hno. rewrite string_length_app. simpl. lia. }
  unfold convert_loop. rewrite Hfind. cbn [fold_left convert_step].
  rewrite Hg0, contains_app. f_equal.
  unfold replace.
  rewrite replace_from_absent by exact Hbefore. f_equal.
  pose proof (startswith_app (String c tl) post) as Hst.
  change (String c tl ++ post) with (String c (tl ++ post)) in *.
  cbn [replace_from]. rewrite Hst. f_equal.
  cbn [String.length]. rewrite Nat.sub_succ, Nat.sub_0_r, replace_from_skip.
  now apply replace_from_absent_all.
Qed.

Lemma post_slash_split post : post = slash_of post ++ without_slash post.
Proof.
  unfold slash_of, without_slash, startswith.
  destruct (strip_prefix "/" post) eqn:E; [|reflexivity].
  now apply strip_prefix_inv in E.
Qed.

Lemma convert_loop_single pre host id post :
  In host share_hosts -> id <> "" -> forall_chars is_alnum id = true ->
  id_ends_before post = true ->
  (forall n, matches_at (pre ++ share_link host id ++ post) n = true ->
             n = String.length pre) ->
  convert_loop (pre ++ share_link host id ++ post)
  = (pre ++ new_link id ++ without_slash post, true).
Proof.
  intros Hh Hne Hal Hend Huniq.
  destruct (share_link_cons host id) as (c & tl0 & HL).
  assert (HG : exists tl, share_link host id ++ slash_of post = String c tl).
  { rewrite HL. simpl. eauto. }
  destruct HG as (tl & HG).
  assert (Hs : share_link host id ++ post = String c tl ++ without_slash post).
  { rewrite <- HG, string_app_assoc, <- post_slash_split. reflexivity. }
  rewrite Hs.
  pose proof (match_here_link_exact host id post Hh Hne Hal Hend) as Hm.
  rewrite Hs, HG in Hm. rewrite Hs in Huniq.
  apply (convert_loop_one pre c tl (without_slash post) _ Hm eq_refl).
  - intros n Hn.
    destruct (matches_at (pre ++ String c tl ++ without_slash post) n) eqn:E; auto.
    apply Huniq in E. contradiction.
  - intros n Hn.
    destruct (startswith (drop n (pre ++ String c tl ++ without_slash post))
                (String c tl)) eqn:E; auto.
    exfalso.
    assert (Hx : match_here (drop n (pre ++ String c tl ++ without_slash post))
                 <> None).
    { apply (match_here_at_occurrence host id (slash_of post)); auto.
      rewrite HG. exact E. }
    specialize (Huniq n). unfold matches_at in Huniq.
    destruct (match_here (drop n (pre ++ String c tl ++ without_slash post)));
      [|congruence].
    specialize (Huniq eq_refl). lia.
  - intros n.
    destruct (startswith (drop n (without_slash post)) (String c tl)) eqn:E; auto.
    exfalso.
    assert (Hx : match_here (drop n (without_slash post)) <> None).
    { apply (match_here_at_occurrence host id (slash_of post)); auto.
      rewrite HG. exact E. }
    specialize (Huniq (String.length (pre ++ String c tl) + n)).
    unfold matches_at in Huniq.
    rewrite <- string_app_assoc, drop_app in Huniq.
    destruct (match_here (drop n (without_slash post))); [|congruence].
    specialize (Huniq eq_refl). rewrite string_length_app in Huniq.
    simpl in Huniq. lia.
Qed.

Lemma drop_beyond s n : String.length s <= n -> drop n s = "".
Proof.
  revert n; induction s as [|c s IH]; intros n H; destruct n; simpl in *;
    auto; try lia. apply IH. lia.
Qed.

Lemma match_offsets_complete s n :
  matches_at s n = true -> In n (match_offsets s).
Proof.
  intros H. unfold match_offsets. apply filter_In. split; auto.
  apply in_seq. split; [lia|]. simpl.
  destruct (Nat.lt_ge_cases n (String.length s)) as [Hlt|Hge]; auto.
  unfold matches_at in H. rewrite (drop_beyond _ _ Hge) in H. discriminate.
Qed.

End PatternFacts.

(** ** Result Normalizer *)

Section NormalizerProperties.
Import PyStr Normalizer.

(** C1, as amended.  A text in which the share-link pattern matches at
    one offset only, there with host part [host] and identifier
    [String c id'], is returned with the link replaced by
    [https://s3.tradingview.com/snapshots/<c lower-cased>/<id>.png]; the
    text before the link is kept, and so is the text after it except
    for one slash directly after the identifier, which belongs to the
    match and goes with it. *)
Theorem convert_link_single_share_link pre host c id' post :
  let id := String c id' in
  In host share_hosts ->
  forall_chars is_alnum id = true ->
  id_ends_before post = true ->
  match_offsets (pre ++ share_link host id ++ post) = [String.length pre] ->
  convert_link_to_image_url (Some (pre ++ share_link host id ++ post))
  = Some (pre ++ ("https://s3.tradingview.com/snapshots/"
                    ++ String (lower_char c) "/" ++ id ++ ".png")
            ++ without_slash post).
Proof.
  intros id Hh Hal Hend Hoff.
  assert (Hne : id <> "") by discriminate.
  pose proof (convert_loop_single pre host id post Hh Hne Hal Hend) as Hloop.
  assert (Huniq : forall n,
             matches_at (pre ++ share_link host id ++ post) n = true ->
             n = String.length pre).
  { intros n Hn. apply match_offsets_complete in Hn. rewrite Hoff in Hn.
    destruct Hn as [<-|[]]. reflexivity. }
  specialize (Hloop Huniq).
  unfold convert_link_to_image_url.
  destruct (pre ++ share_link host id ++ post) eqn:E.
  - destruct pre; discriminate.
  - rewrite Hloop. reflexivity.
Qed.

Lemma convert_link_single_share_link_witness :
  convert_link_to_image_url
    (Some "see https://www.tradingview.com/x/QWer7890 please")
  = Some "see https://s3.tradingview.com/snapshots/q/QWer7890.png please".
Proof.
  apply (convert_link_single_share_link "see " "www." "Q" "Wer7890" " please").
  - simpl. auto.
  - reflexivity.
  - reflexivity.
  - vm_compute. reflexivity.
Defined.

(** C1 as stated does not hold: a slash directly after the identifier
    is not preserved. *)
Lemma convert_link_drops_slash_after_id :
  ~ (forall pre host c id' post,
        let id := String c id' in
        In host share_hosts ->
        forall_chars is_alnum id = true ->
        id_ends_before post = true ->
        match_offsets (pre ++ share_link host id ++ post) = [String.length pre] ->
        convert_link_to_image_url (Some (pre ++ share_link host id ++ post))
        = Some (pre ++ ("https://s3.tradingview.com/snapshots/"
                          ++ String (lower_char c) "/" ++ id ++ ".png")
                  ++ post)).
Proof.
  intros H.
  specialize (H "" "www." "A"%char "bCdEf12" "/").
  cbv zeta in H.
  assert (E : convert_link_to_image_url
                (Some ("" ++ share_link "www." "AbCdEf12" ++ "/"))
              = Some "https://s3.tradingview.com/snapshots/a/AbCdEf12.png")
    by (vm_compute; reflexivity).
  rewrite E in H.
  assert (Hx : Some "https://s3.tradingview.com/snapshots/a/AbCdEf12.png"
               = Some "https://s3.tradingview.com/snapshots/a/AbCdEf12.png/").
  { apply H.
    - simpl; auto.
    - reflexivity.
    - reflexivity.
    - vm_compute; reflexivity. }
  discriminate Hx.
Qed.

(** C5, as amended.  A non-empty text in which the pattern matches
    nowhere is returned as it is, also when it contains the marker
    [tradingview.com/x/], which is only noted. *)
Theorem convert_link_no_share_link s :
  s <> "" ->
  match_offsets s = [] ->
  convert_link_to_image_url (Some s) = Some s
  /\ (has_host_marker s = true -> convert_note_of s = NoteMarkerNoMatch).
Proof.
  intros Hne Hoff.
  assert (Hfind : finditer s = []).
  { apply finditer_absent. intros n.
    destruct (matches_at s n) eqn:E; auto.
    apply match_offsets_complete in E. rewrite Hoff in E. destruct E. }
  assert (Hloop : convert_loop s = (s, false)).
  { unfold convert_loop. rewrite Hfind. reflexivity. }
  split.
  - unfold convert_link_to_image_url. destruct s; [congruence|].
    rewrite Hloop. reflexivity.
  - intros Hm. unfold convert_note_of. rewrite Hloop, Hm. reflexivity.
Qed.

Lemma convert_link_no_share_link_witness :
  convert_link_to_image_url (Some "visit tradingview.com/x/ now")
  = Some "visit tradingview.com/x/ now"
  /\ (has_host_marker "visit tradingview.com/x/ now" = true ->
      convert_note_of "visit tradingview.com/x/ now" = NoteMarkerNoMatch).
Proof.
  apply convert_link_no_share_link.
  - discriminate.
  - vm_compute. reflexivity.
Defined.

(** C5 as stated does not hold for the empty text, which the guard at
    the head of the function turns into [None]. *)
Lemma convert_link_empty_text_is_none :
  ~ (forall s, match_offsets s = [] ->
               convert_link_to_image_url (Some s) = Some s).
Proof.
  intros H. specialize (H "" eq_refl). discriminate H.
Qed.

End NormalizerProperties.

(** ** Base64 *)

Section Base64Facts.
Import PyStr Base64.

Lemma all_below_spec n P :
  all_below n P = true -> forall x, (x < N.of_nat n)%N -> P x = true.
Proof.
  induction n as [|k IH]; intros H x Hx.
  - lia.
  - simpl in H. apply andb_true_iff in H as [H1 H2].
    destruct (N.eq_dec x (N.of_nat k)) as [->|Hne]; [exact H1|].
    apply IH; [exact H2|lia].
Qed.

Lemma byte_below (b : byte) : (Byte.to_N b < 256)%N.
Proof. pose proof (Byte.to_N_bounded b). lia. Qed.

(** An octet survives the store into an [unsigned char]. *)
Lemma u8_to_N (b : byte) : u8 (Byte.to_N b) = b.
Proof.
  unfold u8. pose proof (Byte.to_N_bounded b).
  rewrite N.mod_small by lia. now rewrite Byte.of_to_N.
Qed.

(** The two tables are inverse to each other on the 64 digits, and no
    digit is the padding character or outside ASCII. *)
Lemma table_roundtrip n :
  (n < 64)%N ->
  table_a2b (table_b2a n) = Some n
  /\ Ascii.eqb (table_b2a n) BASE64_PAD = false
  /\ is_ascii (table_b2a n) = true.
Proof.
  intros Hn.
  assert (H : all_below 64
                (fun n => match table_a2b (table_b2a n) with
                          | Some m => (m =? n)%N
                          | None => false
                          end
                          && negb (Ascii.eqb (table_b2a n) BASE64_PAD)
                          && is_ascii (table_b2a n)) = true)
    by (vm_compute; reflexivity).
  pose proof (all_below_spec _ _ H n Hn) as Hx. cbv beta in Hx.
  apply andb_true_iff in Hx as [Hx H3]. apply andb_true_iff in Hx as [H1 H2].
  destruct (table_a2b (table_b2a n)) as [m|]; [|discriminate].
  apply N.eqb_eq in H1. subst m. repeat split; auto.
  now apply negb_true_iff in H2.
Qed.

Lemma octet_facts_hold x y :
  (x < 256)%N -> (y < 256)%N -> forallb (fun b => b) (octet_facts x y) = true.
Proof.
  intros Hx Hy.
  assert (H : all_below 256 (fun a => all_below 256 (fun b =>
                forallb (fun b => b) (octet_facts a b))) = true)
    by (vm_compute; reflexivity).
  exact (all_below_spec _ _ (all_below_spec _ _ H x Hx) y Hy).
Qed.

Lemma octet_fact k x y :
  (x < 256)%N -> (y < 256)%N -> nth k (octet_facts x y) true = true.
Proof.
  intros Hx Hy. pose proof (octet_facts_hold x y Hx Hy) as H.
  rewrite forallb_forall in H.
  destruct (Nat.lt_ge_cases k (List.length (octet_facts x y))) as [Hk|Hk].
  - apply H. now apply nth_In.
  - now apply nth_overflow.
Qed.

Ltac octet_fact k :=
  intros;
  match goal with
  | Hx : (?x < 256)%N, Hy : (?y < 256)%N |- _ =>
      let H := fresh in
      pose proof (octet_fact k x y Hx Hy) as H; cbn [nth octet_facts] in H;
      first [apply N.ltb_lt in H | apply N.eqb_eq in H]; exact H
  end.

Lemma digit1_lt x y : (x < 256 -> y < 256 -> digit1 x < 64)%N.
Proof. octet_fact 0. Qed.
Lemma digit2_lt x y : (x < 256 -> y < 256 -> digit2 x y < 64)%N.
Proof. octet_fact 1. Qed.
Lemma digit3_lt x y : (x < 256 -> y < 256 -> digit3 x y < 64)%N.
Proof. octet_fact 2. Qed.
Lemma digit4_lt x y : (x < 256 -> y < 256 -> digit4 x < 64)%N.
Proof. octet_fact 3. Qed.
Lemma last_digit_of_one_lt x y : (x < 256 -> y < 256 -> last_digit_of_one x < 64)%N.
Proof. octet_fact 4. Qed.
Lemma last_digit_of_two_lt x y : (x < 256 -> y < 256 -> last_digit_of_two x < 64)%N.
Proof. octet_fact 5. Qed.
Lemma first_octet_back x y :
  (x < 256 -> y < 256 ->
   N.lor (N.shiftl (digit1 x) 2) (N.shiftr (digit2 x y) 4) = x)%N.
Proof. octet_fact 6. Qed.
Lemma first_octet_back_padded x y :
  (x < 256 -> y < 256 ->
   N.lor (N.shiftl (digit1 x) 2) (N.shiftr (last_digit_of_one x) 4) = x)%N.
Proof. octet_fact 7. Qed.
Lemma digit2_low x y :
  (x < 256 -> y < 256 -> N.land (digit2 x y) 15 = N.shiftr y 4)%N.
Proof. octet_fact 8. Qed.
Lemma digit3_high x y :
  (x < 256 -> y < 256 -> N.shiftr (digit3 x y) 2 = N.land x 15)%N.
Proof. octet_fact 9. Qed.
Lemma last_digit_of_two_high x y :
  (x < 256 -> y < 256 -> N.shiftr (last_digit_of_two x) 2 = N.land x 15)%N.
Proof. octet_fact 10. Qed.
Lemma nibbles_back x y :
  (x < 256 -> y < 256 -> N.lor (N.shiftl (N.shiftr x 4) 4) (N.land x 15) = x)%N.
Proof. octet_fact 11. Qed.
Lemma digit3_low x y :
  (x < 256 -> y < 256 -> N.land (digit3 x y) 3 = N.shiftr y 6)%N.
Proof. octet_fact 12. Qed.
Lemma third_octet_back x y :
  (x < 256 -> y < 256 -> N.lor (N.shiftl (N.shiftr x 6) 6) (digit4 x) = x)%N.
Proof. octet_fact 13. Qed.

Lemma a2b_loop_digit q l p n s :
  (n < 64)%N ->
  a2b_loop q l p (String (table_b2a n) s)
  = match q with
    | 0%N => a2b_loop 1 n 0 s
    | 1%N => emit (u8 (N.lor (N.shiftl l 2) (N.shiftr n 4)))
               (a2b_loop 2 (N.land n 15) 0 s)
    | 2%N => emit (u8 (N.lor (N.shiftl l 4) (N.shiftr n 2)))
               (a2b_loop 3 (N.land n 3) 0 s)
    | _ => emit (u8 (N.lor (N.shiftl l 6) n)) (a2b_loop 0 0 0 s)
    end.
Proof.
  intros Hn. destruct (table_roundtrip n Hn) as (H1 & H2 & _).
  cbn [a2b_loop]. rewrite H2, H1. reflexivity.
Qed.

Lemma list_ind3 {A} (P : list A -> Prop) :
  P [] -> (forall a, P [a]) -> (forall a b, P [a; b]) ->
  (forall a b c l, P l -> P (a :: b :: c :: l)) ->
  forall l, P l.
Proof.
  intros H0 H1 H2 H3 l.
  assert (H : P l /\ (forall a, P (a :: l)) /\ (forall a b, P (a :: b :: l))).
  { induction l as [|x l (IH0 & IH1 & IH2)]; auto. }
  apply H.
Qed.

Lemma b2a_base64_digits a b c l :
  b2a_base64 (a :: b :: c :: l)
  = String (table_b2a (digit1 (Byte.to_N a)))
      (String (table_b2a (digit2 (Byte.to_N a) (Byte.to_N b)))
         (String (table_b2a (digit3 (Byte.to_N b) (Byte.to_N c)))
            (String (table_b2a (digit4 (Byte.to_N c))) (b2a_base64 l)))).
Proof. reflexivity. Qed.

(** Decoding undoes encoding. *)
Lemma a2b_b2a data : a2b_base64 (b2a_base64 data) = Some data.
Proof.
  unfold a2b_base64.
  induction data as [|a|a b|a b c l IH] using list_ind3.
  - reflexivity.
  - pose proof (byte_below a) as Ha.
    change (b2a_base64 [a])
      with (String (table_b2a (digit1 (Byte.to_N a)))
              (String (table_b2a (last_digit_of_one (Byte.to_N a))) "==")).
    rewrite a2b_loop_digit by (now apply (digit1_lt _ _ Ha Ha)).
    rewrite a2b_loop_digit by (now apply (last_digit_of_one_lt _ _ Ha Ha)).
    rewrite (first_octet_back_padded _ _ Ha Ha), u8_to_N. reflexivity.
  - pose proof (byte_below a) as Ha. pose proof (byte_below b) as Hb.
    change (b2a_base64 [a; b])
      with (String (table_b2a (digit1 (Byte.to_N a)))
              (String (table_b2a (digit2 (Byte.to_N a) (Byte.to_N b)))
                 (String (table_b2a (last_digit_of_two (Byte.to_N b))) "="))).
    rewrite a2b_loop_digit by (now apply (digit1_lt _ _ Ha Ha)).
    rewrite a2b_loop_digit by (now apply digit2_lt).
    rewrite a2b_loop_digit by (now apply (last_digit_of_two_lt _ _ Hb Hb)).
    rewrite (first_octet_back _ _ Ha Hb), (digit2_low _ _ Ha Hb),
      (last_digit_of_two_high _ _ Hb Hb), (nibbles_back _ _ Hb Hb), !u8_to_N.
    reflexivity.
  - pose proof (byte_below a) as Ha. pose proof (byte_below b) as Hb.
    pose proof (byte_below c) as Hc.
    rewrite b2a_base64_digits.
    rewrite a2b_loop_digit by (now apply (digit1_lt _ _ Ha Ha)).
    rewrite a2b_loop_digit by (now apply digit2_lt).
    rewrite a2b_loop_digit by (now apply digit3_lt).
    rewrite a2b_loop_digit by (now apply (digit4_lt _ _ Hc Hc)).
    rewrite IH.
    rewrite (first_octet_back _ _ Ha Hb), (digit2_low _ _ Ha Hb),
      (digit3_high _ _ Hb Hc), (nibbles_back _ _ Hb Hb),
      (digit3_low _ _ Hb Hc), (third_octet_back _ _ Hc Hc), !u8_to_N.
    reflexivity.
Qed.

Lemma b2a_base64_ascii data : forall_chars is_ascii (b2a_base64 data) = true.
Proof.
  induction data as [|a|a b|a b c l IH] using list_ind3.
  - reflexivity.
  - pose proof (byte_below a) as Ha.
    change (b2a_base64 [a])
      with (String (table_b2a (digit1 (Byte.to_N a)))
              (String (table_b2a (last_digit_of_one (Byte.to_N a))) "==")).
    cbn [forall_chars].
    destruct (table_roundtrip _ (digit1_lt _ _ Ha Ha)) as (_ & _ & ->).
    destruct (table_roundtrip _ (last_digit_of_one_lt _ _ Ha Ha)) as (_ & _ & ->).
    reflexivity.
  - pose proof (byte_below a) as Ha. pose proof (byte_below b) as Hb.
    change (b2a_base64 [a; b])
      with (String (table_b2a (digit1 (Byte.to_N a)))
              (String (table_b2a (digit2 (Byte.to_N a) (Byte.to_N b)))
                 (String (table_b2a (last_digit_of_two (Byte.to_N b))) "="))).
    cbn [forall_chars].
    destruct (table_roundtrip _ (digit1_lt _ _ Ha Ha)) as (_ & _ & ->).
    destruct (table_roundtrip _ (digit2_lt _ _ Ha Hb)) as (_ & _ & ->).
    destruct (table_roundtrip _ (last_digit_of_two_lt _ _ Hb Hb)) as (_ & _ & ->).
    reflexivity.
  - pose proof (byte_below a) as Ha. pose proof (byte_below b) as Hb.
    pose proof (byte_below c) as Hc.
    rewrite b2a_base64_digits. cbn [forall_chars]. rewrite IH.
    destruct (table_roundtrip _ (digit1_lt _ _ Ha Ha)) as (_ & _ & ->).
    destruct (table_roundtrip _ (digit2_lt _ _ Ha Hb)) as (_ & _ & ->).
    destruct (table_roundtrip _ (digit3_lt _ _ Hb Hc)) as (_ & _ & ->).
    destruct (table_roundtrip _ (digit4_lt _ _ Hc Hc)) as (_ & _ & ->).
    reflexivity.
Qed.

Lemma b64decode_b64encode data : b64decode (b64encode data) = Some data.
Proof.
  unfold b64decode, b64encode. rewrite b2a_base64_ascii. apply a2b_b2a.
Qed.

End Base64Facts.

(** ** Image bytes to canonical URL *)

Section ImageUrlProperties.
Import PyStr Base64 ImageUrl.

(** C4.  For every byte sequence [b], in particular every non-empty
    one, [_convert_clipboard_to_image_url b] starts with
    [data:image/png;base64,], and what follows that prefix
    base64-decodes to exactly [b]. *)
Theorem convert_clipboard_to_image_url_roundtrip (b : list byte) :
  exists payload,
    _convert_clipboard_to_image_url b = "data:image/png;base64," ++ payload
    /\ startswith (_convert_clipboard_to_image_url b) "data:image/png;base64," = true
    /\ strip_prefix "data:image/png;base64," (_convert_clipboard_to_image_url b)
       = Some payload
    /\ b64decode payload = Some b.
Proof.
  exists (b64encode b). unfold _convert_clipboard_to_image_url, DATA_URL_PREFIX.
  split; [reflexivity|].
  split; [apply startswith_app|].
  split; [apply strip_prefix_app|].
  apply b64decode_b64encode.
Qed.

End ImageUrlProperties.

(** ** Session release *)

Section CloseProperties.
Import Py Scraper Observe.

(** [close] swallows every failure of [driver.quit()]. *)
Lemma close_never_raises w st : fst (close w st) = Ok tt.
Proof.
  unfold close. destruct (driver st); [|reflexivity].
  destruct (quit w (trace st)) as [[e|]|]; try reflexivity.
  destruct (is_WebDriverException e); [reflexivity|].
  destruct (is_OSError e); reflexivity.
Qed.

(** Once the handle is marked released, [close] does nothing. *)
Lemma close_after_release w st : driver st = false -> close w st = (Ok tt, st).
Proof. intros H. unfold close. now rewrite H. Qed.

(** The handle is marked released when quitting succeeds or fails with
    anything but a WebDriver error. *)
Lemma close_releases w st :
  match quit w (trace st) with
  | Some (Exc e) => is_WebDriverException e = false
  | _ => True
  end ->
  driver (snd (close w st)) = false.
Proof.
  unfold close. destruct (driver st) eqn:D; [|intros _; exact D].
  destruct (quit w (trace st)) as [[e|]|]; try reflexivity.
  intros ->. destruct (is_OSError e); reflexivity.
Qed.

(** After a [WebDriverException] from [driver.quit()] the handle stays
    set, in every browser and state. *)
Lemma close_keeps_driver w st e :
  driver st = true ->
  quit w (trace st) = Some (Exc e) ->
  is_WebDriverException e = true ->
  fst (close w st) = Ok tt /\ driver (snd (close w st)) = true.
Proof.
  intros Hd Hq He. unfold close. rewrite Hd, Hq, He. cbn. auto.
Qed.

(** C6, where the code departs from it.  When [driver.quit()] raises a
    [WebDriverException], [close] returns without raising but leaves
    [self.driver] set, and a second [close] calls [driver.quit()]
    again. *)
Theorem close_keeps_driver_after_WebDriverException :
  let first := close quit_fails_world ready_state in
  let second := close quit_fails_world (snd first) in
  fst first = Ok tt
  /\ driver (snd first) = true
  /\ fst second = Ok tt
  /\ calls_of (trace (snd second)) = [Quit; Quit].
Proof. vm_compute. repeat split. Qed.

End CloseProperties.

(** ** Request validation *)

Section ValidationProperties.
Import PyStr Py Scraper Main Observe.

(** C7, as amended.  On a scraper whose driver is initialised, a request
    with an empty ticker or an empty interval is rejected with
    [ValueError] by [get_screenshot_link] and by [get_chart_image_url]
    before any interaction with the browser: the state is the one before
    the call, apart from the opening log line of [get_chart_image_url]. *)
Theorem empty_request_rejected_before_browser fuel w c ticker interval st :
  driver st = true ->
  ticker = "" \/ interval = "" ->
  get_screenshot_link fuel w c ticker interval st
  = (Raise (ValueError "Ticker and Interval must be provided."), st)
  /\ get_chart_image_url fuel w c ticker interval st
     = (Raise (ValueError "Ticker and Interval must be provided."),
        emit (Log Info "=== Starting chart capture ===") 0 st)
  /\ calls_of (trace (snd (get_screenshot_link fuel w c ticker interval st)))
     = calls_of (trace st)
  /\ calls_of (trace (snd (get_chart_image_url fuel w c ticker interval st)))
     = calls_of (trace st).
Proof.
  intros Hd Hempty.
  assert (Hv : negb (truthy ticker) || negb (truthy interval) = true).
  { destruct Hempty as [-> | ->]; simpl; auto using orb_true_r. }
  assert (H1 : get_screenshot_link fuel w c ticker interval st
               = (Raise (ValueError "Ticker and Interval must be provided."), st)).
  { unfold get_screenshot_link, bind, get_driver. rewrite Hd. cbn [negb].
    rewrite Hv. reflexivity. }
  assert (H2 : get_chart_image_url fuel w c ticker interval st
               = (Raise (ValueError "Ticker and Interval must be provided."),
                  emit (Log Info "=== Starting chart capture ===") 0 st)).
  { unfold get_chart_image_url, chart_image_steps, bind, get_driver, log. cbn [emit driver].
    rewrite Hd. cbn [negb]. rewrite Hv. reflexivity. }
  rewrite H1, H2. repeat split; reflexivity.
Qed.

Lemma empty_request_rejected_before_browser_witness :
  get_screenshot_link 31 idle_world linux_link_config "" "15" ready_state
  = (Raise (ValueError "Ticker and Interval must be provided."), ready_state)
  /\ get_chart_image_url 31 idle_world linux_link_config "" "15" ready_state
     = (Raise (ValueError "Ticker and Interval must be provided."),
        emit (Log Info "=== Starting chart capture ===") 0 ready_state)
  /\ calls_of (trace (snd (get_screenshot_link 31 idle_world linux_link_config
                             "" "15" ready_state)))
     = calls_of (trace ready_state)
  /\ calls_of (trace (snd (get_chart_image_url 31 idle_world linux_link_config
                             "" "15" ready_state)))
     = calls_of (trace ready_state).
Proof.
  apply empty_request_rejected_before_browser.
  - reflexivity.
  - left. reflexivity.
Defined.

(** Without an initialised driver the same request is not rejected as
    invalid input: the check of the driver comes first. *)
Lemma empty_request_without_driver fuel w c ticker interval st :
  driver st = false ->
  fst (get_screenshot_link fuel w c ticker interval st)
  = Raise (TradingViewScraperError
             "Driver not initialized. Use within a 'with' statement.")
  /\ fst (get_chart_image_url fuel w c ticker interval st)
     = Raise (TradingViewScraperError
                "Driver not initialized. Use within a 'with' statement.").
Proof.
  intros Hd. unfold get_screenshot_link, get_chart_image_url, chart_image_steps, bind, get_driver, log.
  cbn [emit driver]. rewrite Hd. split; reflexivity.
Qed.

(** C7 as stated does not hold of the tool entry point: its [with]
    block starts the browser before [get_screenshot_link] looks at the
    arguments, and quits it after the rejection. *)
Lemma empty_request_acquires_session :
  ~ (forall fuel w c ticker interval st,
        ticker = "" \/ interval = "" ->
        (exists e, fst (get_tradingview_chart_image fuel w c ticker interval st)
                   = Raise e)
        /\ calls_of (trace (snd (get_tradingview_chart_image fuel w c ticker
                                   interval st)))
           = calls_of (trace st)).
Proof.
  intros H.
  destruct (H 31%nat idle_world linux_link_config "" "15" fresh_state
              (or_introl eq_refl)) as [_ Hcalls].
  vm_compute in Hcalls. discriminate Hcalls.
Qed.

(** What the tool entry point does with such a request in a browser
    that works: the session is set up, the request is rejected as an input
    error, the session is quit. *)
Lemma empty_request_at_tool_entry :
  fst (get_tradingview_chart_image 31 idle_world linux_link_config "" "15"
         fresh_state)
  = Raise (OtherException "Input Error")
  /\ calls_of (trace (snd (get_tradingview_chart_image 31 idle_world
                             linux_link_config "" "15" fresh_state)))
     = [Quit; ImplicitlyWait; SetScriptTimeout; StartChrome; ChromedriverPath].
Proof. vm_compute. split; reflexivity. Qed.

End ValidationProperties.

(** ** Running the engine: ends and the clock *)

Section Framing.
Import PyStr Py Scraper Observe.
Open Scope py_scope.

Lemma elapsed_below_lt start t limit :
  (t - start < limit)%N -> elapsed_below start t limit = true.
Proof.
  intros H. unfold elapsed_below. apply N.compare_lt_iff in H. now rewrite H.
Qed.

Lemma elapsed_below_gt start t limit :
  (limit < t - start)%N -> elapsed_below start t limit = false.
Proof.
  intros H. unfold elapsed_below. apply N.compare_gt_iff in H. now rewrite H.
Qed.

Lemma elapsed_below_true start t limit :
  elapsed_below start t limit = true -> (t - start <= limit)%N.
Proof.
  unfold elapsed_below. destruct (N.compare_spec (t - start) limit); intros Hb;
    [lia|lia|discriminate].
Qed.

Lemma elapsed_below_false start t limit :
  elapsed_below start t limit = false -> (limit <= t - start)%N.
Proof.
  unfold elapsed_below. destruct (N.compare_spec (t - start) limit); intros Hb;
    [lia|discriminate|lia].
Qed.

Lemma elapsed_below_start start limit :
  (0 < limit)%N -> elapsed_below start start limit = true.
Proof. intros H. apply elapsed_below_lt. rewrite N.sub_diag. exact H. Qed.

(** The loop test of the model against the comparison of floats alone,
    on a grid: clocks from 0 to the seconds that [time.time()] counts
    since 1970, every limit the scraper uses, and the time elapsed in
    steps of 50 ms up to 6 s and 1 ms around the limit.  The two agree
    everywhere. *)
Lemma elapsed_below_is_the_float_comparison :
  forallb
    (fun start =>
       forallb
         (fun limit =>
            forallb
              (fun d =>
                 Bool.eqb (elapsed_below start (start + d) limit)
                   (float_elapsed_below start (start + d) limit))
              ((limit - 1) :: limit :: (limit + 1)
                 :: map (fun k => N.of_nat k * 50) (seq 0 121))%N)
         [1500; 2000; 3000; 5000]%N)
    [0; 850; 5950; 7950; 1700000000000; 1762214400123]%N
  = true.
Proof. vm_compute. reflexivity. Qed.

Lemma poll_unfold {A} fuel start limit interval (body : M (option A)) st :
  poll (S fuel) start limit interval body st
  = if elapsed_below start (now st) limit then
      match body st with
      | (Ok (Some a), s1) => (Ok (Some a), s1)
      | (Ok None, s1) =>
          poll fuel start limit interval body (emit (Sleep interval) interval s1)
      | (Raise e, s1) => (Raise e, s1)
      | (OutOfFuel, s1) => (OutOfFuel, s1)
      end
    else (Ok None, st).
Proof.
  cbn [poll]. unfold bind, time_now.
  destruct (elapsed_below start (now st) limit); [|reflexivity].
  destruct (body st) as [[[a|]|e|] s1]; reflexivity.
Qed.

Lemma poll_no_fuel {A} start limit interval (body : M (option A)) st :
  poll 0 start limit interval body st
  = if elapsed_below start (now st) limit then (OutOfFuel, st) else (Ok None, st).
Proof.
  cbn [poll]. unfold bind, time_now.
  destruct (elapsed_below start (now st) limit); reflexivity.
Qed.

(** The rule for a polling loop.  [Inv] holds at the head of the loop,
    [Mid] between the body and the pause; [Q] and [E] describe the ways
    out of the body.  A pass is made while the time elapsed is at most
    the limit; the fuel is enough when it covers the passes that fit. *)
Lemma poll_rule {A} (Inv Mid : State -> Prop) (Q : A -> State -> Prop)
  (E : exn -> State -> Prop) start limit interval (body : M (option A)) :
  (0 < interval)%N ->
  (forall s, Inv s -> (start <= now s)%N -> (now s - start <= limit)%N ->
     (now s <= now (snd (body s)))%N
     /\ match fst (body s) with
        | Ok (Some a) => Q a (snd (body s))
        | Ok None => Mid (snd (body s))
        | Raise e => E e (snd (body s))
        | OutOfFuel => False
        end) ->
  (forall s, Mid s -> Inv (emit (Sleep interval) interval s)) ->
  forall fuel st,
    Inv st -> (start <= now st)%N ->
    (limit < (now st - start) + N.of_nat fuel * interval)%N ->
    (now st <= now (snd (poll fuel start limit interval body st)))%N
    /\ match fst (poll fuel start limit interval body st) with
       | Ok (Some a) => Q a (snd (poll fuel start limit interval body st))
       | Ok None =>
           Inv (snd (poll fuel start limit interval body st))
           /\ (limit <= now (snd (poll fuel start limit interval body st)) - start)%N
       | Raise e => E e (snd (poll fuel start limit interval body st))
       | OutOfFuel => False
       end.
Proof.
  intros Hpos Hbody Hsleep fuel.
  induction fuel as [|fuel IH]; intros st Hinv Hstart Hlim.
  - rewrite poll_no_fuel. cbn [N.of_nat N.mul] in Hlim.
    rewrite elapsed_below_gt by lia. cbn [fst snd].
    split; [lia|]. split; [assumption|lia].
  - rewrite poll_unfold.
    destruct (elapsed_below start (now st) limit) eqn:Hguard.
    + apply elapsed_below_true in Hguard.
      destruct (Hbody st Hinv Hstart Hguard) as [Hmono Hout].
      destruct (body st) as [[[a|]|e|] s1]; cbn [fst snd] in *.
      * split; assumption.
      * assert (Hmul : (N.of_nat (S fuel) * interval
                        = N.of_nat fuel * interval + interval)%N).
        { rewrite Nat2N.inj_succ, N.mul_succ_l. reflexivity. }
        rewrite Hmul in Hlim.
        assert (P1 : (start <= now (emit (Sleep interval) interval s1))%N)
          by (cbn [emit now]; lia).
        assert (P2 : (limit < now (emit (Sleep interval) interval s1) - start
                               + N.of_nat fuel * interval)%N)
          by (cbn [emit now]; lia).
        destruct (IH (emit (Sleep interval) interval s1) (Hsleep _ Hout) P1 P2)
          as [IHmono IHout].
        cbn [emit now] in IHmono.
        split; [lia|exact IHout].
      * split; assumption.
      * contradiction.
    + apply elapsed_below_false in Hguard. cbn [fst snd].
      split; [lia|]. split; assumption.
Qed.

Lemma sound_ret {A} (a : A) : sound (ret a).
Proof. intros st. cbn. split; [discriminate|lia]. Qed.

Lemma sound_raise {A} e : sound (@raise A e).
Proof. intros st. cbn. split; [discriminate|lia]. Qed.

Lemma sound_lift {A} (r : result A) : r <> OutOfFuel -> sound (lift r).
Proof. intros H st. cbn. split; [exact H|lia]. Qed.

Lemma sound_bind {A B} (m : M A) (k : A -> M B) :
  sound m -> (forall a, sound (k a)) -> sound (bind m k).
Proof.
  intros Hm Hk st. unfold bind. destruct (Hm st) as [H1 H2].
  destruct (m st) as [[a|e|] s1]; cbn [fst snd] in *.
  - destruct (Hk a s1) as [H3 H4]. split; [exact H3|lia].
  - split; [discriminate|exact H2].
  - contradiction.
Qed.

Lemma sound_try_except {A} (m : M A) clauses :
  sound m ->
  Forall (fun ch => forall e, sound (snd ch e)) clauses ->
  sound (try_except m clauses).
Proof.
  intros Hm Hh st. unfold try_except. destruct (Hm st) as [H1 H2].
  destruct (m st) as [[a|e|] s1]; cbn [fst snd] in *.
  - split; [discriminate|exact H2].
  - assert (Hsel : match select_handler clauses e with
                   | Some h => sound h
                   | None => True
                   end).
    { clear -Hh. induction Hh as [|[cls h] rest Hc _ IH]; cbn [select_handler].
      - exact I.
      - destruct (cls e); [apply Hc|exact IH]. }
    destruct (select_handler clauses e) as [h|].
    + destruct (Hsel s1) as [H3 H4]. split; [exact H3|lia].
    + split; [discriminate|exact H2].
  - contradiction.
Qed.

Lemma sound_get_driver : sound get_driver.
Proof. intros st. cbn. split; [discriminate|lia]. Qed.

Lemma sound_set_driver d : sound (set_driver d).
Proof. intros st. cbn. split; [discriminate|lia]. Qed.

Lemma sound_time_now : sound time_now.
Proof. intros st. cbn. split; [discriminate|lia]. Qed.

Lemma sound_sleep ms : sound (sleep ms).
Proof. intros st. cbn. split; [discriminate|lia]. Qed.

Lemma sound_log ev : sound (log ev).
Proof. intros st. cbn. split; [discriminate|lia]. Qed.

Lemma sound_act w o : sound (act w o).
Proof.
  intros st. unfold act. destruct (outcome w (trace st) o); cbn;
    (split; [discriminate|lia]).
Qed.

Lemma sound_count_elements w css : sound (count_elements w css).
Proof.
  intros st. unfold count_elements. destruct (find_elements w (trace st) css);
    cbn; (split; [discriminate|lia]).
Qed.

Lemma sound_run_script w s : sound (run_script w s).
Proof.
  intros st. unfold run_script. destruct (execute w (trace st) s);
    cbn; (split; [discriminate|lia]).
Qed.

Lemma sound_of_reply {A} (r : reply A) : sound (of_reply r).
Proof. intros st. destruct r; cbn; (split; [discriminate|lia]). Qed.

Lemma sound_when b m : sound m -> sound (when b m).
Proof. intros H. destruct b; cbn; [exact H|apply sound_ret]. Qed.

(** A polling loop started at the time it reads from the clock ends
    when the fuel covers [limit / interval] passes and one more look at
    the clock. *)
Lemma sound_poll {A B} fuel limit interval (body : M (option A))
  (k : option A -> M B) :
  (0 < interval)%N ->
  (limit <= (N.of_nat fuel - 1) * interval)%N -> (1 <= fuel)%nat ->
  sound body -> (forall r, sound (k r)) ->
  sound (start <- time_now ;; r <- poll fuel start limit interval body ;; k r).
Proof.
  intros Hpos Hlim Hfuel Hbody Hk st.
  unfold bind at 1, time_now.
  pose proof (poll_rule (fun _ => True) (fun _ => True) (fun _ _ => True)
                (fun _ _ => True) (now st) limit interval body Hpos) as Hp.
  assert (Hb : forall s, True -> (now st <= now s)%N -> (now s - now st <= limit)%N ->
     (now s <= now (snd (body s)))%N
     /\ match fst (body s) with
        | Ok (Some a) => True
        | Ok None => True
        | Raise e => True
        | OutOfFuel => False
        end).
  { intros s _ _ _. destruct (Hbody s) as [H1 H2]. split; [exact H2|].
    destruct (fst (body s)) as [[a|]|e|]; auto. }
  specialize (Hp Hb (fun _ _ => I) fuel st I (N.le_refl _)).
  destruct Hp as [Hmono Hout].
  { assert (Hx : (N.of_nat fuel * interval
                  = (N.of_nat fuel - 1) * interval + interval)%N).
    { rewrite <- (N.mul_1_l interval) at 3. rewrite <- N.mul_add_distr_r.
      f_equal. lia. }
    lia. }
  unfold bind.
  destruct (poll fuel (now st) limit interval body st) as [[r|e|] s1];
    cbn [fst snd] in *.
  - destruct (Hk r s1) as [H3 H4]. split; [exact H3|lia].
  - split; [discriminate|exact Hmono].
  - contradiction.
Qed.

End Framing.

(** ** Every function of the scraper comes to an end *)

Section Termination.
Import PyStr Py Scraper Observe.
Open Scope py_scope.

Ltac sound_step :=
  match goal with
  | |- sound (bind time_now (fun start => bind (poll _ start _ _ _) _)) =>
      apply sound_poll;
      [ reflexivity
      | unfold ENOUGH_FUEL, MAX_CLIPBOARD_WAIT_TIME in *; lia
      | unfold ENOUGH_FUEL in *; lia
      |
      | intros ]
  | |- sound (bind _ _) => apply sound_bind; [|intros]
  | |- sound (ret _) => apply sound_ret
  | |- sound (raise _) => apply sound_raise
  | |- sound (lift _) => apply sound_lift
  | |- sound (of_reply _) => apply sound_of_reply
  | |- sound (try_except _ _) => apply sound_try_except
  | |- Forall _ (_ :: _) => apply Forall_cons; [cbn [snd]; intros|]
  | |- Forall _ [] => apply Forall_nil
  | |- sound get_driver => apply sound_get_driver
  | |- sound (set_driver _) => apply sound_set_driver
  | |- sound time_now => apply sound_time_now
  | |- sound (sleep _) => apply sound_sleep
  | |- sound (log _) => apply sound_log
  | |- sound (act _ _) => apply sound_act
  | |- sound (count_elements _ _) => apply sound_count_elements
  | |- sound (run_script _ _) => apply sound_run_script
  | |- sound (when _ _) => apply sound_when
  | |- sound (if ?b then _ else _) => destruct b
  | |- sound (match ?x with _ => _ end) => destruct x
  | |- sound (let (_, _) := ?x in _) => destruct x
  end.

Ltac sound_auto := repeat sound_step.

Lemma sound_element_poll_body w : sound (element_poll_body w).
Proof. unfold element_poll_body. sound_auto. Qed.

Lemma sound_loading_check_body w : sound (loading_check_body w).
Proof. unfold loading_check_body. sound_auto. Qed.

Lemma sound_data_check_body w : sound (data_check_body w).
Proof. unfold data_check_body. sound_auto. Qed.

Lemma sound_wait_for_chart fuel w c :
  (ENOUGH_FUEL <= fuel)%nat -> sound (wait_for_chart fuel w c).
Proof.
  intros Hfuel. unfold wait_for_chart. sound_auto;
    auto using sound_element_poll_body, sound_loading_check_body,
      sound_data_check_body.
Qed.

Lemma sound_navigate_and_wait fuel w c url :
  (ENOUGH_FUEL <= fuel)%nat -> sound (_navigate_and_wait fuel w c url).
Proof.
  intros Hfuel. unfold _navigate_and_wait. sound_auto.
  now apply sound_wait_for_chart.
Qed.

Lemma sound_link_poll_body w : sound (link_poll_body w).
Proof. unfold link_poll_body. sound_auto. Qed.

Lemma sound_link_attempt fuel w :
  (ENOUGH_FUEL <= fuel)%nat -> sound (link_attempt fuel w).
Proof.
  intros Hfuel. unfold link_attempt. sound_auto.
  apply sound_link_poll_body.
Qed.

Lemma sound_link_attempts fuel w remaining :
  (ENOUGH_FUEL <= fuel)%nat -> sound (link_attempts fuel w remaining).
Proof.
  intros Hfuel. induction remaining as [|remaining IH]; cbn [link_attempts].
  - sound_auto.
  - sound_auto; auto using sound_link_attempt.
Qed.

Lemma sound_trigger_screenshot_and_get_link fuel w :
  (ENOUGH_FUEL <= fuel)%nat -> sound (_trigger_screenshot_and_get_link fuel w).
Proof.
  intros Hfuel. unfold _trigger_screenshot_and_get_link. sound_auto.
  now apply sound_link_attempts.
Qed.

Lemma sound_send_save_shortcut w c : sound (_send_save_shortcut w c).
Proof. unfold _send_save_shortcut. sound_auto. Qed.

Lemma sound_try_shortcuts w shortcuts : sound (try_shortcuts w shortcuts).
Proof.
  induction shortcuts as [|sc rest IH]; cbn [try_shortcuts]; sound_auto.
  exact IH.
Qed.

Lemma image_bytes_of_ends v : image_bytes_of v <> OutOfFuel.
Proof.
  unfold image_bytes_of.
  destruct (js_truthy v); [|discriminate].
  destruct v; try discriminate.
  destruct (startswith s "data:image/"); [|discriminate].
  destruct (split_comma s) as [[h d]|]; [|discriminate].
  destruct (Base64.b64decode d); discriminate.
Qed.

Lemma sound_read_image_from_clipboard w : sound (_read_image_from_clipboard w).
Proof.
  unfold _read_image_from_clipboard. sound_auto. apply image_bytes_of_ends.
Qed.

Lemma sound_nonblank_text v : sound (nonblank_text v).
Proof. unfold nonblank_text. sound_auto. Qed.

Lemma sound_check_server_error w s : sound (check_server_error w s).
Proof. unfold check_server_error. sound_auto. Qed.

Lemma sound_text_poll_body w : sound (text_poll_body w).
Proof. unfold text_poll_body. sound_auto. apply sound_nonblank_text. Qed.

Lemma sound_text_attempt fuel w :
  (ENOUGH_FUEL <= fuel)%nat -> sound (text_attempt fuel w).
Proof.
  intros Hfuel. unfold text_attempt, _try_alternative_shortcuts. sound_auto;
    auto using sound_text_poll_body, sound_nonblank_text,
      sound_check_server_error, sound_try_shortcuts.
Qed.

Lemma sound_image_attempt w : sound (image_attempt w).
Proof.
  unfold image_attempt. sound_auto. apply sound_read_image_from_clipboard.
Qed.

Lemma sound_clipboard_attempt fuel w c :
  (ENOUGH_FUEL <= fuel)%nat -> sound (clipboard_attempt fuel w c).
Proof.
  intros Hfuel. unfold clipboard_attempt. sound_auto;
    auto using sound_send_save_shortcut, sound_image_attempt, sound_text_attempt.
Qed.

Lemma sound_clipboard_attempts fuel w c remaining :
  (ENOUGH_FUEL <= fuel)%nat -> sound (clipboard_attempts fuel w c remaining).
Proof.
  intros Hfuel. induction remaining as [|remaining IH]; cbn [clipboard_attempts].
  - sound_auto.
  - sound_auto; auto using sound_clipboard_attempt.
Qed.

Lemma sound_get_clipboard_content fuel w c :
  (ENOUGH_FUEL <= fuel)%nat -> sound (_get_clipboard_content fuel w c).
Proof.
  intros Hfuel. unfold _get_clipboard_content. sound_auto.
  now apply sound_clipboard_attempts.
Qed.

Lemma sound_set_auth_cookies_optimized w c url :
  sound (_set_auth_cookies_optimized w c url).
Proof. unfold _set_auth_cookies_optimized. sound_auto. Qed.

End Termination.

(** ** Capture Orchestrator *)

Section OrchestratorProperties.
Import PyStr Py Scraper Observe.
Open Scope py_scope.

(** A [try] whose last clause is [except Exception] and whose handlers
    return lets nothing out. *)
Lemma try_except_returns {A} (m : M A) clauses st :
  fst (m st) <> OutOfFuel ->
  (forall e, exists h, select_handler clauses e = Some h
                       /\ forall s, exists a, fst (h s) = Ok a) ->
  exists a, fst (try_except m clauses st) = Ok a.
Proof.
  intros Hend Hh. unfold try_except.
  destruct (m st) as [[a|e|] s1]; cbn [fst] in *.
  - eauto.
  - destruct (Hh e) as (h & -> & Hret). apply Hret.
  - contradiction.
Qed.

Lemma sound_chart_image_steps fuel w c ticker interval :
  (ENOUGH_FUEL <= fuel)%nat ->
  sound (chart_image_steps fuel w c ticker interval).
Proof.
  intros Hfuel. unfold chart_image_steps.
  apply (sound_bind _ _ (sound_set_auth_cookies_optimized w c _)).
  intros authenticated.
  apply sound_bind; [apply sound_when, sound_log|intros _].
  apply sound_bind; [now apply sound_navigate_and_wait|intros _].
  apply sound_bind.
  { apply sound_try_except.
    - apply sound_bind; [apply sound_run_script|intros _; apply sound_sleep].
    - apply Forall_cons; [intros e; apply sound_log|apply Forall_nil]. }
  intros _.
  apply sound_bind; [now apply sound_get_clipboard_content|intros image_url].
  apply sound_bind; [|intros _; apply sound_ret].
  destruct (truthy image_url && _); apply sound_log.
Qed.

(** The steps return what [_get_clipboard_content] returned. *)
Lemma chart_image_steps_value fuel w c ticker interval st v :
  fst (chart_image_steps fuel w c ticker interval st) = Ok v ->
  exists image_url, v = Some image_url.
Proof.
  unfold chart_image_steps.
  repeat match goal with
         | |- fst (bind ?m ?k ?s) = _ -> _ =>
             unfold bind at 1; destruct (m s) as [[?|?|] ?]; cbn [fst];
             try discriminate
         end.
  cbn [ret fst]. intros [= <-]. eauto.
Qed.

(** C10.  With an initialised driver and a non-empty ticker and
    interval, [get_chart_image_url] returns, and what it returns is
    decided by its [try] block, the steps of authentication, navigation
    and clipboard capture: when a step raises, a
    [TradingViewScraperError] or any other exception, the value is
    [None] and the caller sees no exception; when the steps run through,
    the value is the URL that [_get_clipboard_content] returned. *)
Theorem get_chart_image_url_never_raises fuel w c ticker interval st :
  (ENOUGH_FUEL <= fuel)%nat ->
  driver st = true ->
  ticker <> "" -> interval <> "" ->
  let steps := chart_image_steps fuel w c ticker interval (emit STARTING 0 st) in
  let run := get_chart_image_url fuel w c ticker interval st in
  match fst steps with
  | Raise e => fst run = Ok None
  | Ok v => fst run = Ok v /\ exists image_url, v = Some image_url
  | OutOfFuel => False
  end.
Proof.
  intros Hfuel Hd Ht Hi steps run. subst steps run.
  assert (Hrun : get_chart_image_url fuel w c ticker interval st
                 = try_except (chart_image_steps fuel w c ticker interval)
                     [(is_TradingViewScraperError,
                       fun _ => log (Log Error "Scraping failed") ;; ret None);
                      (is_Exception,
                       fun _ => log (Log Error "An unexpected error occurred") ;;
                                ret None)]
                     (emit STARTING 0 st)).
  { unfold get_chart_image_url. unfold bind at 1, log. unfold bind at 1, get_driver.
    destruct st as [d n t]. cbn [driver] in Hd. subst d. cbn [emit driver negb].
    destruct ticker as [|t0 ticker]; [congruence|].
    destruct interval as [|i0 interval]; [congruence|].
    reflexivity. }
  rewrite Hrun. unfold try_except.
  destruct (sound_chart_image_steps fuel w c ticker interval Hfuel
              (emit STARTING 0 st)) as [Hend _].
  pose proof (chart_image_steps_value fuel w c ticker interval
                (emit STARTING 0 st)) as Hval.
  destruct (chart_image_steps fuel w c ticker interval (emit STARTING 0 st))
    as [[v|e|] s1]; cbn [fst] in *.
  - split; [reflexivity|]. now apply Hval.
  - cbn [select_handler]. destruct (is_TradingViewScraperError e); reflexivity.
  - contradiction.
Qed.

Lemma get_chart_image_url_never_raises_witness :
  let steps := chart_image_steps 31 idle_world linux_image_config
                 "BYBIT:BTCUSDT.P" "15" (emit STARTING 0 ready_state) in
  let run := get_chart_image_url 31 idle_world linux_image_config
               "BYBIT:BTCUSDT.P" "15" ready_state in
  match fst steps with
  | Raise e => fst run = Ok None
  | Ok v => fst run = Ok v /\ exists image_url, v = Some image_url
  | OutOfFuel => False
  end.
Proof.
  apply get_chart_image_url_never_raises.
  - unfold ENOUGH_FUEL. lia.
  - reflexivity.
  - discriminate.
  - discriminate.
Defined.

(** Faults of the three phases.  In the browser that answers every call
    and never puts anything on the clipboard, the steps end in the error
    of the exhausted clipboard; where no page can be loaded, in the error
    of the navigation; where the reader returns image data that cannot
    be decoded, in the [ValueError] of the decoding.  The caller gets
    [None] each time. *)
Lemma get_chart_image_url_on_faults :
  (fst (chart_image_steps 31 idle_world linux_image_config "BYBIT:BTCUSDT.P"
          "15" (emit STARTING 0 ready_state)) = Raise CLIPBOARD_EXHAUSTED
   /\ fst (get_chart_image_url 31 idle_world linux_image_config "BYBIT:BTCUSDT.P"
             "15" ready_state) = Ok None)
  /\ (fst (chart_image_steps 31 Behaviour.offline_world linux_image_config
             "BYBIT:BTCUSDT.P" "15" (emit STARTING 0 ready_state))
      = Raise (TradingViewScraperError
                 ("Navigation to " ++ chart_url linux_image_config
                                        "BYBIT:BTCUSDT.P" "15" ++ " failed"))
      /\ fst (get_chart_image_url 31 Behaviour.offline_world linux_image_config
                "BYBIT:BTCUSDT.P" "15" ready_state) = Ok None)
  /\ (fst (chart_image_steps 31 (Behaviour.reader_world "data:image/png;base64")
             linux_image_config "BYBIT:BTCUSDT.P" "15"
             (emit STARTING 0 ready_state))
      = Raise (ValueError "not enough values to unpack")
      /\ fst (get_chart_image_url 31
                (Behaviour.reader_world "data:image/png;base64")
                linux_image_config "BYBIT:BTCUSDT.P" "15" ready_state) = Ok None).
Proof. vm_compute. repeat split; reflexivity. Qed.

(** When the capture succeeds the caller gets the URL. *)
Lemma get_chart_image_url_on_success :
  fst (get_chart_image_url 31
         (clipboard_holds_world "https://s3.tradingview.com/snapshots/a/AbCdEf12.png")
         linux_link_config "BYBIT:BTCUSDT.P" "15" ready_state)
  = Ok (Some "https://s3.tradingview.com/snapshots/a/AbCdEf12.png").
Proof. vm_compute. reflexivity. Qed.

End OrchestratorProperties.

(** ** Readiness Prober *)

Section ProberProperties.
Import PyStr Py Scraper Observe.
Open Scope py_scope.

Lemma lasts_weaken {A} d d' (m : M A) :
  (d <= d')%N -> lasts d m -> lasts d' m.
Proof. intros Hd Hm st. specialize (Hm st). lia. Qed.

Lemma lasts_ret {A} (a : A) : lasts 0 (ret a).
Proof. intros st. cbn. lia. Qed.

Lemma lasts_bind {A B} d1 d2 (m : M A) (k : A -> M B) :
  lasts d1 m -> (forall a, lasts d2 (k a)) -> lasts (d1 + d2) (bind m k).
Proof.
  intros Hm Hk st. unfold bind. specialize (Hm st).
  destruct (m st) as [[a|e|] s1]; cbn [snd] in *; try lia.
  specialize (Hk a s1). lia.
Qed.

Lemma lasts_try_except {A} d1 d2 (m : M A) clauses :
  lasts d1 m ->
  Forall (fun ch => forall e, lasts d2 (snd ch e)) clauses ->
  lasts (d1 + d2) (try_except m clauses).
Proof.
  intros Hm Hh st. unfold try_except. specialize (Hm st).
  destruct (m st) as [[a|e|] s1]; cbn [snd] in *; try lia.
  assert (Hsel : match select_handler clauses e with
                 | Some h => lasts d2 h
                 | None => True
                 end).
  { clear -Hh. induction Hh as [|[cls h] rest Hc _ IH]; cbn [select_handler].
    - exact I.
    - destruct (cls e); [apply Hc|exact IH]. }
  destruct (select_handler clauses e) as [h|]; cbn [snd]; [|lia].
  specialize (Hsel s1). lia.
Qed.

Lemma lasts_count_elements w css q :
  (forall h css', latency w h (FindElements css') <= q)%N ->
  lasts q (count_elements w css).
Proof.
  intros Hq st. unfold count_elements, of_reply.
  specialize (Hq (trace st) css).
  destruct (find_elements w (trace st) css); cbn [snd emit now]; lia.
Qed.

Ltac probe_step :=
  match goal with
  | |- lasts _ (bind _ _) => apply lasts_bind; [|intros]
  | |- lasts _ (ret _) => apply lasts_ret
  | |- lasts _ (try_except _ _) => apply lasts_try_except
  | |- lasts _ (count_elements _ _) => now apply lasts_count_elements
  | |- lasts _ (if ?b then _ else _) => destruct b
  | |- Forall _ (_ :: _) => apply Forall_cons; [cbn [snd]; intros|]
  | |- Forall _ [] => apply Forall_nil
  end.

(** The bodies of the three probing loops swallow every exception. *)
Lemma returns_catch_all {A} (m : M A) (a0 : A) :
  sound m -> returns (try_except m [(is_Exception, fun _ => ret a0)]).
Proof.
  intros Hm st. apply try_except_returns.
  - apply Hm.
  - intros e. cbn. eexists. split; [reflexivity|]. intros s. eexists. reflexivity.
Qed.

Lemma returns_element_poll_body w : returns (element_poll_body w).
Proof.
  unfold element_poll_body. apply returns_catch_all.
  repeat (apply sound_bind; [apply sound_count_elements|intros]).
  destruct (_ && _); apply sound_ret.
Qed.

Lemma returns_loading_check_body w : returns (loading_check_body w).
Proof.
  unfold loading_check_body. apply returns_catch_all.
  repeat (apply sound_bind; [apply sound_count_elements|intros]).
  destruct (_ =? _)%nat; apply sound_ret.
Qed.

Lemma returns_data_check_body w : returns (data_check_body w).
Proof.
  unfold data_check_body. apply returns_catch_all.
  repeat (apply sound_bind; [apply sound_count_elements|intros]).
  destruct (_ && _); apply sound_ret.
Qed.

(** A pass of a probing loop takes as long as its queries. *)
Lemma lasts_element_poll_body w q :
  (forall h css, latency w h (FindElements css) <= q)%N ->
  lasts (3 * q) (element_poll_body w).
Proof.
  intros Hq. unfold element_poll_body.
  apply (lasts_weaken ((q + (q + (q + 0))) + 0)); [lia|].
  repeat probe_step.
Qed.

Lemma lasts_loading_check_body w q :
  (forall h css, latency w h (FindElements css) <= q)%N ->
  lasts q (loading_check_body w).
Proof.
  intros Hq. unfold loading_check_body.
  apply (lasts_weaken ((q + 0) + 0)); [lia|].
  repeat probe_step.
Qed.

Lemma lasts_data_check_body w q :
  (forall h css, latency w h (FindElements css) <= q)%N ->
  lasts (3 * q) (data_check_body w).
Proof.
  intros Hq. unfold data_check_body.
  apply (lasts_weaken ((q + (q + (q + 0))) + 0)); [lia|].
  repeat probe_step.
Qed.

(** One probing loop whose body swallows exceptions: it returns.  Its
    limit is checked at the head of each pass, so the loop is over one
    pass after the limit at the latest: the body and the pause that
    follows it. *)
Lemma poll_stage {A} fuel limit interval (body : M (option A)) st :
  (0 < interval)%N ->
  (limit < N.of_nat fuel * interval)%N ->
  sound body -> returns body ->
  exists r s',
    poll fuel (now st) limit interval body st = (Ok r, s')
    /\ (now st <= now s')%N
    /\ (forall d, lasts d body -> (now s' <= now st + limit + d + interval)%N).
Proof.
  intros Hpos Hlim Hsound Hret.
  destruct (poll fuel (now st) limit interval body st) as [r s'] eqn:Hrun.
  pose proof (poll_rule (fun _ => True) (fun _ => True) (fun _ _ => True)
                (fun _ _ => False) (now st) limit interval body Hpos)
    as Hgen.
  assert (Hb : forall s, True -> (now st <= now s)%N ->
                 (now s - now st <= limit)%N ->
     (now s <= now (snd (body s)))%N
     /\ match fst (body s) with
        | Ok (Some a) => True
        | Ok None => True
        | Raise e => False
        | OutOfFuel => False
        end).
  { intros s _ _ _. destruct (Hsound s) as [_ H2]. split; [exact H2|].
    destruct (Hret s) as [a ->]. destruct a; exact I. }
  specialize (Hgen Hb (fun _ _ => I) fuel st I (N.le_refl _)).
  rewrite Hrun in Hgen. cbn [fst snd] in Hgen.
  destruct Hgen as [Hmono Hout]; [lia|].
  destruct r as [r|e|]; try contradiction.
  exists r, s'. split; [reflexivity|]. split; [exact Hmono|].
  intros d Hd.
  pose proof (poll_rule
                (fun s => now s <= now st + limit + d + interval)%N
                (fun s => now s <= now st + limit + d)%N
                (fun _ s => now s <= now st + limit + d + interval)%N
                (fun _ _ => False) (now st) limit interval body Hpos)
    as Hbound.
  assert (Hb2 : forall s,
     (now s <= now st + limit + d + interval)%N ->
     (now st <= now s)%N -> (now s - now st <= limit)%N ->
     (now s <= now (snd (body s)))%N
     /\ match fst (body s) with
        | Ok (Some a) => (now (snd (body s)) <= now st + limit + d + interval)%N
        | Ok None => (now (snd (body s)) <= now st + limit + d)%N
        | Raise e => False
        | OutOfFuel => False
        end).
  { intros s _ Hs Hguard.
    destruct (Hsound s) as [_ H2]. split; [exact H2|].
    specialize (Hd s).
    destruct (Hret s) as [a ->]. destruct a; lia. }
  assert (Hs2 : forall s,
     (now s <= now st + limit + d)%N ->
     (now (emit (Sleep interval) interval s) <= now st + limit + d + interval)%N).
  { intros s Hs. cbn [emit now]. lia. }
  assert (H0 : (now st <= now st + limit + d + interval)%N) by lia.
  specialize (Hbound Hb2 Hs2 fuel st H0 (N.le_refl _)).
  rewrite Hrun in Hbound. cbn [fst snd] in Hbound.
  destruct Hbound as [_ Hout2]; [lia|].
  destruct r as [a|]; [exact Hout2|apply Hout2].
Qed.

(** C8, as amended.  For every combination of outcomes and durations of
    the DOM queries the readiness probing after navigation comes to an
    end, and its polling loops never raise: the phase returns, or it
    passes on what the infrastructure wait raised other than a timeout.
    [MAX_CHART_WAIT_TIME] is the time given to the infrastructure wait
    only.  The two loops that follow have limits of their own, 2 s for
    the element poll and 1.5 s or 2 s for the gate of the strategy, each
    checked at the head of a pass: with queries that take at most [q]
    each, a loop is over within its limit, one more pass of its queries
    and one more pause of 0.1 s. *)
Theorem readiness_probe_bounds fuel w c st :
  (ENOUGH_FUEL <= fuel)%nat ->
  let run := wait_for_chart fuel w c st in
  let shell := latency w (WAITING :: trace st) WaitInfrastructure in
  (fst run = Ok tt
   \/ exists e, fst run = Raise e
                /\ outcome w (WAITING :: trace st) WaitInfrastructure = Some e
                /\ is_TimeoutException e = false)
  /\ (now st + shell <= now (snd run))%N
  /\ (forall q,
        (forall h css, latency w h (FindElements css) <= q)%N ->
        (now (snd run)
         <= now st + shell + (2000 + 3 * q + 100)
            + (if use_save_shortcut c then 1500 + q + 100 else 2000 + 3 * q + 100))%N).
Proof.
  intros Hfuel run shell. subst run shell.
  assert (Hf20 : (2000 < N.of_nat fuel * 100)%N)
    by (unfold ENOUGH_FUEL in Hfuel; lia).
  assert (Hf15 : (1500 < N.of_nat fuel * 100)%N)
    by (unfold ENOUGH_FUEL in Hfuel; lia).
  destruct (wait_for_chart fuel w c st) as [r s'] eqn:Hrun. cbn [fst snd].
  unfold wait_for_chart in Hrun.
  unfold bind at 1, log in Hrun. unfold bind at 1, time_now in Hrun.
  fold WAITING in Hrun.
  set (st0 := emit WAITING 0 st) in *.
  unfold try_except in Hrun. unfold bind at 1, act in Hrun.
  set (st1 := emit (Call WaitInfrastructure)
                (latency w (trace st0) WaitInfrastructure) st0) in *.
  assert (Hst1 : now st1 = (now st + latency w (WAITING :: trace st)
                                       WaitInfrastructure)%N)
    by (cbn; lia).
  change (trace st0) with (WAITING :: trace st) in *.
  clearbody st1. clearbody st0.
  destruct (outcome w (WAITING :: trace st) WaitInfrastructure) as [e|] eqn:Hout.
  - (* the infrastructure wait raises *)
    cbn [select_handler] in Hrun.
    destruct (is_TimeoutException e) eqn:Hto.
    + cbn in Hrun. injection Hrun as <- <-.
      split; [left; reflexivity|]. cbn [now emit]. split; [lia|].
      intros q _. destruct (use_save_shortcut c); lia.
    + injection Hrun as <- <-.
      split; [right; exists e; auto|]. split; [lia|].
      intros q _. destruct (use_save_shortcut c); lia.
  - (* the shell is there: element poll, then the gate of the strategy *)
    unfold bind at 1, time_now in Hrun.
    destruct (poll_stage fuel 2000 100 (element_poll_body w) st1)
      as (r1 & s2 & Hrun1 & Hmono1 & Htime1);
      [reflexivity|exact Hf20|apply sound_element_poll_body
      |apply returns_element_poll_body|].
    unfold bind at 1 in Hrun. rewrite Hrun1 in Hrun.
    destruct (use_save_shortcut c).
    + unfold bind at 1, time_now in Hrun.
      destruct (poll_stage fuel 1500 100 (loading_check_body w) s2)
        as (r2 & s3 & Hrun2 & Hmono2 & Htime2);
        [reflexivity|exact Hf15|apply sound_loading_check_body
        |apply returns_loading_check_body|].
      unfold bind at 1 in Hrun. rewrite Hrun2 in Hrun. cbn [ret] in Hrun.
      injection Hrun as <- <-.
      split; [left; reflexivity|]. split; [lia|].
      intros q Hq.
      specialize (Htime1 _ (lasts_element_poll_body w q Hq)).
      specialize (Htime2 _ (lasts_loading_check_body w q Hq)).
      lia.
    + unfold bind at 1, time_now in Hrun.
      destruct (poll_stage fuel 2000 100 (data_check_body w) s2)
        as (r2 & s3 & Hrun2 & Hmono2 & Htime2);
        [reflexivity|exact Hf20|apply sound_data_check_body
        |apply returns_data_check_body|].
      unfold bind at 1 in Hrun. rewrite Hrun2 in Hrun. cbn [ret] in Hrun.
      injection Hrun as <- <-.
      split; [left; reflexivity|]. split; [lia|].
      intros q Hq.
      specialize (Htime1 _ (lasts_element_poll_body w q Hq)).
      specialize (Htime2 _ (lasts_data_check_body w q Hq)).
      lia.
Qed.

Lemma readiness_probe_bounds_witness :
  let run := wait_for_chart 31 slow_chart_world linux_image_config ready_state in
  let shell := latency slow_chart_world (WAITING :: trace ready_state)
                 WaitInfrastructure in
  (fst run = Ok tt
   \/ exists e, fst run = Raise e
                /\ outcome slow_chart_world (WAITING :: trace ready_state)
                     WaitInfrastructure = Some e
                /\ is_TimeoutException e = false)
  /\ (now ready_state + shell <= now (snd run))%N
  /\ (forall q,
        (forall h css, latency slow_chart_world h (FindElements css) <= q)%N ->
        (now (snd run)
         <= now ready_state + shell + (2000 + 3 * q + 100)
            + (if use_save_shortcut linux_image_config
               then 1500 + q + 100 else 2000 + 3 * q + 100))%N).
Proof.
  apply readiness_probe_bounds. unfold ENOUGH_FUEL. lia.
Defined.

(** The bound of a loop is reached.  With the shell found after 5.95 s
    and queries that take no time, the element poll ends at 7.95 s after
    20 passes; the gate of the traditional strategy is still let in at
    9.95 s, where the floats give [9.95 - 7.95 < 2], makes its 21st pass
    and ends at 10.05 s. *)
Lemma readiness_probe_extra_pass :
  float_elapsed_below 5950 7950 2000 = false
  /\ float_elapsed_below 7950 9950 2000 = true
  /\ now (snd (wait_for_chart 31 (shell_after_world 5950) linux_link_config
                 ready_state)) = 10050%N.
Proof. vm_compute. repeat split; reflexivity. Qed.

(** C8 as stated does not hold: in [slow_chart_world] the queries take
    no time and the infrastructure wait stays within its bound, yet the
    phase lasts 6.5 s, longer than [MAX_CHART_WAIT_TIME]. *)
Lemma readiness_probe_exceeds_max_chart_wait_time :
  ~ (forall fuel w c st,
        (ENOUGH_FUEL <= fuel)%nat ->
        (forall h css, latency w h (FindElements css) = 0%N) ->
        (forall h, latency w h WaitInfrastructure <= MAX_CHART_WAIT_TIME)%N ->
        (now (snd (wait_for_chart fuel w c st))
         <= now st + MAX_CHART_WAIT_TIME)%N).
Proof.
  intros H.
  specialize (H 31%nat slow_chart_world linux_image_config ready_state).
  assert (Hrun : now (snd (wait_for_chart 31 slow_chart_world linux_image_config
                             ready_state)) = 6500%N)
    by (vm_compute; reflexivity).
  rewrite Hrun in H. unfold MAX_CHART_WAIT_TIME in H. cbn [now ready_state] in H.
  assert (Hbad : (6500 <= 0 + 6000)%N).
  { apply H.
    - unfold ENOUGH_FUEL. lia.
    - intros h css. reflexivity.
    - intros h. cbn. lia. }
  lia.
Qed.

End ProberProperties.

(** ** Stripping *)

Section StripFacts.
Import PyStr.

Lemma rstrip_idempotent s : rstrip (rstrip s) = rstrip s.
Proof.
  induction s as [|c s IH]; [reflexivity|].
  cbn [rstrip]. destruct (rstrip s) as [|d r] eqn:E.
  - destruct (is_space c) eqn:Hc; [reflexivity|].
    cbn [rstrip]. now rewrite Hc.
  - cbn [rstrip] in *. rewrite IH. reflexivity.
Qed.

Lemma lstrip_head s :
  match lstrip s with
  | EmptyString => True
  | String c _ => is_space c = false
  end.
Proof.
  induction s as [|c s IH]; cbn [lstrip]; [exact I|].
  destruct (is_space c) eqn:Hc; [exact IH|exact Hc].
Qed.

Lemma rstrip_head c s :
  is_space c = false -> exists r, rstrip (String c s) = String c r.
Proof.
  intros Hc. cbn [rstrip]. destruct (rstrip s); [rewrite Hc|]; eauto.
Qed.

(** Stripping a stripped text changes nothing. *)
Lemma strip_idempotent s : strip (strip s) = strip s.
Proof.
  unfold strip. pose proof (lstrip_head s) as Hh.
  destruct (lstrip s) as [|c t].
  - reflexivity.
  - destruct (rstrip_head c t Hh) as [r Hr]. rewrite Hr.
    cbn [lstrip]. rewrite Hh, <- Hr. apply rstrip_idempotent.
Qed.

End StripFacts.

(** ** Retry loops *)

Section RetryLoops.
Import PyStr Py Scraper Observe.
Open Scope py_scope.

(** A polling loop whose body finds nothing on every pass runs until
    the time is up. *)
Lemma poll_all_none {A} (Inv : State -> Prop) fuel limit interval
  (body : M (option A)) st :
  (0 < interval)%N -> (1 <= fuel)%nat ->
  (limit <= (N.of_nat fuel - 1) * interval)%N ->
  (forall s, Inv s ->
     exists s', body s = (Ok None, s') /\ Inv s' /\ (now s <= now s')%N) ->
  (forall s, Inv s -> Inv (emit (Sleep interval) interval s)) ->
  Inv st ->
  exists st',
    poll fuel (now st) limit interval body st = (Ok None, st')
    /\ Inv st' /\ (now st <= now st')%N.
Proof.
  intros Hpos Hfuel Hlim Hbody Hsleep Hinv.
  pose proof (poll_rule Inv Inv (fun _ _ => False) (fun _ _ => False)
                (now st) limit interval body Hpos) as Hgen.
  assert (Hb : forall s, Inv s -> (now st <= now s)%N ->
                 (now s - now st <= limit)%N ->
     (now s <= now (snd (body s)))%N
     /\ match fst (body s) with
        | Ok (Some a) => False
        | Ok None => Inv (snd (body s))
        | Raise e => False
        | OutOfFuel => False
        end).
  { intros s Hs _ _. destruct (Hbody s Hs) as (s' & -> & Hi & Hm).
    cbn [fst snd]. auto. }
  specialize (Hgen Hb Hsleep fuel st Hinv (N.le_refl _)).
  destruct Hgen as [Hmono Hout].
  { assert (Hx : (N.of_nat fuel * interval
                  = (N.of_nat fuel - 1) * interval + interval)%N).
    { rewrite <- (N.mul_1_l interval) at 3. rewrite <- N.mul_add_distr_r.
      f_equal. lia. }
    lia. }
  destruct (poll fuel (now st) limit interval body st) as [[[a|]|e|] st'];
    cbn [fst snd] in *; try contradiction.
  exists st'. intuition.
Qed.

(** One pass of the link loop over an empty clipboard asks for the
    next attempt. *)
Lemma link_attempt_empty fuel w st a b c :
  (ENOUGH_FUEL <= fuel)%nat ->
  tally (trace st) = (a, b, c) ->
  (forall h, attempts_of h = a -> link_empty_at w h) ->
  exists st',
    link_attempt fuel w st = (Ok Retry, st')
    /\ driver st' = driver st
    /\ tally (trace st') = (a, b, S c)
    /\ (now st <= now st')%N.
Proof.
  intros Hfuel Ht Hq.
  assert (Ha : attempts_of (trace st) = a) by (unfold tally in Ht; congruence).
  unfold link_attempt, try_except.
  unfold bind at 1, act.
  destruct (Hq _ Ha) as [-> _].
  set (st1 := emit (Call (Perform AltS)) (latency w (trace st) (Perform AltS)) st).
  assert (Hst1 : driver st1 = driver st /\ tally (trace st1) = (a, b, S c)
                 /\ (now st <= now st1)%N).
  { unfold st1, tally in *. cbn. inversion Ht. repeat split; lia. }
  clearbody st1.
  unfold bind at 1, time_now.
  destruct (poll_all_none
              (fun s => driver s = driver st /\ tally (trace s) = (a, b, S c))
              fuel 5000 200 (link_poll_body w) st1) as (st2 & Hrun & Hinv2 & Hm2).
  - reflexivity.
  - unfold ENOUGH_FUEL in Hfuel. lia.
  - unfold ENOUGH_FUEL in Hfuel. lia.
  - intros s [Hd Hs].
    assert (Hs' : attempts_of (trace s) = a) by (unfold tally in Hs; congruence).
    destruct (Hq _ Hs') as [_ He].
    exists (emit (Call (Execute ReadText)) (latency w (trace s) (Execute ReadText)) s).
    split; [|split; [split|]].
    + unfold link_poll_body, try_except, bind, run_script, of_reply.
      unfold empty_for_link in He.
      destruct (execute w (trace s) ReadText) as [v|e]; cbn.
      * destruct (stripped_text v); [discriminate|reflexivity].
      * rewrite He. reflexivity.
    + exact Hd.
    + unfold tally in *. cbn. exact Hs.
    + cbn. lia.
  - intros s [Hd Hs]. split; [exact Hd|]. unfold tally in *. cbn. exact Hs.
  - destruct Hst1 as (H1 & H2 & _). split; assumption.
  - unfold bind at 1. rewrite Hrun.
    destruct Hinv2 as [Hd2 Ht2].
    unfold bind at 1. unfold bind at 1, log.
    set (st3 := emit (Log Info "Final attempt to read clipboard...") 0 st2).
    assert (Ht3 : tally (trace st3) = (a, b, S c))
      by (unfold st3, tally in *; cbn; exact Ht2).
    assert (Ha3 : attempts_of (trace st3) = a)
      by (unfold tally in Ht3; congruence).
    destruct (Hq _ Ha3) as [_ He]. unfold empty_for_link in He.
    unfold try_except, run_script, of_reply.
    destruct (execute w (trace st3) ReadText) as [v|e].
    + destruct (stripped_text v) eqn:Hv; [discriminate|].
      cbn [bind ret log emit fst snd].
      eexists. split; [reflexivity|]. cbn.
      destruct Hst1 as (H1 & _ & H3).
      repeat split; try congruence; try lia.
      unfold tally in *. cbn. exact Ht2.
    + cbn [select_handler]. rewrite He. cbn.
      eexists. split; [reflexivity|]. cbn.
      destruct Hst1 as (H1 & _ & H3).
      repeat split; try congruence; try lia.
      unfold tally in *. cbn. exact Ht2.
Qed.

Lemma truthy_strip raw : truthy (strip raw) = true -> truthy raw = true.
Proof. destruct raw; [discriminate|reflexivity]. Qed.



(** One pass of the link loop in which the chord fails with a WebDriver
    error breaks the loop. *)
Lemma link_attempt_abort fuel w st a b c e :
  tally (trace st) = (a, b, c) ->
  outcome w (trace st) (Perform AltS) = Some e ->
  is_WebDriverException e = true ->
  exists st',
    link_attempt fuel w st = (Ok Abort, st')
    /\ driver st' = driver st
    /\ tally (trace st') = (a, b, S c)
    /\ (now st <= now st')%N.
Proof.
  intros Ht Ho He.
  unfold link_attempt, try_except. unfold bind at 1, act. rewrite Ho.
  cbn [select_handler]. rewrite He. cbn [bind log ret emit].
  eexists. split; [reflexivity|].
  unfold tally in *. cbn. inversion Ht. repeat split; lia.
Qed.

(** The link loop passes over [j] attempts that find the clipboard
    empty, pausing [CLIPBOARD_RETRY_INTERVAL] after each one but the
    last of the loop, and goes on with the passes that remain. *)
Lemma link_attempts_empty_prefix fuel w j :
  (ENOUGH_FUEL <= fuel)%nat ->
  forall remaining st a b c,
    tally (trace st) = (a, b, c) ->
    (j <= remaining)%nat ->
    (forall h, (a < attempts_of h <= a + j)%nat -> link_empty_at w h) ->
    exists st1,
      link_attempts fuel w remaining st
      = link_attempts fuel w (remaining - j) st1
      /\ driver st1 = driver st
      /\ tally (trace st1)
         = ((a + j)%nat, (b + Nat.min j (remaining - 1))%nat, (c + j)%nat)
      /\ (now st <= now st1)%N.
Proof.
  intros Hfuel. induction j as [|j IH]; intros remaining st a b c Ht Hj Hq.
  - exists st. split; [now rewrite Nat.sub_0_r|]. split; [reflexivity|].
    split; [|lia]. rewrite Ht. cbn [Nat.min]. f_equal; [f_equal|]; lia.
  - destruct remaining as [|r]; [lia|].
    cbn [link_attempts]. unfold bind at 1, log.
    set (st0 := emit (LogAttempt _ _) 0 st).
    assert (Ht0 : tally (trace st0) = (S a, b, c)).
    { unfold st0, tally in *. cbn. inversion Ht. reflexivity. }
    assert (Hd0 : driver st0 = driver st) by reflexivity.
    assert (Hn0 : (now st <= now st0)%N) by (cbn; lia).
    clearbody st0.
    destruct (link_attempt_empty fuel w st0 (S a) b c Hfuel Ht0)
      as (st2 & Hrun & Hd2 & Ht2 & Hn2).
    { intros h Hh. apply Hq. lia. }
    unfold bind at 1. rewrite Hrun.
    set (pause := when _ _).
    assert (Hpause : exists st3,
               pause st2 = (Ok tt, st3) /\ driver st3 = driver st2
               /\ tally (trace st3)
                  = (S a, (b + (if (1 <=? r)%nat then 1 else 0))%nat, S c)
               /\ (now st2 <= now st3)%N).
    { unfold pause, when, MAX_CLIPBOARD_ATTEMPTS.
      destruct (Nat.ltb_spec (5 - S r) (5 - 1)) as [Hlt|Hge].
      - assert (Hr : (1 <=? r)%nat = true) by (apply Nat.leb_le; lia).
        rewrite Hr. eexists. split; [reflexivity|].
        unfold tally in *. cbn. inversion Ht2.
        repeat split; try lia. f_equal. f_equal. lia.
      - assert (Hr : (1 <=? r)%nat = false) by (apply Nat.leb_gt; lia).
        rewrite Hr. exists st2. unfold ret. rewrite Ht2, Nat.add_0_r.
        repeat split; lia. }
    destruct Hpause as (st3 & Hp & Hd3 & Ht3 & Hn3).
    unfold bind at 1. rewrite Hp.
    destruct (IH r st3 (S a) _ (S c) Ht3) as (st1 & Hrest & Hd1 & Ht1 & Hn1).
    { lia. }
    { intros h Hh. apply Hq. lia. }
    exists st1. split; [exact Hrest|]. split; [congruence|].
    split; [|lia].
    rewrite Ht1. f_equal; [f_equal|]; try lia.
    destruct (Nat.leb_spec 1 r); lia.
Qed.

End RetryLoops.

(** ** Capture Strategy, link variant *)

Section LinkVariant.
Import PyStr Py Scraper Observe.
Open Scope py_scope.

Lemma trigger_unfold fuel w st :
  driver st = true ->
  _trigger_screenshot_and_get_link fuel w st
  = link_attempts fuel w MAX_CLIPBOARD_ATTEMPTS st.
Proof.
  intros Hd. unfold _trigger_screenshot_and_get_link, bind, get_driver.
  rewrite Hd. reflexivity.
Qed.

(** Every attempt finds the clipboard empty: five attempts, four pauses,
    then [None]. *)
Lemma trigger_all_empty fuel w st a b c :
  (ENOUGH_FUEL <= fuel)%nat -> driver st = true ->
  tally (trace st) = (a, b, c) ->
  (forall h, (a < attempts_of h <= a + MAX_CLIPBOARD_ATTEMPTS)%nat ->
             link_empty_at w h) ->
  exists st',
    _trigger_screenshot_and_get_link fuel w st = (Ok None, st')
    /\ tally (trace st') = ((a + 5)%nat, (b + 4)%nat, (c + 5)%nat).
Proof.
  intros Hfuel Hd Ht Hq. rewrite (trigger_unfold _ _ _ Hd).
  destruct (link_attempts_empty_prefix fuel w 5 Hfuel 5 st a b c Ht (le_n _) Hq)
    as (st1 & Hrun & _ & Ht1 & _).
  unfold MAX_CLIPBOARD_ATTEMPTS. rewrite Hrun.
  cbn [Nat.sub link_attempts bind log ret].
  eexists. split; [reflexivity|]. unfold tally in *. cbn. exact Ht1.
Qed.


(** [k] empty attempts, then a chord that fails with a WebDriver error:
    the loop is left at attempt [k + 1]. *)
Lemma trigger_abort_after fuel w st a b c k e :
  (ENOUGH_FUEL <= fuel)%nat -> driver st = true ->
  tally (trace st) = (a, b, c) ->
  (k < MAX_CLIPBOARD_ATTEMPTS)%nat ->
  (forall h, (a < attempts_of h <= a + k)%nat -> link_empty_at w h) ->
  (forall h, attempts_of h = (a + k + 1)%nat ->
             outcome w h (Perform AltS) = Some e) ->
  is_WebDriverException e = true ->
  exists st',
    _trigger_screenshot_and_get_link fuel w st = (Ok None, st')
    /\ tally (trace st') = ((a + k + 1)%nat, (b + k)%nat, (c + k + 1)%nat).
Proof.
  intros Hfuel Hd Ht Hk Hq Hv He. rewrite (trigger_unfold _ _ _ Hd).
  unfold MAX_CLIPBOARD_ATTEMPTS in *.
  destruct (link_attempts_empty_prefix fuel w k Hfuel 5 st a b c Ht) as
    (st1 & Hrun & _ & Ht1 & _); [lia|exact Hq|].
  rewrite Hrun.
  destruct (5 - k)%nat as [|r] eqn:Hr; [lia|].
  cbn [link_attempts]. unfold bind at 1, log.
  set (st0 := emit (LogAttempt _ _) 0 st1).
  assert (Ht0 : tally (trace st0)
                = (S (a + k), (b + Nat.min k (5 - 1))%nat, (c + k)%nat)).
  { unfold st0, tally in *. cbn. inversion Ht1. reflexivity. }
  assert (Ha0 : attempts_of (trace st0) = (a + k + 1)%nat).
  { assert (Hx : attempts_of (trace st0) = S (a + k))
      by (unfold tally in Ht0; congruence).
    lia. }
  clearbody st0.
  destruct (link_attempt_abort fuel w st0 _ _ _ e Ht0 (Hv _ Ha0) He)
    as (st2 & Hrun2 & _ & Ht2 & _).
  unfold bind at 1. rewrite Hrun2. cbn [bind log ret].
  eexists. split; [reflexivity|]. unfold tally in *. cbn.
  inversion Ht2. f_equal; [f_equal|]; lia.
Qed.

End LinkVariant.

(** ** Capture Strategy, image variant and its text channel *)

Section ClipboardVariant.
Import PyStr Py Scraper Observe.
Open Scope py_scope.

Lemma kept_refl s : kept s s.
Proof. unfold kept. repeat split; lia. Qed.

Lemma kept_trans s1 s2 s3 : kept s1 s2 -> kept s2 s3 -> kept s1 s3.
Proof. unfold kept. intros (?&?&?) (?&?&?). repeat split; try congruence; lia. Qed.

Lemma kept_call s o dt : kept s (emit (Call o) dt s).
Proof. unfold kept. cbn. repeat split; lia. Qed.

Lemma kept_sleep s ms : kept s (emit (Sleep ms) ms s).
Proof. unfold kept. cbn. repeat split; lia. Qed.

Lemma kept_log s l msg dt : kept s (emit (Log l msg) dt s).
Proof. unfold kept. cbn. repeat split; lia. Qed.

Lemma driver_error_not_server_error e :
  is_WebDriverException e = true -> is_TradingViewClipboardServerError e = false.
Proof. destruct e; cbn; congruence. Qed.

Lemma nonblank_text_empty v st :
  negb (js_truthy v)
  || match v with JsStr s => negb (truthy (strip s)) | _ => false end = true ->
  nonblank_text v st = (Ok None, st).
Proof.
  unfold nonblank_text. destruct (js_truthy v) eqn:Hv; [|reflexivity].
  cbn [negb orb]. destruct v; try discriminate.
  intros H. apply negb_true_iff in H. rewrite H. reflexivity.
Qed.

Lemma nonblank_text_valid url st :
  truthy (strip url) = true -> nonblank_text (JsStr url) st = (Ok (Some url), st).
Proof.
  intros H. unfold nonblank_text. cbn [js_truthy].
  rewrite (truthy_strip _ H), H. reflexivity.
Qed.






Lemma send_save_shortcut_unfold w c s :
  driver s = true ->
  _send_save_shortcut w c s
  = try_except (act w (Perform (save_chord c)))
      [(is_Exception,
        fun e => log (Log Error "Error sending save shortcut") ;; raise e)] s.
Proof.
  intros Hd. unfold _send_save_shortcut. unfold bind at 1. unfold get_driver.
  cbv beta iota. rewrite Hd. cbn [negb]. unfold save_chord.
  destruct (String.eqb (platform_system c) "Darwin"); reflexivity.
Qed.

(** Sending the save chord: it is sent, or the WebDriver error goes
    on to the retry loop. *)
Lemma send_save_shortcut_run w c s :
  driver s = true ->
  chord_sent_or_driver_error (outcome w (trace s) (Perform (save_chord c))) = true ->
  exists s',
    kept s s'
    /\ (_send_save_shortcut w c s = (Ok tt, s')
        /\ outcome w (trace s) (Perform (save_chord c)) = None
        /\ s' = emit (Call (Perform (save_chord c)))
                  (latency w (trace s) (Perform (save_chord c))) s
        \/ exists e, _send_save_shortcut w c s = (Raise e, s')
                     /\ is_WebDriverException e = true).
Proof.
  intros Hd Hc. rewrite (send_save_shortcut_unfold w c s Hd).
  unfold try_except, act. unfold chord_sent_or_driver_error in Hc.
  destruct (outcome w (trace s) (Perform (save_chord c))) as [e|].
  - cbn [select_handler is_Exception bind log raise].
    eexists. split; [|right; exists e; split; [reflexivity|exact Hc]].
    eapply kept_trans; [apply kept_call|apply kept_log].
  - eexists. split; [apply kept_call|left; auto].
Qed.



End ClipboardVariant.

Section ClipboardVariantLoop.
Import PyStr Py Scraper Observe.
Open Scope py_scope.

(** The server error check lets a text pass that decodes to something
    other than a retryable error object or that is not JSON, raises the
    clipboard server error for a retryable error object, and lets out
    what [json.loads] raises besides [JSONDecodeError] and [TypeError]. *)
Lemma check_server_error_passes w url s :
  clipboard_text_passes w url = true ->
  check_server_error w url s = (Ok tt, s).
Proof.
  unfold clipboard_text_passes, check_server_error, try_except. intros H.
  unfold bind at 1.
  destruct (json_loads w url) as [response|e]; cbn [of_reply ret raise].
  - apply negb_true_iff in H. rewrite H. reflexivity.
  - cbn [select_handler]. rewrite H. reflexivity.
Qed.


Lemma check_server_error_raises w payload s :
  clipboard_server_error w payload = true ->
  exists e s',
    check_server_error w payload s = (Raise e, s')
    /\ is_TradingViewClipboardServerError e = true
    /\ kept s s'.
Proof.
  unfold clipboard_server_error, check_server_error, try_except. intros H.
  unfold bind at 1.
  destruct (json_loads w payload) as [response|]; [|discriminate].
  cbn [of_reply]. rewrite H. cbn [bind log raise select_handler
                               is_JSONDecodeError_or_TypeError].
  eexists _, _. split; [reflexivity|]. split; [reflexivity|apply kept_log].
Qed.

Lemma text_poll_body_reads w s text :
  execute w (trace s) ReadText = Returns (JsStr text) ->
  truthy (strip text) = true ->
  text_poll_body w s
  = (Ok (Some text),
     emit (Call (Execute ReadText)) (latency w (trace s) (Execute ReadText)) s).
Proof.
  intros Hread Htext. unfold text_poll_body, try_except, bind, run_script, of_reply.
  rewrite Hread. cbv beta iota. rewrite (nonblank_text_valid _ _ Htext).
  reflexivity.
Qed.

(** The text branch when the first read of the pass finds [text],
    which is more than white space: up to the server error check. *)
Lemma text_attempt_reads fuel w s text :
  (1 <= fuel)%nat ->
  execute w (trace s) ReadText = Returns (JsStr text) ->
  truthy (strip text) = true ->
  text_attempt fuel w s
  = (check_server_error w text ;;
     log (Log Info "Successfully retrieved text content from clipboard.") ;;
     ret (Return text))
      (emit (Call (Execute ReadText)) (latency w (trace s) (Execute ReadText)) s).
Proof.
  intros Hfuel Hread Htext. destruct fuel as [|fuel]; [lia|].
  unfold text_attempt. unfold bind at 1, time_now. cbv beta iota.
  unfold bind at 1.
  rewrite poll_unfold, elapsed_below_start by reflexivity.
  rewrite (text_poll_body_reads w s text Hread Htext).
  cbv beta iota. unfold bind at 1. cbn [ret].
  unfold bind at 1. rewrite (nonblank_text_valid _ _ Htext).
  reflexivity.
Qed.

(** One pass of the loop that finds a payload returns it. *)
Lemma clipboard_attempt_valid fuel w c s url :
  (1 <= fuel)%nat -> driver s = true ->
  (forall h, attempts_of h = attempts_of (trace s) -> clipboard_valid_at w c h url) ->
  exists s', clipboard_attempt fuel w c s = (Ok (Return url), s') /\ kept s s'.
Proof.
  intros Hfuel Hd Hv. unfold clipboard_attempt, try_except.
  destruct (Hv _ eq_refl) as [Hsent _].
  destruct (send_save_shortcut_run w c s Hd) as (s1 & K1 & Hsend).
  { rewrite Hsent. reflexivity. }
  destruct Hsend as [(Hrun & _ & Hs1) | (e & Hrun & _)].
  2:{ rewrite (send_save_shortcut_unfold w c s Hd) in Hrun.
      unfold try_except, act in Hrun. rewrite Hsent in Hrun. discriminate. }
  unfold bind at 1. rewrite Hrun.
  assert (Ha1 : attempts_of (trace s1) = attempts_of (trace s))
    by (destruct K1 as (_ & H & _); exact H).
  assert (Hd1 : driver s1 = true) by (destruct K1 as (H & _); congruence).
  clear Hs1 Hrun.
  destruct (use_save_shortcut c) eqn:Hmode.
  - (* the image channel *)
    unfold image_attempt. unfold bind at 1, sleep.
    set (s2 := emit (Sleep SAVE_SHORTCUT_IMAGE_DELAY) SAVE_SHORTCUT_IMAGE_DELAY s1).
    assert (K2 : kept s1 s2) by apply kept_sleep.
    assert (Hd2 : driver s2 = true) by (destruct K2 as (H & _); congruence).
    clearbody s2.
    unfold bind at 1, _read_image_from_clipboard.
    unfold bind at 1, get_driver. rewrite Hd2. cbn [negb].
    unfold try_except. unfold bind at 1, run_script, of_reply.
    destruct (Hv (trace s2)) as [_ Hx].
    { destruct K2 as (_ & H & _). congruence. }
    rewrite Hmode in Hx.
    destruct Hx as (probe & data0 & b0 & l0 & Hp & Hpt & _).
    rewrite Hp, Hpt. cbn [negb].
    set (s3 := emit (Call (Execute HasClipboardApi)) _ s2).
    assert (K3 : kept s2 s3) by apply kept_call.
    clearbody s3.
    destruct (Hv (trace s3)) as [_ Hy].
    { destruct K2 as (_ & H2 & _). destruct K3 as (_ & H3 & _). congruence. }
    rewrite Hmode in Hy.
    destruct Hy as (probe' & data & b & l & _ & _ & Hdata & Hbytes & Hurl).
    unfold bind at 1. rewrite Hdata. unfold lift. rewrite Hbytes.
    cbn [ret]. subst url.
    eexists. split; [reflexivity|].
    eapply kept_trans; [exact K1|]. eapply kept_trans; [exact K2|].
    eapply kept_trans; [exact K3|apply kept_call].
  - (* the text channel *)
    destruct (Hv (trace s1) Ha1) as [_ Hx]. rewrite Hmode in Hx.
    destruct Hx as (Hread & Htext & Hok).
    rewrite (text_attempt_reads fuel w s1 url Hfuel Hread Htext).
    unfold bind at 1. rewrite (check_server_error_passes _ _ _ Hok).
    cbn [bind log ret].
    eexists. split; [reflexivity|].
    eapply kept_trans; [exact K1|].
    eapply kept_trans; [apply kept_call|apply kept_log].
Qed.

(** One pass of the loop that finds a retryable server error on the
    text clipboard asks for the next attempt. *)
Lemma clipboard_attempt_server_error fuel w c s payload :
  (1 <= fuel)%nat -> driver s = true -> use_save_shortcut c = false ->
  (forall h, attempts_of h = attempts_of (trace s) ->
             clipboard_server_error_at w c h payload) ->
  exists s', clipboard_attempt fuel w c s = (Ok Retry, s') /\ kept s s'.
Proof.
  intros Hfuel Hd Hmode Hv. unfold clipboard_attempt, try_except.
  destruct (send_save_shortcut_run w c s Hd) as (s1 & K1 & Hsend).
  { destruct (Hv _ eq_refl) as [Hc _]. apply Hc. }
  assert (Ha1 : attempts_of (trace s1) = attempts_of (trace s))
    by (destruct K1 as (_ & H & _); exact H).
  unfold bind at 1.
  destruct Hsend as [(-> & _ & _) | (e & -> & Hwd)].
  - rewrite Hmode.
    destruct (Hv (trace s1) Ha1) as (_ & Hread & Htext & Herr).
    rewrite (text_attempt_reads fuel w s1 payload Hfuel Hread Htext).
    unfold bind at 1.
    destruct (check_server_error_raises w payload
                (emit (Call (Execute ReadText))
                   (latency w (trace s1) (Execute ReadText)) s1) Herr)
      as (e & s2 & -> & He & K2).
    cbn [select_handler]. rewrite He. cbn [bind log ret].
    eexists. split; [reflexivity|].
    eapply kept_trans; [exact K1|].
    eapply kept_trans; [apply kept_call|].
    eapply kept_trans; [exact K2|apply kept_log].
  - cbn [select_handler].
    rewrite (driver_error_not_server_error _ Hwd), Hwd. cbn [bind log ret].
    eexists. split; [reflexivity|].
    eapply kept_trans; [exact K1|apply kept_log].
Qed.

(** The loop passes over [j] attempts that ask for the next one and
    goes on with the passes that remain. *)
Lemma clipboard_attempts_retry_prefix fuel w c j :
  forall remaining st,
    driver st = true -> (j <= remaining)%nat ->
    (forall s, driver s = true ->
               (attempts_of (trace st) < attempts_of (trace s)
                <= attempts_of (trace st) + j)%nat ->
               exists s', clipboard_attempt fuel w c s = (Ok Retry, s')
                          /\ kept s s') ->
    exists st1,
      clipboard_attempts fuel w c remaining st
      = clipboard_attempts fuel w c (remaining - j) st1
      /\ driver st1 = true
      /\ attempts_of (trace st1) = (attempts_of (trace st) + j)%nat.
Proof.
  induction j as [|j IH]; intros remaining st Hd Hj Hretry.
  - exists st. rewrite Nat.sub_0_r, Nat.add_0_r. auto.
  - destruct remaining as [|r]; [lia|].
    cbn [clipboard_attempts]. unfold bind at 1. unfold log at 1.
    set (st0 := emit (LogAttempt _ _) 0 st).
    assert (Ha0 : attempts_of (trace st0) = S (attempts_of (trace st)))
      by reflexivity.
    assert (Hd0 : driver st0 = true) by exact Hd.
    clearbody st0.
    destruct (Hretry st0 Hd0) as (st2 & Hrun & K2); [lia|].
    unfold bind at 1. rewrite Hrun.
    set (pause := when _ _).
    assert (Hpause : exists st3, pause st2 = (Ok tt, st3) /\ kept st2 st3).
    { unfold pause, when. destruct (_ <? _)%nat.
      - eexists. split; [reflexivity|apply kept_sleep].
      - exists st2. split; [reflexivity|apply kept_refl]. }
    destruct Hpause as (st3 & Hp & K3).
    unfold bind at 1. rewrite Hp.
    pose proof (kept_trans _ _ _ K2 K3) as (Hd3 & Ha3 & _).
    destruct (IH r st3) as (st1 & Hrest & Hd1 & Ha1).
    + congruence.
    + lia.
    + intros s Hs Hrange. apply Hretry; [exact Hs|lia].
    + exists st1. split; [exact Hrest|]. split; [exact Hd1|]. lia.
Qed.

Lemma get_clipboard_content_unfold fuel w c st :
  driver st = true ->
  _get_clipboard_content fuel w c st
  = clipboard_attempts fuel w c MAX_CLIPBOARD_ATTEMPTS st.
Proof.
  intros Hd. unfold _get_clipboard_content, bind, get_driver.
  rewrite Hd. reflexivity.
Qed.


(** [k] passes that ask for the next attempt, then a payload: success
    at attempt [k + 1]. *)
Lemma get_clipboard_content_valid_after fuel w c st k url :
  (1 <= fuel)%nat -> driver st = true ->
  (k < MAX_CLIPBOARD_ATTEMPTS)%nat ->
  (forall s, driver s = true ->
             (attempts_of (trace st) < attempts_of (trace s)
              <= attempts_of (trace st) + k)%nat ->
             exists s', clipboard_attempt fuel w c s = (Ok Retry, s')
                        /\ kept s s') ->
  (forall h, attempts_of h = (attempts_of (trace st) + k + 1)%nat ->
             clipboard_valid_at w c h url) ->
  exists st',
    _get_clipboard_content fuel w c st = (Ok url, st')
    /\ attempts_of (trace st') = (attempts_of (trace st) + k + 1)%nat.
Proof.
  intros Hfuel Hd Hk Hretry Hv. rewrite (get_clipboard_content_unfold _ _ _ _ Hd).
  destruct (clipboard_attempts_retry_prefix fuel w c k
              MAX_CLIPBOARD_ATTEMPTS st Hd ltac:(lia) Hretry)
    as (st1 & Hrun & Hd1 & Ha1).
  rewrite Hrun.
  destruct (MAX_CLIPBOARD_ATTEMPTS - k)%nat as [|r] eqn:Hr; [lia|].
  cbn [clipboard_attempts]. unfold bind at 1. unfold log at 1.
  set (st0 := emit (LogAttempt _ _) 0 st1).
  assert (Ha0 : attempts_of (trace st0) = S (attempts_of (trace st1)))
    by reflexivity.
  assert (Hd0 : driver st0 = true) by exact Hd1.
  clearbody st0.
  destruct (clipboard_attempt_valid fuel w c st0 url Hfuel Hd0)
    as (st2 & Hrun2 & K2).
  { intros h Hh. apply Hv. lia. }
  unfold bind at 1. rewrite Hrun2. cbn [ret].
  eexists. split; [reflexivity|]. destruct K2 as (_ & Ha2 & _). lia.
Qed.

End ClipboardVariantLoop.

(** ** The tally of a retry loop *)

Section Tally.
Import PyStr Py Scraper Observe.
Open Scope py_scope.

Lemma tally_eq h : tally h = (attempts_of h, sleeps_of CLIPBOARD_RETRY_INTERVAL h,
                              chords_of AltS h).
Proof. reflexivity. Qed.

End Tally.

(** ** Capture Strategy, link variant: what ends the retry loop *)

Section LinkRetryLoop.
Import PyStr Py Scraper Observe.
Open Scope py_scope.

(** C9, as amended.  In the retry loop of
    [_trigger_screenshot_and_get_link] a WebDriver error raised while the
    screenshot chord is sent ends the loop at once: after [k] empty
    attempts and such an error at attempt [k + 1] the function returns
    [None] with [k + 1] attempts made and [k + 1] chords sent.  A clipboard
    that is empty on every poll, be it that the read returns nothing or
    that the read itself raises a WebDriver error, is retried from the
    chord after a pause of [CLIPBOARD_RETRY_INTERVAL]: five attempts, five
    chords, four pauses. *)
Theorem link_retry_loop_ends fuel w st :
  (ENOUGH_FUEL <= fuel)%nat ->
  driver st = true ->
  let base := attempts_of (trace st) in
  let run := _trigger_screenshot_and_get_link fuel w st in
  (forall k e,
      (k < MAX_CLIPBOARD_ATTEMPTS)%nat ->
      (forall h, (base < attempts_of h <= base + k)%nat -> link_empty_at w h) ->
      (forall h, attempts_of h = (base + k + 1)%nat ->
                 outcome w h (Perform AltS) = Some e) ->
      is_WebDriverException e = true ->
      fst run = Ok None
      /\ attempts_of (trace (snd run)) = (base + k + 1)%nat
      /\ chords_of AltS (trace (snd run)) = (chords_of AltS (trace st) + k + 1)%nat)
  /\ ((forall h, (base < attempts_of h)%nat -> link_empty_at w h) ->
      fst run = Ok None
      /\ attempts_of (trace (snd run)) = (base + MAX_CLIPBOARD_ATTEMPTS)%nat
      /\ chords_of AltS (trace (snd run))
         = (chords_of AltS (trace st) + MAX_CLIPBOARD_ATTEMPTS)%nat
      /\ sleeps_of CLIPBOARD_RETRY_INTERVAL (trace (snd run))
         = (sleeps_of CLIPBOARD_RETRY_INTERVAL (trace st)
            + (MAX_CLIPBOARD_ATTEMPTS - 1))%nat)
  /\ ((forall h, (base < attempts_of h)%nat ->
                 outcome w h (Perform AltS) = None
                 /\ exists e, execute w h ReadText = Raises e
                              /\ is_WebDriverException e = true) ->
      fst run = Ok None
      /\ attempts_of (trace (snd run)) = (base + MAX_CLIPBOARD_ATTEMPTS)%nat).
Proof.
  intros Hfuel Hd base run. subst base run.
  assert (Hall : (forall h, (attempts_of (trace st) < attempts_of h)%nat ->
                            link_empty_at w h) ->
      fst (_trigger_screenshot_and_get_link fuel w st) = Ok None
      /\ attempts_of (trace (snd (_trigger_screenshot_and_get_link fuel w st)))
         = (attempts_of (trace st) + MAX_CLIPBOARD_ATTEMPTS)%nat
      /\ chords_of AltS (trace (snd (_trigger_screenshot_and_get_link fuel w st)))
         = (chords_of AltS (trace st) + MAX_CLIPBOARD_ATTEMPTS)%nat
      /\ sleeps_of CLIPBOARD_RETRY_INTERVAL
           (trace (snd (_trigger_screenshot_and_get_link fuel w st)))
         = (sleeps_of CLIPBOARD_RETRY_INTERVAL (trace st)
            + (MAX_CLIPBOARD_ATTEMPTS - 1))%nat).
  { intros He.
    destruct (trigger_all_empty fuel w st _ _ _ Hfuel Hd (tally_eq _))
      as (st' & -> & Ht).
    { intros h Hh. apply He. lia. }
    cbn [fst snd]. rewrite tally_eq in Ht. unfold MAX_CLIPBOARD_ATTEMPTS.
    cbn [Nat.sub]. repeat split; congruence. }
  split; [|split].
  - intros k e Hk He Ho Hwd.
    destruct (trigger_abort_after fuel w st _ _ _ k e Hfuel Hd (tally_eq _) Hk
                He Ho Hwd) as (st' & -> & Ht).
    cbn [fst snd]. rewrite tally_eq in Ht. repeat split; congruence.
  - exact Hall.
  - intros He.
    destruct Hall as (H1 & H2 & _); [|auto].
    intros h Hh. destruct (He h Hh) as (Ho & e & Hr & Hwd).
    split; [exact Ho|]. unfold empty_for_link. rewrite Hr. exact Hwd.
Qed.

Lemma link_retry_loop_ends_witness :
  (fst (_trigger_screenshot_and_get_link 31 chord_fails_on_second_attempt_world
          ready_state) = Ok None
   /\ attempts_of (trace (snd (_trigger_screenshot_and_get_link 31
                                 chord_fails_on_second_attempt_world
                                 ready_state))) = 2%nat)
  /\ (fst (_trigger_screenshot_and_get_link 31 clipboard_unreadable_world
             ready_state) = Ok None
      /\ attempts_of (trace (snd (_trigger_screenshot_and_get_link 31
                                    clipboard_unreadable_world ready_state)))
         = 5%nat).
Proof.
  assert (Hfuel : (ENOUGH_FUEL <= 31)%nat) by (unfold ENOUGH_FUEL; lia).
  destruct (link_retry_loop_ends 31 chord_fails_on_second_attempt_world
              ready_state Hfuel eq_refl) as (H1 & _ & _).
  destruct (link_retry_loop_ends 31 clipboard_unreadable_world
              ready_state Hfuel eq_refl) as (_ & _ & H3).
  split.
  - destruct (H1 1%nat WebDriverException) as (Ha & Hb & _).
    + unfold MAX_CLIPBOARD_ATTEMPTS. lia.
    + intros h Hh. cbn [ready_state trace attempts_of] in Hh.
      split; [|reflexivity]. cbn.
      destruct (Nat.eqb_spec (attempts_of h) 2); [lia|reflexivity].
    + intros h Hh. cbn [ready_state trace attempts_of] in Hh. cbn.
      rewrite Hh. reflexivity.
    + reflexivity.
    + split; [exact Ha|exact Hb].
  - apply H3. intros h _. split; [reflexivity|].
    exists WebDriverException. split; reflexivity.
Defined.

(** C9 as stated does not hold for the clipboard read: when every read
    raises a [WebDriverException] the loop is not left after the first
    attempt. *)
Lemma clipboard_read_error_does_not_abort :
  ~ (forall fuel w st e,
        (ENOUGH_FUEL <= fuel)%nat ->
        driver st = true ->
        is_WebDriverException e = true ->
        (forall h, outcome w h (Perform AltS) = None) ->
        (forall h, execute w h ReadText = Raises e) ->
        attempts_of (trace (snd (_trigger_screenshot_and_get_link fuel w st)))
        = (attempts_of (trace st) + 1)%nat).
Proof.
  intros H.
  specialize (H 31%nat clipboard_unreadable_world ready_state WebDriverException).
  assert (Hrun : attempts_of
                   (trace (snd (_trigger_screenshot_and_get_link 31
                                  clipboard_unreadable_world ready_state)))
                 = 5%nat) by (vm_compute; reflexivity).
  rewrite Hrun in H. cbn [ready_state trace attempts_of] in H.
  assert (Hbad : 5%nat = (0 + 1)%nat).
  { apply H.
    - unfold ENOUGH_FUEL. lia.
    - reflexivity.
    - reflexivity.
    - intros h. reflexivity.
    - intros h. reflexivity. }
  discriminate Hbad.
Qed.

End LinkRetryLoop.

(** ** Result Normalizer: what conversion never does *)

Section NormalizerLength.
Import PyStr Normalizer.

Lemma intersperse_length new s :
  String.length s <= String.length (intersperse new s).
Proof.
  induction s as [|c s IH]; cbn [intersperse]; [cbn; lia|].
  rewrite string_length_app. cbn [String.length]. lia.
Qed.

Lemma replace_from_length old new :
  1 <= String.length old ->
  String.length old <= String.length new ->
  forall s skip,
    String.length s <= String.length (replace_from skip old new s) + skip.
Proof.
  intros Hold Hnew s. induction s as [|c s IH]; intros skip.
  - cbn. lia.
  - cbn [replace_from]. destruct skip as [|k].
    + destruct (startswith (String c s) old).
      * rewrite string_length_app. cbn [String.length].
        specialize (IH (String.length old - 1)). lia.
      * cbn [String.length]. specialize (IH 0). lia.
    + cbn [String.length]. specialize (IH k). lia.
Qed.

(** [str.replace] with a replacement at least as long as what it
    replaces does not shorten the text. *)
Lemma replace_length s old new :
  String.length old <= String.length new ->
  String.length s <= String.length (replace s old new).
Proof.
  intros Hnew. unfold replace. destruct old as [|a old'].
  - apply intersperse_length.
  - pose proof (replace_from_length (String a old') new) as H.
    specialize (H ltac:(cbn; lia) Hnew s 0). lia.
Qed.

(** A match is shorter than the snapshot URL that replaces it. *)
Lemma match_after_host_shorter h s1 m :
  In h share_hosts ->
  match_after_host h s1 = Some m ->
  String.length (group0 m) <= String.length (new_link (group1 m)).
Proof.
  intros Hh. unfold match_after_host.
  destruct (strip_prefix h s1) as [s2|]; [|discriminate].
  destruct (strip_prefix "tradingview.com/x/" s2) as [s3|]; [|discriminate].
  destruct (span is_alnum s3) as [id s4].
  destruct id as [|c id']; [discriminate|].
  intros [= <-]. cbn [group0 group1 new_link].
  assert (Hslash : String.length (if startswith s4 "/" then "/" else "") <= 1)
    by (destruct (startswith s4 "/"); cbn; lia).
  assert (Hhost : String.length h <= 4).
  { cbn in Hh. destruct Hh as [<-|[<-|[<-|[]]]]; cbn; lia. }
  cbn [String.length] in Hslash, Hhost.
  repeat first [rewrite string_length_app | progress cbn [String.length append]].
  lia.
Qed.

Lemma first_match_shorter alts s1 m :
  (forall h, In h alts -> In h share_hosts) ->
  first_match alts s1 = Some m ->
  String.length (group0 m) <= String.length (new_link (group1 m)).
Proof.
  induction alts as [|h alts IH]; intros Hin; cbn [first_match]; [discriminate|].
  destruct (match_after_host h s1) as [m'|] eqn:E.
  - intros [= <-]. apply (match_after_host_shorter h s1); auto. apply Hin. now left.
  - apply IH. intros h' Hh'. apply Hin. now right.
Qed.

Lemma match_here_shorter s m :
  match_here s = Some m ->
  String.length (group0 m) <= String.length (new_link (group1 m)).
Proof.
  unfold match_here. destruct (strip_prefix "https://" s) as [s1|]; [|discriminate].
  apply first_match_shorter. auto.
Qed.

Lemma finditer_from_matches skip s m :
  In m (finditer_from skip s) -> exists t, match_here t = Some m.
Proof.
  revert skip. induction s as [|c s IH]; intros skip; cbn [finditer_from]; [intros []|].
  destruct skip as [|k]; [|apply IH].
  destruct (match_here (String c s)) as [m'|] eqn:E; [|apply IH].
  intros [<-|Hin]; [eauto|]. apply IH in Hin. exact Hin.
Qed.

Lemma convert_step_length n acc m :
  String.length (group0 m) <= String.length (new_link (group1 m)) ->
  n <= String.length (fst acc) ->
  n <= String.length (fst (convert_step acc m)).
Proof.
  intros Hm Hacc. destruct acc as [out found]. cbn [convert_step fst] in *.
  destruct (contains (group0 m) out); cbn [fst]; [|exact Hacc].
  pose proof (replace_length out (group0 m) (new_link (group1 m)) Hm). lia.
Qed.

Lemma convert_fold_length n ms :
  (forall m, In m ms ->
             String.length (group0 m) <= String.length (new_link (group1 m))) ->
  forall acc,
    n <= String.length (fst acc) ->
    n <= String.length (fst (fold_left convert_step ms acc)).
Proof.
  induction ms as [|m ms IH]; intros Hms acc Hacc; cbn [fold_left]; [exact Hacc|].
  apply IH.
  - intros m' Hm'. apply Hms. now right.
  - apply convert_step_length; [apply Hms; now left|exact Hacc].
Qed.

(** X1.  [convert_link_to_image_url] never shortens a text and never
    loses it: for a non-empty text the result is a text at least as
    long, so neither [None] nor the empty text, whatever links the text
    holds.  [None] comes back for [None] and for the empty text only. *)
Theorem convert_link_never_shortens s :
  s <> "" ->
  exists out,
    convert_link_to_image_url (Some s) = Some out
    /\ String.length s <= String.length out
    /\ out <> "".
Proof.
  intros Hne. exists (fst (convert_loop s)).
  assert (Hlen : String.length s <= String.length (fst (convert_loop s))).
  { unfold convert_loop. apply convert_fold_length; [|cbn; lia].
    intros m Hm. apply finditer_from_matches in Hm. destruct Hm as [t Ht].
    apply (match_here_shorter t m Ht). }
  split; [|split].
  - destruct s; [congruence|reflexivity].
  - exact Hlen.
  - destruct s; [congruence|]. intros E. rewrite E in Hlen. cbn in Hlen. lia.
Qed.

Lemma convert_link_never_shortens_witness :
  exists out,
    convert_link_to_image_url
      (Some "a https://in.tradingview.com/x/Zz9/ b https://tradingview.com/x/Zz9")
    = Some out
    /\ String.length
         "a https://in.tradingview.com/x/Zz9/ b https://tradingview.com/x/Zz9"
       <= String.length out
    /\ out <> "".
Proof.
  apply convert_link_never_shortens. discriminate.
Defined.

End NormalizerLength.

(** ** Whole operations: the driver handle, the values returned, the end *)

Section BehaviourFacts.
Import PyStr Py Scraper Observe Main Prompts Behaviour.
Open Scope py_scope.

Lemma keeps_driver_ret {A} (a : A) : keeps_driver (ret a).
Proof. intros st. reflexivity. Qed.

Lemma keeps_driver_raise {A} e : keeps_driver (@raise A e).
Proof. intros st. reflexivity. Qed.

Lemma keeps_driver_of_reply {A} (r : reply A) : keeps_driver (of_reply r).
Proof. intros st. destruct r; reflexivity. Qed.

Lemma keeps_driver_lift {A} (r : result A) : keeps_driver (lift r).
Proof. intros st. reflexivity. Qed.

Lemma keeps_driver_bind {A B} (m : M A) (k : A -> M B) :
  keeps_driver m -> (forall a, keeps_driver (k a)) -> keeps_driver (bind m k).
Proof.
  intros Hm Hk st. unfold bind. specialize (Hm st).
  destruct (m st) as [[a|e|] s1]; cbn [fst snd] in *; [|exact Hm|exact Hm].
  rewrite (Hk a s1). exact Hm.
Qed.

Lemma keeps_driver_try_except {A} (m : M A) clauses :
  keeps_driver m ->
  Forall (fun ch => forall e, keeps_driver (snd ch e)) clauses ->
  keeps_driver (try_except m clauses).
Proof.
  intros Hm Hh st. unfold try_except. specialize (Hm st).
  destruct (m st) as [[a|e|] s1]; cbn [fst snd] in *; [exact Hm| |exact Hm].
  assert (Hsel : match select_handler clauses e with
                 | Some h => keeps_driver h
                 | None => True
                 end).
  { clear -Hh. induction Hh as [|[cls h] rest Hc _ IH]; cbn [select_handler].
    - exact I.
    - destruct (cls e); [apply Hc|exact IH]. }
  destruct (select_handler clauses e) as [h|]; [|exact Hm].
  rewrite (Hsel s1). exact Hm.
Qed.

Lemma keeps_driver_get_driver : keeps_driver get_driver.
Proof. intros st. reflexivity. Qed.

Lemma keeps_driver_time_now : keeps_driver time_now.
Proof. intros st. reflexivity. Qed.

Lemma keeps_driver_sleep ms : keeps_driver (sleep ms).
Proof. intros st. reflexivity. Qed.

Lemma keeps_driver_log ev : keeps_driver (log ev).
Proof. intros st. reflexivity. Qed.

Lemma keeps_driver_act w o : keeps_driver (act w o).
Proof. intros st. unfold act. destruct (outcome w (trace st) o); reflexivity. Qed.

Lemma keeps_driver_count_elements w css : keeps_driver (count_elements w css).
Proof.
  intros st. unfold count_elements. destruct (find_elements w (trace st) css);
    reflexivity.
Qed.

Lemma keeps_driver_run_script w s : keeps_driver (run_script w s).
Proof.
  intros st. unfold run_script. destruct (execute w (trace st) s); reflexivity.
Qed.

Lemma keeps_driver_when b m : keeps_driver m -> keeps_driver (when b m).
Proof. intros H. destruct b; cbn; [exact H|apply keeps_driver_ret]. Qed.

Lemma keeps_driver_poll {A} fuel start limit interval (body : M (option A)) :
  keeps_driver body -> keeps_driver (poll fuel start limit interval body).
Proof.
  intros Hbody. induction fuel as [|fuel IH]; intros st.
  { rewrite poll_no_fuel. destruct (elapsed_below start (now st) limit); reflexivity. }
  rewrite poll_unfold. destruct (elapsed_below start (now st) limit); [|reflexivity].
  specialize (Hbody st).
  destruct (body st) as [[[a|]|e|] s1]; cbn [fst snd] in *; try exact Hbody.
  rewrite IH. cbn [emit driver]. exact Hbody.
Qed.

Ltac keeps_step :=
  match goal with
  | |- keeps_driver (bind _ _) => apply keeps_driver_bind; [|intros]
  | |- keeps_driver (ret _) => apply keeps_driver_ret
  | |- keeps_driver (raise _) => apply keeps_driver_raise
  | |- keeps_driver (lift _) => apply keeps_driver_lift
  | |- keeps_driver (of_reply _) => apply keeps_driver_of_reply
  | |- keeps_driver (try_except _ _) => apply keeps_driver_try_except
  | |- Forall _ (_ :: _) => apply Forall_cons; [cbn [snd]; intros|]
  | |- Forall _ [] => apply Forall_nil
  | |- keeps_driver get_driver => apply keeps_driver_get_driver
  | |- keeps_driver time_now => apply keeps_driver_time_now
  | |- keeps_driver (sleep _) => apply keeps_driver_sleep
  | |- keeps_driver (log _) => apply keeps_driver_log
  | |- keeps_driver (act _ _) => apply keeps_driver_act
  | |- keeps_driver (count_elements _ _) => apply keeps_driver_count_elements
  | |- keeps_driver (run_script _ _) => apply keeps_driver_run_script
  | |- keeps_driver (when _ _) => apply keeps_driver_when
  | |- keeps_driver (poll _ _ _ _ _) => apply keeps_driver_poll
  | |- keeps_driver (if ?b then _ else _) => destruct b
  | |- keeps_driver (match ?x with _ => _ end) => destruct x
  | |- keeps_driver (let (_, _) := ?x in _) => destruct x
  end.

Ltac keeps_auto := repeat keeps_step.

Lemma keeps_driver_set_auth_cookies_optimized w c url :
  keeps_driver (_set_auth_cookies_optimized w c url).
Proof. unfold _set_auth_cookies_optimized. keeps_auto. Qed.

Lemma keeps_driver_wait_for_chart fuel w c : keeps_driver (wait_for_chart fuel w c).
Proof.
  unfold wait_for_chart, element_poll_body, loading_check_body, data_check_body.
  keeps_auto.
Qed.

Lemma keeps_driver_navigate_and_wait fuel w c url :
  keeps_driver (_navigate_and_wait fuel w c url).
Proof.
  unfold _navigate_and_wait. keeps_auto. apply keeps_driver_wait_for_chart.
Qed.

Lemma keeps_driver_link_attempts fuel w remaining :
  keeps_driver (link_attempts fuel w remaining).
Proof.
  induction remaining as [|remaining IH]; cbn [link_attempts].
  - keeps_auto.
  - unfold link_attempt, link_poll_body. keeps_auto. exact IH.
Qed.

Lemma keeps_driver_trigger_screenshot_and_get_link fuel w :
  keeps_driver (_trigger_screenshot_and_get_link fuel w).
Proof.
  unfold _trigger_screenshot_and_get_link. keeps_auto.
  apply keeps_driver_link_attempts.
Qed.

Lemma keeps_driver_try_shortcuts w shortcuts :
  keeps_driver (try_shortcuts w shortcuts).
Proof.
  induction shortcuts as [|sc rest IH]; cbn [try_shortcuts]; keeps_auto. exact IH.
Qed.

Lemma keeps_driver_nonblank_text v : keeps_driver (nonblank_text v).
Proof. unfold nonblank_text. keeps_auto. Qed.

Lemma keeps_driver_clipboard_attempt fuel w c :
  keeps_driver (clipboard_attempt fuel w c).
Proof.
  unfold clipboard_attempt, _send_save_shortcut, image_attempt, text_attempt,
    _read_image_from_clipboard, text_poll_body, check_server_error,
    _try_alternative_shortcuts.
  keeps_auto;
    auto using keeps_driver_nonblank_text, keeps_driver_try_shortcuts.
Qed.

Lemma keeps_driver_clipboard_attempts fuel w c remaining :
  keeps_driver (clipboard_attempts fuel w c remaining).
Proof.
  induction remaining as [|remaining IH]; cbn [clipboard_attempts].
  - keeps_auto.
  - keeps_auto; auto using keeps_driver_clipboard_attempt.
Qed.

Lemma keeps_driver_get_clipboard_content fuel w c :
  keeps_driver (_get_clipboard_content fuel w c).
Proof.
  unfold _get_clipboard_content. keeps_auto.
  apply keeps_driver_clipboard_attempts.
Qed.

Lemma keeps_driver_get_screenshot_link fuel w c ticker interval :
  keeps_driver (get_screenshot_link fuel w c ticker interval).
Proof.
  unfold get_screenshot_link. keeps_auto;
    auto using keeps_driver_set_auth_cookies_optimized,
      keeps_driver_navigate_and_wait, keeps_driver_trigger_screenshot_and_get_link.
Qed.

Lemma keeps_driver_get_chart_image_url fuel w c ticker interval :
  keeps_driver (get_chart_image_url fuel w c ticker interval).
Proof.
  unfold get_chart_image_url, chart_image_steps. keeps_auto;
    auto using keeps_driver_set_auth_cookies_optimized,
      keeps_driver_navigate_and_wait, keeps_driver_get_clipboard_content.
Qed.

End BehaviourFacts.

Section BehaviourEnds.
Import PyStr Py Scraper Observe Main Prompts Behaviour.
Open Scope py_scope.

Lemma yields_ret {A} (a : A) (Q : A -> Prop) : Q a -> yields (ret a) Q.
Proof. intros H st b [= <-]. exact H. Qed.

Lemma yields_raise {A} e (Q : A -> Prop) : yields (raise e) Q.
Proof. intros st b. discriminate. Qed.

Lemma yields_bind {A B} (m : M A) (k : A -> M B) (Q : B -> Prop) :
  (forall a, yields (k a) Q) -> yields (bind m k) Q.
Proof.
  intros Hk st b. unfold bind.
  destruct (m st) as [[a|e|] s1]; cbn [fst]; try discriminate.
  apply Hk.
Qed.

Lemma yields_try_except {A} (m : M A) clauses (Q : A -> Prop) :
  yields m Q ->
  Forall (fun ch => forall e, yields (snd ch e) Q) clauses ->
  yields (try_except m clauses) Q.
Proof.
  intros Hm Hh st b. unfold try_except. specialize (Hm st).
  destruct (m st) as [[a|e|] s1]; cbn [fst] in *; [apply Hm| |discriminate].
  assert (Hsel : match select_handler clauses e with
                 | Some h => yields h Q
                 | None => True
                 end).
  { clear -Hh. induction Hh as [|[cls h] rest Hc _ IH]; cbn [select_handler].
    - exact I.
    - destruct (cls e); [apply Hc|exact IH]. }
  destruct (select_handler clauses e) as [h|]; [apply Hsel|discriminate].
Qed.

Lemma yields_weaken {A} (m : M A) (Q Q' : A -> Prop) :
  yields m Q -> (forall a, Q a -> Q' a) -> yields m Q'.
Proof. intros H HQ st a Ha. apply HQ, (H st a Ha). Qed.

Lemma sound_get_chromedriver_path w : sound (_get_chromedriver_path w).
Proof.
  unfold _get_chromedriver_path. apply sound_try_except; [apply sound_act|].
  apply Forall_cons; [intros e; apply sound_raise|apply Forall_nil].
Qed.

Lemma sound_setup_driver w : sound (_setup_driver w).
Proof.
  unfold _setup_driver.
  apply sound_bind; [apply sound_log|intros _].
  apply sound_bind; [apply sound_get_chromedriver_path|intros _].
  apply sound_try_except.
  - apply sound_bind; [apply sound_act|intros _].
    apply sound_bind; [apply sound_set_driver|intros _].
    apply sound_bind; [apply sound_act|intros _]. apply sound_act.
  - apply Forall_cons; [intros e; apply sound_raise|apply Forall_nil].
Qed.

(** [close] returns, in every browser and state, and takes the time
    [driver.quit()] takes. *)
Lemma close_returns w st :
  fst (close w st) = Ok tt /\ (now st <= now (snd (close w st)))%N.
Proof.
  unfold close. destruct (driver st); [|cbn; split; [reflexivity|lia]].
  destruct (quit w (trace st)) as [[e|]|]; cbn; try (split; [reflexivity|lia]).
  destruct (is_WebDriverException e); cbn; [split; [reflexivity|lia]|].
  destruct (is_OSError e); cbn; (split; [reflexivity|lia]).
Qed.

Lemma sound_close w : sound (close w).
Proof.
  intros st. destruct (close_returns w st) as [H1 H2]. rewrite H1.
  split; [discriminate|exact H2].
Qed.

Lemma sound_with_scraper {A} w (body : M A) : sound body -> sound (with_scraper w body).
Proof.
  intros Hbody. unfold with_scraper.
  apply sound_bind; [apply sound_set_driver|intros _].
  apply sound_bind; [apply sound_setup_driver|intros _].
  intros st. destruct (Hbody st) as [H1 H2].
  destruct (body st) as [[a|e|] s1]; cbn [fst snd] in *.
  - unfold __exit__, bind. destruct (close_returns w s1) as [H3 H4].
    destruct (close w s1) as [r s2]; cbn [fst snd] in *. subst r.
    cbn. split; [discriminate|lia].
  - unfold __exit__, bind. destruct (close_returns w s1) as [H3 H4].
    destruct (close w s1) as [r s2]; cbn [fst snd] in *. subst r.
    cbn. split; [discriminate|lia].
  - contradiction.
Qed.

Lemma sound_get_screenshot_link fuel w c ticker interval :
  (ENOUGH_FUEL <= fuel)%nat -> sound (get_screenshot_link fuel w c ticker interval).
Proof.
  intros Hfuel. unfold get_screenshot_link.
  apply sound_bind; [apply sound_get_driver|intros d].
  destruct (negb d); [apply sound_raise|].
  destruct (negb (truthy ticker) || negb (truthy interval)); [apply sound_raise|].
  apply sound_try_except.
  - apply sound_bind; [apply sound_set_auth_cookies_optimized|intros a].
    apply sound_bind; [apply sound_when, sound_log|intros _].
    apply sound_bind; [now apply sound_navigate_and_wait|intros _].
    now apply sound_trigger_screenshot_and_get_link.
  - repeat (apply Forall_cons; [intros e; apply sound_raise|]). apply Forall_nil.
Qed.


Lemma sound_get_tradingview_chart_image fuel w c ticker interval :
  (ENOUGH_FUEL <= fuel)%nat ->
  sound (get_tradingview_chart_image fuel w c ticker interval).
Proof.
  intros Hfuel. unfold get_tradingview_chart_image.
  apply sound_bind; [apply sound_log|intros _].
  apply sound_try_except.
  - apply sound_with_scraper.
    apply sound_bind; [now apply sound_get_screenshot_link|intros link].
    destruct link as [[|a l]|]; try apply sound_raise.
    destruct (Normalizer.convert_link_to_image_url (Some (String a l)))
      as [[|b u]|]; try apply sound_raise.
    apply sound_bind; [apply sound_log|intros _; apply sound_ret].
  - repeat (apply Forall_cons;
            [intros e; apply sound_bind; [apply sound_log|intros _; apply sound_raise]|]).
    apply Forall_nil.
Qed.

End BehaviourEnds.

(** ** Session, authentication and navigation *)

Section SessionProperties.
Import PyStr Py Scraper Observe Main Prompts Behaviour.
Open Scope py_scope.

(** X2.  [close] when [driver.quit()] succeeds or fails with anything
    but a WebDriver error: it returns normally, the handle is marked
    released, and a second [close] does nothing at all: no call of
    [driver.quit()], no log line, no change of state. *)
Theorem close_twice_is_close_once w st :
  (forall e, quit w (trace st) = Some (Exc e) -> is_WebDriverException e = false) ->
  let released := snd (close w st) in
  fst (close w st) = Ok tt
  /\ driver released = false
  /\ close w released = (Ok tt, released).
Proof.
  intros Hq released. subst released.
  assert (Hrel : driver (snd (close w st)) = false).
  { apply close_releases. destruct (quit w (trace st)) as [[e|]|]; auto. }
  split; [apply close_returns|]. split; [exact Hrel|].
  apply close_after_release, Hrel.
Qed.

Lemma close_twice_is_close_once_witness :
  fst (close idle_world ready_state) = Ok tt
  /\ driver (snd (close idle_world ready_state)) = false
  /\ close idle_world (snd (close idle_world ready_state))
     = (Ok tt, snd (close idle_world ready_state)).
Proof.
  apply (close_twice_is_close_once idle_world ready_state).
  intros e H. discriminate H.
Defined.

(** X3.  [_try_alternative_shortcuts] tries Ctrl+Alt+S, Ctrl+S and
    Alt+Shift+S in this order and stops at the first chord whose sending
    does not fail with a WebDriver error.  It returns [True] when that
    chord was sent, every chord before it having failed with a WebDriver
    error, and then it has paused once, for 2 s, after the chord.  It
    returns [False] only when all three chords failed with a WebDriver
    error, and then it has not paused.  It raises only what the sending
    of a chord raised that is not a WebDriver error, the chords before it
    having failed with one. *)
Theorem alternative_shortcuts_outcome w st :
  let run := _try_alternative_shortcuts w st in
  let h := trace st in
  match fst run with
  | Ok true =>
      exists n sc,
        nth_error ALTERNATIVE_SHORTCUTS n = Some sc
        /\ (forall i, i < n -> shortcut_fails w h i)
        /\ outcome w (tried n h) (Perform sc) = None
        /\ trace (snd run) = Sleep 2000 :: tried (S n) h
  | Ok false =>
      (forall i, i < 3 -> shortcut_fails w h i)
      /\ trace (snd run) = tried 3 h
  | Raise e =>
      exists n sc,
        nth_error ALTERNATIVE_SHORTCUTS n = Some sc
        /\ (forall i, i < n -> shortcut_fails w h i)
        /\ outcome w (tried n h) (Perform sc) = Some e
        /\ is_WebDriverException e = false
        /\ trace (snd run) = tried (S n) h
  | OutOfFuel => False
  end.
Proof.
  cbv zeta. unfold _try_alternative_shortcuts. cbn [try_shortcuts].
  unfold bind, try_except, act, sleep, ret. cbn [select_handler].
  destruct (outcome w (trace st) (Perform CtrlAltS)) as [e1|] eqn:E1.
  2:{ cbn [fst snd emit trace]. exists 0, CtrlAltS.
      split; [reflexivity|]. split; [intros i Hi; lia|].
      split; [exact E1|reflexivity]. }
  destruct (is_WebDriverException e1) eqn:W1.
  2:{ cbn [fst snd emit trace]. exists 0, CtrlAltS.
      split; [reflexivity|]. split; [intros i Hi; lia|].
      split; [exact E1|]. split; [exact W1|reflexivity]. }
  assert (F0 : shortcut_fails w (trace st) 0).
  { exists CtrlAltS, e1. split; [reflexivity|]. split; [exact E1|exact W1]. }
  cbn [fst snd emit trace driver now].
  destruct (outcome w (Call (Perform CtrlAltS) :: trace st) (Perform CtrlS))
    as [e2|] eqn:E2.
  2:{ cbn [fst snd emit trace]. exists 1, CtrlS.
      split; [reflexivity|].
      split; [intros i Hi; assert (i = 0) as -> by lia; exact F0|].
      split; [exact E2|reflexivity]. }
  destruct (is_WebDriverException e2) eqn:W2.
  2:{ cbn [fst snd emit trace]. exists 1, CtrlS.
      split; [reflexivity|].
      split; [intros i Hi; assert (i = 0) as -> by lia; exact F0|].
      split; [exact E2|]. split; [exact W2|reflexivity]. }
  assert (F1 : shortcut_fails w (trace st) 1).
  { exists CtrlS, e2. split; [reflexivity|]. split; [exact E2|exact W2]. }
  assert (F01 : forall i, i < 2 -> shortcut_fails w (trace st) i).
  { intros i Hi. destruct i as [|[|i]]; [exact F0|exact F1|lia]. }
  cbn [fst snd emit trace driver now].
  destruct (outcome w (Call (Perform CtrlS) :: Call (Perform CtrlAltS) :: trace st)
              (Perform AltShiftS)) as [e3|] eqn:E3.
  2:{ cbn [fst snd emit trace]. exists 2, AltShiftS.
      split; [reflexivity|]. split; [exact F01|].
      split; [exact E3|reflexivity]. }
  destruct (is_WebDriverException e3) eqn:W3.
  2:{ cbn [fst snd emit trace]. exists 2, AltShiftS.
      split; [reflexivity|]. split; [exact F01|].
      split; [exact E3|]. split; [exact W3|reflexivity]. }
  cbn [fst snd emit trace]. split; [|reflexivity].
  intros i Hi. destruct i as [|[|[|i]]]; [exact F0|exact F1| |lia].
  exists AltShiftS, e3. split; [reflexivity|]. split; [exact E3|exact W3].
Qed.


Lemma navigate_unfold fuel w c url st :
  _navigate_and_wait fuel w c url st
  = if driver st then
      try_except
        (act w (Get url) ;; wait_for_chart fuel w c)
        [(is_WebDriverException,
          fun _ => raise (TradingViewScraperError
                            ("Navigation to " ++ url ++ " failed")))] st
    else (Raise (TradingViewScraperError "Driver not available for navigation."),
          st).
Proof.
  unfold _navigate_and_wait. unfold bind at 1. unfold get_driver. cbv beta iota.
  destruct (driver st); reflexivity.
Qed.

(** X5.  [_navigate_and_wait] turns every WebDriver error, a timeout of
    [driver.get] included, into a [TradingViewScraperError]: it always
    comes to an end, and what it raises is never a WebDriver error.
    Without a driver it raises at once and touches nothing; a WebDriver
    error of [driver.get] gives the error that names the URL. *)
Theorem navigate_raises_no_driver_error fuel w c url st :
  (ENOUGH_FUEL <= fuel)%nat ->
  let run := _navigate_and_wait fuel w c url st in
  match fst run with
  | Ok _ => driver st = true
  | Raise e => is_WebDriverException e = false
  | OutOfFuel => False
  end
  /\ (driver st = false ->
      run = (Raise (TradingViewScraperError "Driver not available for navigation."),
             st))
  /\ (forall e, driver st = true ->
                outcome w (trace st) (Get url) = Some e ->
                is_WebDriverException e = true ->
                fst run = Raise (TradingViewScraperError
                                   ("Navigation to " ++ url ++ " failed"))).
Proof.
  intros Hfuel run. subst run. rewrite navigate_unfold.
  destruct (driver st) eqn:Hd.
  2:{ cbn. split; [reflexivity|]. split; [reflexivity|]. intros e H. discriminate H. }
  split; [|split; [intros H; discriminate H|]].
  - assert (Hs : sound (act w (Get url) ;; wait_for_chart fuel w c)).
    { apply sound_bind; [apply sound_act|intros _].
      now apply sound_wait_for_chart. }
    destruct (Hs st) as [Hend _]. unfold try_except.
    destruct ((act w (Get url) ;; wait_for_chart fuel w c) st) as [[a|e|] s1];
      cbn [fst] in *; [reflexivity| |contradiction].
    cbn [select_handler].
    destruct (is_WebDriverException e) eqn:W; cbn; [reflexivity|exact W].
  - intros e _ Ho We. unfold try_except, bind at 1, act. rewrite Ho.
    cbn [select_handler]. rewrite We. reflexivity.
Qed.

Lemma navigate_raises_no_driver_error_witness :
  let run := _navigate_and_wait 31 offline_world linux_link_config
               "https://in.tradingview.com/chart/XHDbt5Yy/" ready_state in
  match fst run with
  | Ok _ => driver ready_state = true
  | Raise e => is_WebDriverException e = false
  | OutOfFuel => False
  end
  /\ (driver ready_state = false ->
      run = (Raise (TradingViewScraperError "Driver not available for navigation."),
             ready_state))
  /\ (forall e, driver ready_state = true ->
                outcome offline_world (trace ready_state)
                  (Get "https://in.tradingview.com/chart/XHDbt5Yy/") = Some e ->
                is_WebDriverException e = true ->
                fst run = Raise (TradingViewScraperError
                                   ("Navigation to "
                                    ++ "https://in.tradingview.com/chart/XHDbt5Yy/"
                                    ++ " failed"))).
Proof.
  apply navigate_raises_no_driver_error. unfold ENOUGH_FUEL. lia.
Defined.

(** X6.  When the chart shell does not show before the infrastructure
    wait times out, [_navigate_and_wait] does not fail: it pauses for
    0.5 s and returns, without a single element query. *)
Theorem navigate_survives_infrastructure_timeout fuel w c url st :
  driver st = true ->
  outcome w (trace st) (Get url) = None ->
  outcome w (WAITING :: Call (Get url) :: trace st) WaitInfrastructure
  = Some TimeoutException ->
  let run := _navigate_and_wait fuel w c url st in
  fst run = Ok tt
  /\ calls_of (trace (snd run))
     = WaitInfrastructure :: Get url :: calls_of (trace st)
  /\ sleeps_of 500 (trace (snd run)) = S (sleeps_of 500 (trace st))
  /\ now (snd run)
     = (now st + latency w (trace st) (Get url)
        + latency w (WAITING :: Call (Get url) :: trace st) WaitInfrastructure
        + 500)%N.
Proof.
  intros Hd Hget Hwait run. subst run.
  rewrite navigate_unfold, Hd.
  match goal with
  | |- context [try_except ?m ?cl st] =>
      destruct (try_except m cl st) as [r s'] eqn:Hrun
  end.
  cbn [fst snd].
  unfold wait_for_chart in Hrun.
  unfold try_except, bind, act, log, time_now in Hrun.
  cbv beta iota in Hrun. rewrite Hget in Hrun.
  cbn [emit trace driver now fst snd] in Hrun.
  unfold WAITING in Hwait. rewrite Hwait in Hrun.
  cbn in Hrun. injection Hrun as <- <-.
  cbn. unfold WAITING. repeat split; lia.
Qed.

Lemma navigate_survives_infrastructure_timeout_witness :
  let run := _navigate_and_wait 31 no_chart_world linux_image_config
               "https://in.tradingview.com/chart/XHDbt5Yy/" ready_state in
  fst run = Ok tt
  /\ calls_of (trace (snd run))
     = WaitInfrastructure :: Get "https://in.tradingview.com/chart/XHDbt5Yy/"
         :: calls_of (trace ready_state)
  /\ sleeps_of 500 (trace (snd run)) = S (sleeps_of 500 (trace ready_state))
  /\ now (snd run)
     = (now ready_state
        + latency no_chart_world (trace ready_state)
            (Get "https://in.tradingview.com/chart/XHDbt5Yy/")
        + latency no_chart_world
            (WAITING :: Call (Get "https://in.tradingview.com/chart/XHDbt5Yy/")
               :: trace ready_state) WaitInfrastructure
        + 500)%N.
Proof.
  apply navigate_survives_infrastructure_timeout; reflexivity.
Defined.

End SessionProperties.

(** ** Capture operations and the tool entry point *)

Section CaptureProperties.
Import PyStr Py Scraper Observe Main Prompts Behaviour.
Open Scope py_scope.

Lemma yields_bind_with {A B} (m : M A) (k : A -> M B) (P : A -> Prop)
  (Q : B -> Prop) :
  yields m P -> (forall a, P a -> yields (k a) Q) -> yields (bind m k) Q.
Proof.
  intros Hm Hk st b. unfold bind. specialize (Hm st).
  destruct (m st) as [[a|e|] s1]; cbn [fst] in *; try discriminate.
  apply Hk. now apply Hm.
Qed.

Lemma yields_poll {A} fuel start limit interval (body : M (option A))
  (Q : A -> Prop) :
  yields body (fun r => forall a, r = Some a -> Q a) ->
  yields (poll fuel start limit interval body)
    (fun r => forall a, r = Some a -> Q a).
Proof.
  intros Hbody. induction fuel as [|fuel IH]; intros st r.
  { rewrite poll_no_fuel. destruct (elapsed_below start (now st) limit);
      [discriminate|]. intros [= <-]. discriminate. }
  rewrite poll_unfold. destruct (elapsed_below start (now st) limit).
  - specialize (Hbody st).
    destruct (body st) as [[[a|]|e|] s1]; cbn [fst] in *; try discriminate.
    + intros [= <-]. now apply Hbody.
    + apply IH.
  - intros [= <-]. discriminate.
Qed.

Lemma stripped_text_clean v s : stripped_text v = Some s -> clean_link s.
Proof.
  unfold stripped_text. destruct v; try discriminate.
  destruct (truthy s0); cbn [andb]; [|discriminate].
  destruct (truthy (strip s0)) eqn:E; [|discriminate].
  intros [= <-]. split.
  - intros H. rewrite H in E. discriminate E.
  - apply strip_idempotent.
Qed.

Lemma yields_link_attempt fuel w :
  yields (link_attempt fuel w) (fun a => forall s, a = Return s -> clean_link s).
Proof.
  unfold link_attempt. apply yields_try_except.
  - apply yields_bind; intros _. apply yields_bind; intros start.
    apply yields_bind; intros polled. apply yields_bind; intros content.
    destruct (stripped_text content) as [s|] eqn:E.
    + apply yields_ret. intros s' [= <-]. now apply (stripped_text_clean content).
    + apply yields_bind; intros _. apply yields_ret. discriminate.
  - apply Forall_cons; [|apply Forall_nil]. intros e. cbn [snd].
    apply yields_bind; intros _. apply yields_ret. discriminate.
Qed.

Lemma yields_link_attempts fuel w remaining :
  yields (link_attempts fuel w remaining)
    (fun r => forall s, r = Some s -> clean_link s).
Proof.
  induction remaining as [|remaining IH]; cbn [link_attempts].
  - apply yields_bind; intros _. apply yields_ret. discriminate.
  - apply yields_bind; intros _.
    apply (yields_bind_with _ _ _ _ (yields_link_attempt fuel w)).
    intros [s| |] Ha.
    + apply yields_ret. intros s' [= <-]. now apply Ha.
    + apply yields_bind; intros _. exact IH.
    + apply yields_bind; intros _. apply yields_ret. discriminate.
Qed.

Lemma yields_get_screenshot_link fuel w c ticker interval :
  yields (get_screenshot_link fuel w c ticker interval)
    (fun r => forall s, r = Some s -> clean_link s).
Proof.
  unfold get_screenshot_link. apply yields_bind; intros d.
  destruct (negb d); [apply yields_raise|].
  destruct (negb (truthy ticker) || negb (truthy interval)); [apply yields_raise|].
  apply yields_try_except.
  - apply yields_bind; intros a. apply yields_bind; intros _.
    apply yields_bind; intros _. unfold _trigger_screenshot_and_get_link.
    apply yields_bind; intros d'. destruct (negb d'); [apply yields_raise|].
    apply yields_link_attempts.
  - repeat (apply Forall_cons; [intros e; apply yields_raise|]). apply Forall_nil.
Qed.

(** X7.  [get_screenshot_link] always comes to an end, and the only
    exceptions it lets out are the [ValueError] of an empty ticker or
    interval and [TradingViewScraperError]: every other failure inside it
    is wrapped in a [TradingViewScraperError]. *)
Theorem screenshot_link_raises_scraper_errors fuel w c ticker interval st :
  (ENOUGH_FUEL <= fuel)%nat ->
  match fst (get_screenshot_link fuel w c ticker interval st) with
  | Ok _ => driver st = true /\ ticker <> "" /\ interval <> ""
  | Raise e =>
      is_TradingViewScraperError e = true
      \/ (e = ValueError "Ticker and Interval must be provided."
          /\ driver st = true /\ (ticker = "" \/ interval = ""))
  | OutOfFuel => False
  end.
Proof.
  intros Hfuel.
  pose proof (sound_get_screenshot_link fuel w c ticker interval Hfuel st) as [Hend _].
  destruct (get_screenshot_link fuel w c ticker interval st) as [r s'] eqn:Hrun.
  cbn [fst] in *.
  unfold get_screenshot_link in Hrun. unfold bind at 1 in Hrun.
  unfold get_driver in Hrun. cbv beta iota in Hrun.
  destruct (driver st) eqn:Hd; cbn [negb] in Hrun.
  2:{ injection Hrun as <- <-. left. reflexivity. }
  destruct (negb (truthy ticker) || negb (truthy interval)) eqn:Hv.
  { injection Hrun as <- <-. right. split; [reflexivity|]. split; [reflexivity|].
    destruct ticker; [now left|]. destruct interval; [now right|]. discriminate Hv. }
  unfold try_except in Hrun.
  match type of Hrun with
  | context [match ?m st with _ => _ end] => destruct (m st) as [[a|e|] s1]
  end.
  - injection Hrun as <- <-. split; [reflexivity|].
    destruct ticker; [discriminate Hv|]. destruct interval; [discriminate Hv|].
    split; discriminate.
  - cbn [select_handler] in Hrun.
    destruct (is_TradingViewScraperError e) eqn:He.
    + injection Hrun as <- <-. left. exact He.
    + destruct (is_WebDriverException e); injection Hrun as <- <-; left; reflexivity.
  - injection Hrun as <- <-. now apply Hend.
Qed.

Lemma screenshot_link_raises_scraper_errors_witness :
  match fst (get_screenshot_link 31 offline_world anonymous_config
               "NASDAQ:AAPL" "D" ready_state) with
  | Ok _ => driver ready_state = true /\ "NASDAQ:AAPL" <> "" /\ "D" <> ""
  | Raise e =>
      is_TradingViewScraperError e = true
      \/ (e = ValueError "Ticker and Interval must be provided."
          /\ driver ready_state = true /\ ("NASDAQ:AAPL" = "" \/ "D" = ""))
  | OutOfFuel => False
  end.
Proof.
  apply screenshot_link_raises_scraper_errors. unfold ENOUGH_FUEL. lia.
Defined.

(** X8.  What [get_screenshot_link] returns is [None] or a link that is
    not empty and carries no white space at either end: the clipboard
    text is stripped, and a text of white space only counts as no link. *)
Theorem screenshot_link_is_clean fuel w c ticker interval st :
  (ENOUGH_FUEL <= fuel)%nat ->
  match fst (get_screenshot_link fuel w c ticker interval st) with
  | Ok (Some link) => link <> "" /\ strip link = link
  | Ok None => True
  | Raise _ => True
  | OutOfFuel => False
  end.
Proof.
  intros Hfuel.
  pose proof (sound_get_screenshot_link fuel w c ticker interval Hfuel st) as [Hend _].
  pose proof (yields_get_screenshot_link fuel w c ticker interval st) as Hy.
  destruct (fst (get_screenshot_link fuel w c ticker interval st)) as [[link|]|e|];
    auto.
  apply (Hy (Some link)); reflexivity.
Qed.

Lemma screenshot_link_is_clean_witness :
  match fst (get_screenshot_link 31 link_on_third_attempt_world linux_link_config
               "BYBIT:BTCUSDT.P" "15" ready_state) with
  | Ok (Some link) => link <> "" /\ strip link = link
  | Ok None => True
  | Raise _ => True
  | OutOfFuel => False
  end.
Proof.
  apply screenshot_link_is_clean. unfold ENOUGH_FUEL. lia.
Defined.

(** X9.  No capture operation releases or replaces the session: after
    [get_screenshot_link] and after [get_chart_image_url], [self.driver]
    is what it was before the call, whatever the browser did and however
    the call ended. *)
Theorem capture_keeps_the_session fuel w c ticker interval st :
  driver (snd (get_screenshot_link fuel w c ticker interval st)) = driver st
  /\ driver (snd (get_chart_image_url fuel w c ticker interval st)) = driver st.
Proof.
  split.
  - apply keeps_driver_get_screenshot_link.
  - apply keeps_driver_get_chart_image_url.
Qed.

End CaptureProperties.

(** ** What a capture returns *)

Section CaptureResults.
Import PyStr Py Scraper Observe Main Prompts Behaviour.
Open Scope py_scope.










(** In [image_world] the capture succeeds at the first attempt. *)
Lemma chart_image_url_in_image_world :
  fst (get_chart_image_url 31 (image_world "png;base64" [x89; x50; x4e; x47])
         linux_image_config "BYBIT:BTCUSDT.P" "15" ready_state)
  = Ok (Some "data:image/png;base64,iVBORw==").
Proof. vm_compute. reflexivity. Qed.

Lemma split_comma_app header payload :
  contains "," header = false ->
  split_comma (header ++ "," ++ payload) = Some (header, payload).
Proof.
  induction header as [|ch header IH]; intros Hc.
  - reflexivity.
  - cbn [contains] in Hc. apply orb_false_elim in Hc. destruct Hc as [Hs Hrest].
    unfold startswith in Hs. cbn [strip_prefix] in Hs.
    cbn [append split_comma].
    destruct (Ascii.eqb ch ",") eqn:E.
    + apply Ascii.eqb_eq in E. subst ch. cbn in Hs. discriminate Hs.
    + change (header ++ String "," payload) with (header ++ "," ++ payload).
      rewrite (IH Hrest). reflexivity.
Qed.

(** [_read_image_from_clipboard] decodes every data URL of an image
    whose header holds no comma: the bytes are those of the payload. *)
Lemma image_bytes_of_data_url mime payload bytes :
  contains "," mime = false ->
  Base64.b64decode payload = Some bytes ->
  image_bytes_of (JsStr ("data:image/" ++ mime ++ "," ++ payload)) = Ok (Some bytes).
Proof.
  intros Hc Hd. unfold image_bytes_of.
  change (js_truthy (JsStr ("data:image/" ++ mime ++ "," ++ payload))) with true.
  cbv iota. rewrite startswith_app.
  replace ("data:image/" ++ mime ++ "," ++ payload)
    with (("data:image/" ++ mime) ++ "," ++ payload)
    by (rewrite string_app_assoc; reflexivity).
  rewrite split_comma_app; [rewrite Hd; reflexivity|].
  cbn. exact Hc.
Qed.

Lemma image_bytes_of_raises v e :
  image_bytes_of v = Raise e ->
  is_WebDriverException e = false /\ is_TradingViewClipboardServerError e = false.
Proof.
  unfold image_bytes_of. destruct (js_truthy v); [|discriminate].
  destruct v; try (intros [= <-]; split; reflexivity).
  destruct (startswith s "data:image/"); [|discriminate].
  destruct (split_comma s) as [[h d]|].
  - destruct (Base64.b64decode d); [discriminate|].
    intros [= <-]; split; reflexivity.
  - intros [= <-]; split; reflexivity.
Qed.

End CaptureResults.

(** ** The image channel *)

Section ImageChannel.
Import PyStr Py Scraper Observe Main Prompts Behaviour.
Open Scope py_scope.

(** X11.  The save-shortcut capture hands on the bytes of the clipboard
    image, and labels them PNG whatever type the browser named: when the
    reader returns the data URL [data:image/<mime>,<payload>] at the
    first attempt, [mime] holding no comma and [payload] decoding to at
    least one byte, [_get_clipboard_content] returns
    [data:image/png;base64,] followed by the base64 text of these
    bytes, after one attempt. *)
Theorem image_capture_relabels_as_png fuel w c st mime payload b l :
  (1 <= fuel)%nat ->
  driver st = true ->
  use_save_shortcut c = true ->
  contains "," mime = false ->
  Base64.b64decode payload = Some (b :: l) ->
  (forall h, attempts_of h = (attempts_of (trace st) + 1)%nat ->
             outcome w h (Perform (save_chord c)) = None
             /\ (exists probe, execute w h HasClipboardApi = Returns probe
                               /\ js_truthy probe = true)
             /\ execute w h ReadImage
                = Returns (JsStr ("data:image/" ++ mime ++ "," ++ payload))) ->
  let run := _get_clipboard_content fuel w c st in
  fst run = Ok ("data:image/png;base64," ++ Base64.b64encode (b :: l))
  /\ attempts_of (trace (snd run)) = (attempts_of (trace st) + 1)%nat.
Proof.
  intros Hfuel Hd Hmode Hmime Hpayload Hw run. subst run.
  destruct (get_clipboard_content_valid_after fuel w c st 0
              ("data:image/png;base64," ++ Base64.b64encode (b :: l)) Hfuel Hd)
    as (st' & -> & Ha).
  - unfold MAX_CLIPBOARD_ATTEMPTS. lia.
  - intros s _ Hrange. lia.
  - intros h Hh. destruct (Hw h) as (Hsent & (probe & Hp & Hpt) & Hread); [lia|].
    split; [exact Hsent|]. rewrite Hmode.
    exists probe, (JsStr ("data:image/" ++ mime ++ "," ++ payload)), b, l.
    repeat split; auto.
    now apply image_bytes_of_data_url.
  - cbn [fst snd]. split; [reflexivity|lia].
Qed.

Lemma image_capture_relabels_as_png_witness :
  let run := _get_clipboard_content 31
               (image_world "jpeg;base64" [xff; xd8; xff; xe0])
               linux_image_config ready_state in
  fst run = Ok ("data:image/png;base64," ++ Base64.b64encode [xff; xd8; xff; xe0])
  /\ attempts_of (trace (snd run)) = (attempts_of (trace ready_state) + 1)%nat.
Proof.
  apply (image_capture_relabels_as_png 31
           (image_world "jpeg;base64" [xff; xd8; xff; xe0]) linux_image_config
           ready_state "jpeg;base64"
           (Base64.b64encode [xff; xd8; xff; xe0]) xff [xd8; xff; xe0]).
  - lia.
  - reflexivity.
  - reflexivity.
  - reflexivity.
  - vm_compute. reflexivity.
  - intros h _. split; [reflexivity|]. split; [|reflexivity].
    exists (JsBool true). split; reflexivity.
Defined.

(** One pass of the save-shortcut capture in which the reader returns
    something that cannot be decoded. *)
Lemma clipboard_attempt_undecodable fuel w c s data e :
  driver s = true ->
  use_save_shortcut c = true ->
  image_bytes_of data = Raise e ->
  (forall h, attempts_of h = attempts_of (trace s) ->
             outcome w h (Perform (save_chord c)) = None
             /\ (exists probe, execute w h HasClipboardApi = Returns probe
                               /\ js_truthy probe = true)
             /\ execute w h ReadImage = Returns data) ->
  exists s', clipboard_attempt fuel w c s = (Raise e, s') /\ kept s s'.
Proof.
  intros Hd Hmode Hbad Hw. unfold clipboard_attempt, try_except.
  destruct (Hw _ eq_refl) as [Hsent _].
  destruct (send_save_shortcut_run w c s Hd) as (s1 & K1 & Hsend).
  { rewrite Hsent. reflexivity. }
  destruct Hsend as [(Hrun & _ & Hs1) | (e' & Hrun & _)].
  2:{ rewrite (send_save_shortcut_unfold w c s Hd) in Hrun.
      unfold try_except, act in Hrun. rewrite Hsent in Hrun. discriminate. }
  unfold bind at 1. rewrite Hrun.
  assert (Hd1 : driver s1 = true) by (destruct K1 as (H & _); congruence).
  clear Hs1 Hrun. rewrite Hmode.
  unfold image_attempt. unfold bind at 1, sleep.
  set (s2 := emit (Sleep SAVE_SHORTCUT_IMAGE_DELAY) SAVE_SHORTCUT_IMAGE_DELAY s1).
  assert (K2 : kept s1 s2) by apply kept_sleep.
  assert (Hd2 : driver s2 = true) by (destruct K2 as (H & _); congruence).
  clearbody s2.
  unfold bind at 1, _read_image_from_clipboard.
  unfold bind at 1, get_driver. rewrite Hd2. cbn [negb].
  unfold try_except. unfold bind at 1, run_script, of_reply.
  destruct (Hw (trace s2)) as (_ & (probe & Hp & Hpt) & _).
  { destruct K1 as (_ & H1 & _). destruct K2 as (_ & H2 & _). congruence. }
  rewrite Hp, Hpt. cbn [negb].
  set (s3 := emit (Call (Execute HasClipboardApi)) _ s2).
  assert (K3 : kept s2 s3) by apply kept_call.
  clearbody s3.
  destruct (Hw (trace s3)) as (_ & _ & Hdata).
  { destruct K1 as (_ & H1 & _). destruct K2 as (_ & H2 & _).
    destruct K3 as (_ & H3 & _). congruence. }
  unfold bind at 1. rewrite Hdata. unfold lift. rewrite Hbad.
  destruct (image_bytes_of_raises data e Hbad) as [Hwd Hse].
  repeat (cbn [select_handler]; first [rewrite Hwd | rewrite Hse]).
  eexists. split; [reflexivity|].
  eapply kept_trans; [exact K1|]. eapply kept_trans; [exact K2|].
  eapply kept_trans; [exact K3|apply kept_call].
Qed.

(** X12.  Image data that cannot be decoded ends the save-shortcut
    capture at once: when what the reader returns makes the decoding
    raise (a data URL without a comma, a payload that is not base64, a
    value that is not a string), [_get_clipboard_content] lets this
    exception out after one attempt; the remaining attempts are not
    made. *)
Theorem undecodable_image_is_not_retried fuel w c st data e :
  driver st = true ->
  use_save_shortcut c = true ->
  image_bytes_of data = Raise e ->
  (forall h, attempts_of h = (attempts_of (trace st) + 1)%nat ->
             outcome w h (Perform (save_chord c)) = None
             /\ (exists probe, execute w h HasClipboardApi = Returns probe
                               /\ js_truthy probe = true)
             /\ execute w h ReadImage = Returns data) ->
  let run := _get_clipboard_content fuel w c st in
  fst run = Raise e
  /\ attempts_of (trace (snd run)) = (attempts_of (trace st) + 1)%nat
  /\ is_TradingViewScraperError e = false.
Proof.
  intros Hd Hmode Hbad Hw run. subst run.
  assert (Hrun : exists st',
             _get_clipboard_content fuel w c st = (Raise e, st')
             /\ attempts_of (trace st') = (attempts_of (trace st) + 1)%nat).
  { rewrite (get_clipboard_content_unfold _ _ _ _ Hd).
    unfold MAX_CLIPBOARD_ATTEMPTS. cbn [clipboard_attempts].
    unfold bind at 1. unfold log at 1.
    set (st0 := emit (LogAttempt _ _) 0 st).
    assert (Ha0 : attempts_of (trace st0) = S (attempts_of (trace st)))
      by reflexivity.
    assert (Hd0 : driver st0 = true) by exact Hd.
    clearbody st0.
    destruct (clipboard_attempt_undecodable fuel w c st0 data e Hd0 Hmode Hbad)
      as (st1 & Hrun & K1).
    { intros h Hh. apply Hw. lia. }
    unfold bind at 1. rewrite Hrun.
    exists st1. split; [reflexivity|]. destruct K1 as (_ & Ha1 & _). lia. }
  destruct Hrun as (st' & -> & Ha). cbn [fst snd].
  split; [reflexivity|]. split; [exact Ha|].
  clear -Hbad. unfold image_bytes_of in Hbad.
  destruct (js_truthy data); [|discriminate].
  destruct data; try (injection Hbad as <-; reflexivity).
  destruct (startswith s "data:image/"); [|discriminate].
  destruct (split_comma s) as [[h d]|].
  - destruct (Base64.b64decode d); [discriminate|].
    injection Hbad as <-; reflexivity.
  - injection Hbad as <-; reflexivity.
Qed.

Lemma undecodable_image_is_not_retried_witness :
  let run := _get_clipboard_content 31 (reader_world "data:image/png;base64")
               linux_image_config ready_state in
  fst run = Raise (ValueError "not enough values to unpack")
  /\ attempts_of (trace (snd run)) = (attempts_of (trace ready_state) + 1)%nat
  /\ is_TradingViewScraperError (ValueError "not enough values to unpack") = false.
Proof.
  apply (undecodable_image_is_not_retried 31 (reader_world "data:image/png;base64")
           linux_image_config ready_state (JsStr "data:image/png;base64")).
  - reflexivity.
  - reflexivity.
  - reflexivity.
  - intros h _. split; [reflexivity|]. split; [|reflexivity].
    exists (JsBool true). split; reflexivity.
Defined.

End ImageChannel.

(** ** The tool entry point and its prompts *)

Section ToolEntry.
Import PyStr Py Scraper Observe Main Prompts Behaviour.
Open Scope py_scope.

Lemma yields_with_scraper {A} w (body : M A) (Q : A -> Prop) :
  yields body Q -> yields (with_scraper w body) Q.
Proof.
  intros Hbody. unfold with_scraper.
  apply yields_bind; intros _. apply yields_bind; intros _.
  intros st a. specialize (Hbody st).
  destruct (body st) as [[a0|e|] s1]; cbn [fst] in *.
  - unfold bind. destruct (__exit__ w s1) as [[u|e|] s2]; cbn; try discriminate.
    intros [= <-]. now apply Hbody.
  - unfold bind. destruct (__exit__ w s1) as [[u|e'|] s2]; cbn; discriminate.
  - discriminate.
Qed.

(** X13.  The tool [get_tradingview_chart_image] ends in one of two
    ways.  It returns a text that is not empty and is what
    [convert_link_to_image_url] makes of a link that is not empty and
    carries no white space around it.  Or it raises a plain [Exception]
    whose message opens with [Scraper Error], [Input Error] or
    [Unexpected error]: no exception of the scraper or the browser
    reaches the caller as it is. *)
Theorem tool_entry_outcome fuel w c ticker interval st :
  (ENOUGH_FUEL <= fuel)%nat ->
  match fst (get_tradingview_chart_image fuel w c ticker interval st) with
  | Ok url =>
      url <> ""
      /\ exists link,
           link <> "" /\ strip link = link
           /\ Normalizer.convert_link_to_image_url (Some link) = Some url
  | Raise e =>
      e = OtherException "Scraper Error"
      \/ e = OtherException "Input Error"
      \/ e = OtherException "Unexpected error"
  | OutOfFuel => False
  end.
Proof.
  intros Hfuel.
  pose proof (sound_get_tradingview_chart_image fuel w c ticker interval Hfuel st)
    as [Hend _].
  assert (Hy : yields (get_tradingview_chart_image fuel w c ticker interval)
                 (fun url => url <> ""
                             /\ exists link,
                                  link <> "" /\ strip link = link
                                  /\ Normalizer.convert_link_to_image_url (Some link)
                                     = Some url)).
  { unfold get_tradingview_chart_image. apply yields_bind; intros _.
    apply yields_try_except.
    - apply yields_with_scraper.
      apply (yields_bind_with _ _ _ _
               (yields_get_screenshot_link fuel w c ticker interval)).
      intros [[|a l]|] Hlink; try apply yields_raise.
      destruct (Normalizer.convert_link_to_image_url (Some (String a l)))
        as [[|b u]|] eqn:E; try apply yields_raise.
      apply yields_bind; intros _. apply yields_ret.
      split; [discriminate|]. exists (String a l).
      destruct (Hlink (String a l) eq_refl) as [H1 H2]. auto.
    - repeat (apply Forall_cons;
              [intros e; cbn [snd]; apply yields_bind; intros _; apply yields_raise|]).
      apply Forall_nil. }
  specialize (Hy st).
  destruct (get_tradingview_chart_image fuel w c ticker interval st) as [r s'] eqn:Hrun.
  cbn [fst] in *. destruct r as [url|e|]; [now apply Hy| |now apply Hend].
  clear Hy Hend. unfold get_tradingview_chart_image in Hrun.
  unfold bind at 1 in Hrun. unfold log at 1 in Hrun. cbv beta iota in Hrun.
  unfold try_except in Hrun.
  match type of Hrun with
  | context [match ?m ?s with _ => _ end] => destruct (m s) as [[a|e0|] s1]
  end; try discriminate Hrun.
  cbn [select_handler] in Hrun.
  destruct (is_TradingViewScraperError e0).
  { cbn in Hrun. injection Hrun as <- _. auto. }
  destruct (is_ValueError e0).
  { cbn in Hrun. injection Hrun as <- _. auto. }
  cbn in Hrun. injection Hrun as <- _. auto.
Qed.

Lemma tool_entry_outcome_witness :
  match fst (get_tradingview_chart_image 31 link_on_third_attempt_world
               linux_link_config "BYBIT:BTCUSDT.P" "15" fresh_state) with
  | Ok url =>
      url <> ""
      /\ exists link,
           link <> "" /\ strip link = link
           /\ Normalizer.convert_link_to_image_url (Some link) = Some url
  | Raise e =>
      e = OtherException "Scraper Error"
      \/ e = OtherException "Input Error"
      \/ e = OtherException "Unexpected error"
  | OutOfFuel => False
  end.
Proof.
  apply tool_entry_outcome. unfold ENOUGH_FUEL. lia.
Defined.

(** In [link_on_third_attempt_world] the tool returns the snapshot URL
    of the link. *)
Lemma tool_entry_in_link_world :
  fst (get_tradingview_chart_image 31 link_on_third_attempt_world
         linux_link_config "BYBIT:BTCUSDT.P" "15" fresh_state)
  = Ok "https://s3.tradingview.com/snapshots/a/AbCdEf12.png".
Proof. vm_compute. reflexivity. Qed.

Lemma setup_driver_succeeds w st :
  (forall h o, In o setup_calls -> outcome w h o = None) ->
  exists s', _setup_driver w st = (Ok tt, s') /\ driver s' = true.
Proof.
  intros Hw. unfold _setup_driver, _get_chromedriver_path.
  unfold bind, try_except, act, log, set_driver.
  cbn [emit trace driver now fst snd].
  repeat (rewrite Hw by (cbn; auto); cbn [emit trace driver now fst snd]).
  eexists. split; reflexivity.
Qed.

Lemma close_calls_quit w s :
  driver s = true ->
  calls_of (trace (snd (close w s))) = Quit :: calls_of (trace s).
Proof.
  intros Hd. unfold close. rewrite Hd.
  destruct (quit w (trace s)) as [[e|]|]; try reflexivity.
  destruct (is_WebDriverException e); [reflexivity|].
  destruct (is_OSError e); reflexivity.
Qed.

(** A [with] block whose scraper could be set up: the body runs, then
    the driver is quit, and what the body returned or raised goes on to
    the caller. *)
Lemma with_scraper_quits {A} w (body : M A) st :
  (forall h o, In o setup_calls -> outcome w h o = None) ->
  keeps_driver body ->
  (forall s, fst (body s) <> OutOfFuel) ->
  exists entered final,
    driver entered = true
    /\ with_scraper w body st = (fst (body entered), final)
    /\ calls_of (trace final) = Quit :: calls_of (trace (snd (body entered))).
Proof.
  intros Hw Hkeep Hend. unfold with_scraper, __enter__.
  unfold bind at 1. unfold set_driver at 1. cbv beta iota.
  set (s0 := {| driver := false; now := now st; trace := trace st |}).
  destruct (setup_driver_succeeds w s0 Hw) as (s1 & Hsetup & Hd1).
  unfold bind at 1. rewrite Hsetup. exists s1.
  specialize (Hkeep s1). specialize (Hend s1).
  destruct (body s1) as [[a|e|] s2]; cbn [fst snd] in *; [| |contradiction].
  - unfold bind, __exit__.
    pose proof (close_returns w s2) as [Hc _].
    pose proof (close_calls_quit w s2 ltac:(congruence)) as Hq.
    destruct (close w s2) as [r s3]; cbn [fst snd] in *. subst r.
    exists s3. cbn. auto.
  - unfold bind, __exit__.
    pose proof (close_returns w s2) as [Hc _].
    pose proof (close_calls_quit w s2 ltac:(congruence)) as Hq.
    destruct (close w s2) as [r s3]; cbn [fst snd] in *. subst r.
    exists s3. cbn. auto.
Qed.

(** X14.  Once the browser could be started, the tool never leaves it
    running: whatever the request comes to, a URL or any of the errors,
    the last thing that happens to the browser is [driver.quit()]. *)
Theorem tool_quits_the_browser fuel w c ticker interval st :
  (ENOUGH_FUEL <= fuel)%nat ->
  (forall h o, In o setup_calls -> outcome w h o = None) ->
  hd_error
    (calls_of (trace (snd (get_tradingview_chart_image fuel w c ticker interval st))))
  = Some Quit.
Proof.
  intros Hfuel Hw. unfold get_tradingview_chart_image.
  unfold bind at 1. unfold log at 1. cbv beta iota.
  set (s0 := emit _ 0 st). clearbody s0.
  set (body := bind (get_screenshot_link fuel w c ticker interval) _).
  assert (Hkeep : keeps_driver body).
  { unfold body. apply keeps_driver_bind;
      [apply keeps_driver_get_screenshot_link|intros link].
    destruct link as [[|a l]|]; try apply keeps_driver_raise.
    destruct (Normalizer.convert_link_to_image_url (Some (String a l)))
      as [[|b u]|]; try apply keeps_driver_raise.
    apply keeps_driver_bind; [apply keeps_driver_log|intros _].
    apply keeps_driver_ret. }
  assert (Hend : forall s, fst (body s) <> OutOfFuel).
  { intros s. unfold body.
    assert (Hs : sound (bind (get_screenshot_link fuel w c ticker interval)
                          (fun screenshot_link =>
                             match screenshot_link with
                             | Some (String a l) =>
                                 match Normalizer.convert_link_to_image_url
                                         (Some (String a l)) with
                                 | Some (String b u) =>
                                     log (Log Info "Successfully obtained image URL") ;;
                                     ret (String b u)
                                 | _ =>
                                     raise (TradingViewScraperError
                                              "Failed to convert screenshot link to image URL.")
                                 end
                             | _ =>
                                 raise (TradingViewScraperError
                                          "Scraper did not return a screenshot link from clipboard.")
                             end))).
    { apply sound_bind; [now apply sound_get_screenshot_link|intros link].
      destruct link as [[|a l]|]; try apply sound_raise.
      destruct (Normalizer.convert_link_to_image_url (Some (String a l)))
        as [[|b u]|]; try apply sound_raise.
      apply sound_bind; [apply sound_log|intros _; apply sound_ret]. }
    apply Hs. }
  destruct (with_scraper_quits w body s0 Hw Hkeep Hend)
    as (entered & final & _ & Hrun & Hcalls).
  clearbody body. unfold try_except. rewrite Hrun.
  destruct (fst (body entered)) as [a|e|]; cbn [fst snd].
  - rewrite Hcalls. reflexivity.
  - cbn [select_handler].
    destruct (is_TradingViewScraperError e); [cbn; rewrite Hcalls; reflexivity|].
    destruct (is_ValueError e); cbn; rewrite Hcalls; reflexivity.
  - rewrite Hcalls. reflexivity.
Qed.

Lemma tool_quits_the_browser_witness :
  hd_error
    (calls_of (trace (snd (get_tradingview_chart_image 31 offline_world
                             linux_link_config "NASDAQ:AAPL" "D" fresh_state))))
  = Some Quit.
Proof.
  apply tool_quits_the_browser.
  - unfold ENOUGH_FUEL. lia.
  - intros h o Ho. cbn in Ho.
    destruct Ho as [<-|[<-|[<-|[<-|[]]]]]; reflexivity.
Defined.

(** X15.  When the browser starts but a later step of [_setup_driver]
    raises a WebDriver error, entering the [with] block fails and its
    exit is never run: the tool raises its scraper error, [self.driver]
    stays set, and [driver.quit()] is not called. *)
Theorem failed_setup_is_not_quit fuel w c ticker interval st e :
  (forall h, outcome w h ChromedriverPath = None) ->
  (forall h, outcome w h StartChrome = None) ->
  (forall h, outcome w h SetScriptTimeout = Some e) ->
  is_WebDriverException e = true ->
  let run := get_tradingview_chart_image fuel w c ticker interval st in
  fst run = Raise (OtherException "Scraper Error")
  /\ driver (snd run) = true
  /\ calls_of (trace (snd run))
     = SetScriptTimeout :: StartChrome :: ChromedriverPath :: calls_of (trace st).
Proof.
  intros H1 H2 H3 He run. subst run.
  destruct (get_tradingview_chart_image fuel w c ticker interval st) as [r s'] eqn:Hrun.
  cbn [fst snd].
  unfold get_tradingview_chart_image, with_scraper, __enter__, _setup_driver,
    _get_chromedriver_path in Hrun.
  unfold bind at 1 in Hrun. unfold log at 1 in Hrun. cbv beta iota in Hrun.
  unfold try_except at 1 in Hrun.
  unfold bind at 1 in Hrun. unfold set_driver at 1 in Hrun. cbv beta iota in Hrun.
  unfold bind at 1 in Hrun. unfold bind at 1 in Hrun.
  unfold log at 1 in Hrun. cbv beta iota in Hrun.
  unfold bind at 1 in Hrun. unfold try_except at 1 in Hrun.
  unfold act at 1 in Hrun. cbn [emit trace driver now] in Hrun.
  rewrite H1 in Hrun. cbv beta iota in Hrun.
  unfold try_except at 1 in Hrun.
  unfold bind at 1 in Hrun. unfold act at 1 in Hrun.
  cbn [emit trace driver now] in Hrun. rewrite H2 in Hrun. cbv beta iota in Hrun.
  unfold bind at 1 in Hrun. unfold set_driver at 1 in Hrun. cbv beta iota in Hrun.
  unfold bind at 1 in Hrun. unfold act at 1 in Hrun.
  cbn [emit trace driver now] in Hrun. rewrite H3 in Hrun. cbv beta iota in Hrun.
  cbn [select_handler] in Hrun. rewrite He in Hrun.
  cbn in Hrun. injection Hrun as <- <-. cbn. auto.
Qed.

Lemma failed_setup_is_not_quit_witness :
  let run := get_tradingview_chart_image 31 setup_fails_world linux_link_config
               "NASDAQ:AAPL" "D" fresh_state in
  fst run = Raise (OtherException "Scraper Error")
  /\ driver (snd run) = true
  /\ calls_of (trace (snd run))
     = SetScriptTimeout :: StartChrome :: ChromedriverPath
         :: calls_of (trace fresh_state).
Proof.
  apply (failed_setup_is_not_quit 31 setup_fails_world linux_link_config
           "NASDAQ:AAPL" "D" fresh_state WebDriverException);
    try (intros h; reflexivity); reflexivity.
Defined.

End ToolEntry.

(** ** The timeframe prompt *)

Section PromptProperties.
Import PyStr Py Scraper Observe Main Prompts Behaviour.
Open Scope py_scope.

(** What the look-up in [interval_map] gives: the default, or one of
    the eight interval codes. *)
Lemma interval_map_values k default :
  dict_get_default k interval_map default = default
  \/ In (dict_get_default k interval_map default)
       ["D"; "W"; "M"; "1"; "5"; "15"; "60"; "240"].
Proof.
  unfold interval_map. cbn [dict_get_default].
  repeat match goal with
         | |- context [String.eqb k ?x] => destruct (String.eqb k x)
         end;
    cbn; auto 12.
Qed.

(** X16.  The interval of the timeframe prompt.  A name of
    [interval_map] is recognised whatever its case and replaced by its
    code: an interval whose lower-case form is a key of the map is mapped
    to the value of that key.  Every other interval is passed through as
    it was given, the empty one included.  The codes are fixed points, so
    mapping twice is mapping once, and an interval that is not empty is
    never mapped to the empty one. *)
Theorem mcp_interval_properties interval :
  (forall k v, In (k, v) interval_map -> lower interval = k ->
               mcp_interval interval = v)
  /\ ((forall v, ~ In (lower interval, v) interval_map) ->
      mcp_interval interval = interval)
  /\ (mcp_interval interval = interval
      \/ (In (mcp_interval interval) ["D"; "W"; "M"; "1"; "5"; "15"; "60"; "240"]
          /\ mcp_interval interval = mcp_interval (lower interval)))
  /\ mcp_interval (mcp_interval interval) = mcp_interval interval
  /\ (interval <> "" -> mcp_interval interval <> "")
  /\ mcp_interval "" = "".
Proof.
  split.
  { intros k v Hin Hk. unfold mcp_interval. rewrite Hk.
    unfold interval_map in Hin. cbn [In] in Hin.
    repeat (destruct Hin as [Hin|Hin]; [injection Hin as <- <-; reflexivity|]).
    destruct Hin. }
  split.
  { intros Hnot. unfold mcp_interval, interval_map. cbn [dict_get_default].
    repeat match goal with
           | |- context [String.eqb (lower interval) ?x] =>
               let H := fresh "H" in
               destruct (String.eqb_spec (lower interval) x) as [H|H];
               [exfalso; eapply Hnot; rewrite H; unfold interval_map;
                cbn [In]; eauto 12|]
           end.
    reflexivity. }
  assert (Hcodes : forall v, In v ["D"; "W"; "M"; "1"; "5"; "15"; "60"; "240"] ->
                             mcp_interval v = v /\ v <> "").
  { intros v Hv. cbn in Hv.
    repeat (destruct Hv as [<-|Hv]; [split; [reflexivity|discriminate]|]).
    destruct Hv. }
  assert (Hlow : forall k default default',
             In (dict_get_default k interval_map default)
               ["D"; "W"; "M"; "1"; "5"; "15"; "60"; "240"] ->
             dict_get_default k interval_map default <> default ->
             dict_get_default k interval_map default'
             = dict_get_default k interval_map default).
  { intros k d d'. unfold interval_map. cbn [dict_get_default].
    repeat match goal with
           | |- context [String.eqb k ?x] => destruct (String.eqb k x)
           end; auto.
    intros _ H. now destruct H. }
  assert (Hidem : forall s, lower (lower s) = lower s).
  { induction s as [|ch s IH]; [reflexivity|]. cbn [lower]. rewrite IH. f_equal.
    clear. destruct ch as [[] [] [] [] [] [] [] []]; reflexivity. }
  destruct (string_dec (mcp_interval interval) interval) as [Heq|Hne].
  - split; [now left|]. split; [now rewrite Heq|].
    split; [now rewrite Heq|reflexivity].
  - destruct (interval_map_values (lower interval) interval) as [H|H];
      [contradiction|].
    fold (mcp_interval interval) in H.
    destruct (Hcodes _ H) as [Hfix Hnonempty].
    split.
    + right. split; [exact H|]. unfold mcp_interval. rewrite Hidem.
      symmetry. apply Hlow; [exact H|exact Hne].
    + split; [exact Hfix|]. split; [intros _; exact Hnonempty|reflexivity].
Qed.

(** The prompt hands the mapped interval to the tool. *)
Lemma timeframe_prompt_examples :
  mcp_interval "Daily" = "D"
  /\ mcp_interval "4 HOUR" = "240"
  /\ mcp_interval "1 Minute" = "1"
  /\ mcp_interval "30" = "30"
  /\ mcp_interval "2 hour" = "2 hour".
Proof. repeat split; reflexivity. Qed.

End PromptProperties.

(** ** The time a capture spends sleeping *)

Section SleepBudget.
Import PyStr Py Scraper Observe Main Prompts Behaviour.
Open Scope py_scope.

Lemma paced_quiet {A} (m : M A) :
  (forall st, slept (trace (snd (m st))) = slept (trace st)
              /\ (now st <= now (snd (m st)))%N) ->
  paced 0 m.
Proof. intros H st. destruct (H st) as [H1 H2]. rewrite H1. lia. Qed.

Lemma paced_ret {A} (a : A) : paced 0 (ret a).
Proof. apply paced_quiet. intros st. cbn. split; [reflexivity|lia]. Qed.

Lemma paced_raise {A} e : paced 0 (@raise A e).
Proof. apply paced_quiet. intros st. cbn. split; [reflexivity|lia]. Qed.

Lemma paced_of_reply {A} (r : reply A) : paced 0 (of_reply r).
Proof.
  apply paced_quiet. intros st. destruct r; cbn; (split; [reflexivity|lia]).
Qed.

Lemma paced_lift {A} (r : result A) : paced 0 (lift r).
Proof. apply paced_quiet. intros st. cbn. split; [reflexivity|lia]. Qed.

Lemma paced_get_driver : paced 0 get_driver.
Proof. apply paced_quiet. intros st. cbn. split; [reflexivity|lia]. Qed.

Lemma paced_time_now : paced 0 time_now.
Proof. apply paced_quiet. intros st. cbn. split; [reflexivity|lia]. Qed.

Lemma paced_log l msg : paced 0 (log (Log l msg)).
Proof. apply paced_quiet. intros st. cbn. split; [reflexivity|lia]. Qed.

Lemma paced_log_attempt n total : paced 0 (log (LogAttempt n total)).
Proof. apply paced_quiet. intros st. cbn. split; [reflexivity|lia]. Qed.

Lemma paced_act w o : paced 0 (act w o).
Proof.
  apply paced_quiet. intros st. unfold act.
  destruct (outcome w (trace st) o); cbn; (split; [reflexivity|lia]).
Qed.

Lemma paced_count_elements w css : paced 0 (count_elements w css).
Proof.
  apply paced_quiet. intros st. unfold count_elements.
  destruct (find_elements w (trace st) css); cbn; (split; [reflexivity|lia]).
Qed.

Lemma paced_run_script w s : paced 0 (run_script w s).
Proof.
  apply paced_quiet. intros st. unfold run_script.
  destruct (execute w (trace st) s); cbn; (split; [reflexivity|lia]).
Qed.

Lemma paced_sleep ms : paced ms (sleep ms).
Proof. intros st. cbn. lia. Qed.

Lemma paced_weaken {A} b b' (m : M A) : (b <= b')%N -> paced b m -> paced b' m.
Proof. intros Hb H st. specialize (H st). lia. Qed.

Lemma paced_bind {A B} b1 b2 (m : M A) (k : A -> M B) :
  paced b1 m -> (forall a, paced b2 (k a)) -> paced (b1 + b2) (bind m k).
Proof.
  intros Hm Hk st. unfold bind. specialize (Hm st).
  destruct (m st) as [[a|e|] s1]; cbn [fst snd] in *; [|lia|lia].
  specialize (Hk a s1). lia.
Qed.

Lemma paced_try_except {A} b1 b2 (m : M A) clauses :
  paced b1 m ->
  Forall (fun ch => forall e, paced b2 (snd ch e)) clauses ->
  paced (b1 + b2) (try_except m clauses).
Proof.
  intros Hm Hh st. unfold try_except. specialize (Hm st).
  destruct (m st) as [[a|e|] s1]; cbn [fst snd] in *; [lia| |lia].
  assert (Hsel : match select_handler clauses e with
                 | Some h => paced b2 h
                 | None => True
                 end).
  { clear -Hh. induction Hh as [|[cls h] rest Hc _ IH]; cbn [select_handler].
    - exact I.
    - destruct (cls e); [apply Hc|exact IH]. }
  destruct (select_handler clauses e) as [h|]; [|cbn [snd]; lia].
  specialize (Hsel s1). lia.
Qed.

Lemma paced_when b ms (m : M unit) : paced ms m -> paced ms (when b m).
Proof.
  intros H. destruct b; cbn [when]; [exact H|].
  apply (paced_weaken 0); [lia|apply paced_ret].
Qed.

(** A polling loop whose body does not sleep: it sleeps a whole number
    of intervals.  A pass is made while the time elapsed is at most the
    limit, so with a limit of [m] intervals the loop pauses [m + 1] times
    at most. *)
Lemma poll_sleeps {A} fuel start m interval (body : M (option A)) :
  (0 < interval)%N ->
  paced 0 body ->
  forall st k,
    (k <= m + 1)%N -> (start + k * interval <= now st)%N ->
    exists j,
      (k + j <= m + 1)%N
      /\ slept (trace (snd (poll fuel start (m * interval) interval body st)))
         = (slept (trace st) + j * interval)%N
      /\ (now st + j * interval
          <= now (snd (poll fuel start (m * interval) interval body st)))%N.
Proof.
  intros Hpos Hbody. induction fuel as [|fuel IH]; intros st k Hk Hstart.
  - exists 0%N. rewrite poll_no_fuel.
    destruct (elapsed_below start (now st) (m * interval)); cbn [snd];
      (split; [lia|]; split; lia).
  - rewrite poll_unfold.
    destruct (elapsed_below start (now st) (m * interval)) eqn:Hguard.
    2:{ exists 0%N. cbn. split; [lia|]. split; lia. }
    apply elapsed_below_true in Hguard.
    assert (Hle : (k <= m)%N).
    { apply (N.mul_le_mono_pos_r _ _ interval); [exact Hpos|]. lia. }
    specialize (Hbody st).
    destruct (body st) as [[[a|]|e|] s1]; cbn [fst snd] in *;
      try (exists 0%N; split; [lia|]; split; lia).
    destruct (IH (emit (Sleep interval) interval s1) (k + 1)%N) as (j & Hj & Hs & Hn).
    + lia.
    + cbn [emit now]. lia.
    + exists (1 + j)%N. cbn [emit now trace slept] in Hs, Hn.
      split; [lia|]. split; [rewrite Hs; lia|lia].
Qed.

Lemma paced_poll {A B} fuel m interval limit b (body : M (option A))
  (k : option A -> M B) :
  (0 < interval)%N -> limit = (m * interval)%N ->
  paced 0 body -> (forall r, paced b (k r)) ->
  paced (limit + interval + b)
    (start <- time_now ;; r <- poll fuel start limit interval body ;; k r).
Proof.
  intros Hpos -> Hbody Hk st. unfold bind at 1, time_now. cbv beta iota.
  destruct (poll_sleeps fuel (now st) m interval body Hpos Hbody st 0%N)
    as (j & Hj & Hs & Hn); [lia|lia|].
  assert (Hji : (j * interval <= (m + 1) * interval)%N)
    by (apply N.mul_le_mono_r; lia).
  rewrite N.mul_add_distr_r, N.mul_1_l in Hji.
  unfold bind.
  destruct (poll fuel (now st) (m * interval) interval body st) as [[r|e|] s1];
    cbn [fst snd] in *; [|lia|lia].
  specialize (Hk r s1). lia.
Qed.

Lemma never_raises_ret {A} (a : A) : never_raises (ret a).
Proof. intros st e. discriminate. Qed.

Lemma never_raises_bind {A B} (m : M A) (k : A -> M B) :
  never_raises m -> (forall a, never_raises (k a)) -> never_raises (bind m k).
Proof.
  intros Hm Hk st e. unfold bind. specialize (Hm st).
  destruct (m st) as [[a|e'|] s1]; cbn [fst] in *.
  - apply Hk.
  - exfalso. now apply (Hm e').
  - discriminate.
Qed.

Lemma never_raises_catch_all {A} (m : M A) (a0 : A) :
  never_raises (try_except m [(is_Exception, fun _ => ret a0)]).
Proof.
  intros st e. unfold try_except. destruct (m st) as [[a|e'|] s1]; discriminate.
Qed.

Lemma never_raises_poll {A} fuel start limit interval (body : M (option A)) :
  never_raises body -> never_raises (poll fuel start limit interval body).
Proof.
  intros Hbody. induction fuel as [|fuel IH]; intros st e.
  { rewrite poll_no_fuel. destruct (elapsed_below start (now st) limit);
      discriminate. }
  rewrite poll_unfold. destruct (elapsed_below start (now st) limit); [|discriminate].
  specialize (Hbody st).
  destruct (body st) as [[[a|]|e'|] s1]; cbn [fst] in *; try discriminate.
  - apply IH.
  - exfalso. now apply (Hbody e').
Qed.

Lemma never_raises_time_now : never_raises time_now.
Proof. intros st e. discriminate. Qed.

Ltac quiet :=
  repeat match goal with
         | |- paced 0 (bind _ _) =>
             apply (paced_bind 0 0); [|intros]
         | |- paced 0 (try_except _ _) => apply (paced_try_except 0 0)
         | |- Forall _ (_ :: _) => apply Forall_cons; [cbn [snd]; intros|]
         | |- Forall _ [] => apply Forall_nil
         | |- paced 0 (ret _) => apply paced_ret
         | |- paced 0 (raise _) => apply paced_raise
         | |- paced 0 (lift _) => apply paced_lift
         | |- paced 0 (of_reply _) => apply paced_of_reply
         | |- paced 0 get_driver => apply paced_get_driver
         | |- paced 0 time_now => apply paced_time_now
         | |- paced 0 (log (Log _ _)) => apply paced_log
         | |- paced 0 (log (LogAttempt _ _)) => apply paced_log_attempt
         | |- paced 0 (act _ _) => apply paced_act
         | |- paced 0 (count_elements _ _) => apply paced_count_elements
         | |- paced 0 (run_script _ _) => apply paced_run_script
         | |- paced 0 (when _ _) => apply paced_when
         | |- paced 0 (if ?b then _ else _) => destruct b
         | |- paced 0 (match ?x with _ => _ end) => destruct x
         end.

Lemma paced_element_poll_body w : paced 0 (element_poll_body w).
Proof. unfold element_poll_body. quiet. Qed.

Lemma paced_loading_check_body w : paced 0 (loading_check_body w).
Proof. unfold loading_check_body. quiet. Qed.

Lemma paced_data_check_body w : paced 0 (data_check_body w).
Proof. unfold data_check_body. quiet. Qed.

Lemma paced_set_auth_cookies_optimized w c url :
  paced 0 (_set_auth_cookies_optimized w c url).
Proof. unfold _set_auth_cookies_optimized. quiet. Qed.

Lemma paced_link_poll_body w : paced 0 (link_poll_body w).
Proof. unfold link_poll_body. quiet. Qed.

Lemma paced_nonblank_text v : paced 0 (nonblank_text v).
Proof. unfold nonblank_text. quiet. Qed.

Lemma paced_text_poll_body w : paced 0 (text_poll_body w).
Proof. unfold text_poll_body. quiet. apply paced_nonblank_text. Qed.

Lemma paced_check_server_error w s : paced 0 (check_server_error w s).
Proof. unfold check_server_error. quiet. Qed.

Lemma paced_send_save_shortcut w c : paced 0 (_send_save_shortcut w c).
Proof. unfold _send_save_shortcut. quiet. Qed.

Lemma paced_read_image_from_clipboard w : paced 0 (_read_image_from_clipboard w).
Proof. unfold _read_image_from_clipboard. quiet. Qed.

Lemma paced_probing fuel w b (gate : M unit) :
  paced b gate -> never_raises gate ->
  paced (2100 + b)
    (log (Log Info "Waiting for chart to be ready...") ;;
     start_time <- time_now ;;
     try_except
       (act w WaitInfrastructure ;;
        element_wait_start <- time_now ;;
        chart_elements_ready <-
          poll fuel element_wait_start 2000 100 (element_poll_body w) ;;
        gate)
       [(is_TimeoutException,
         fun _ =>
           log (Log Warning "Chart elements not found, using minimal fallback...") ;;
           sleep 500)]).
Proof.
  intros Hgate Hnr.
  apply (paced_weaken (0 + (0 + (2100 + b)))); [lia|].
  apply paced_bind; [apply paced_log|intros _].
  apply paced_bind; [apply paced_time_now|intros start_time].
  intros st.
  match goal with
  | |- context [snd (?m st)] => destruct (m st) as [r s'] eqn:Hrun
  end.
  cbn [snd]. unfold try_except in Hrun. unfold bind at 1, act in Hrun.
  set (st1 := emit (Call WaitInfrastructure) _ st) in Hrun.
  assert (Hs1 : slept (trace st1) = slept (trace st)) by reflexivity.
  assert (Hn1 : (now st <= now st1)%N) by (cbn; lia).
  clearbody st1.
  destruct (outcome w (trace st) WaitInfrastructure) as [e|].
  - cbn [select_handler] in Hrun. destruct (is_TimeoutException e).
    + unfold bind, log, sleep in Hrun. injection Hrun as <- <-.
      cbn [emit trace slept now]. lia.
    + injection Hrun as <- <-. lia.
  - set (rest := bind time_now _) in Hrun.
    assert (Hrest : paced (2000 + 100 + b) rest).
    { unfold rest.
      apply (paced_poll fuel 20 100 2000);
        [lia|reflexivity|apply paced_element_poll_body|intros r0].
      exact Hgate. }
    assert (Hrest' : never_raises rest).
    { unfold rest. apply never_raises_bind; [apply never_raises_time_now|intros t].
      apply never_raises_bind.
      { apply never_raises_poll. apply never_raises_catch_all. }
      intros r0. exact Hnr. }
    specialize (Hrest st1). specialize (Hrest' st1). clearbody rest.
    destruct (rest st1) as [[a|e|] s2]; cbn [fst snd] in *.
    + injection Hrun as <- <-. lia.
    + exfalso. now apply (Hrest' e).
    + injection Hrun as <- <-. lia.
Qed.

Lemma paced_wait_for_chart fuel w c : paced (probing_budget c) (wait_for_chart fuel w c).
Proof.
  unfold wait_for_chart, probing_budget. destruct (use_save_shortcut c).
  - apply (paced_probing fuel w 1600).
    + apply (paced_weaken (1500 + 100 + 0)); [lia|].
      apply (paced_poll fuel 15 100 1500);
        [lia|reflexivity|apply paced_loading_check_body|intros r'].
      apply paced_ret.
    + apply never_raises_bind; [apply never_raises_time_now|intros t'].
      apply never_raises_bind;
        [apply never_raises_poll, never_raises_catch_all|intros r'].
      apply never_raises_ret.
  - apply (paced_probing fuel w 2100).
    + apply (paced_weaken (2000 + 100 + 0)); [lia|].
      apply (paced_poll fuel 20 100 2000);
        [lia|reflexivity|apply paced_data_check_body|intros r'].
      apply paced_ret.
    + apply never_raises_bind; [apply never_raises_time_now|intros t'].
      apply never_raises_bind;
        [apply never_raises_poll, never_raises_catch_all|intros r'].
      apply never_raises_ret.
Qed.

Lemma paced_navigate_and_wait fuel w c url :
  paced (probing_budget c) (_navigate_and_wait fuel w c url).
Proof.
  unfold _navigate_and_wait.
  apply (paced_weaken (0 + probing_budget c)); [lia|].
  apply paced_bind; [apply paced_get_driver|intros d].
  destruct (negb d); [apply (paced_weaken 0); [lia|apply paced_raise]|].
  apply (paced_weaken (probing_budget c + 0)); [lia|].
  apply paced_try_except.
  - apply (paced_weaken (0 + probing_budget c)); [lia|].
    apply paced_bind; [apply paced_act|intros _]. apply paced_wait_for_chart.
  - quiet.
Qed.

Lemma paced_link_attempt fuel w : paced 5200 (link_attempt fuel w).
Proof.
  unfold link_attempt.
  apply (paced_weaken (5200 + 0)); [lia|]. apply paced_try_except; [|quiet].
  apply (paced_weaken (0 + 5200)); [lia|].
  apply paced_bind; [apply paced_act|intros _].
  apply (paced_weaken (5000 + 200 + 0)); [lia|].
  apply (paced_poll fuel 25 200 5000);
    [lia|reflexivity|apply paced_link_poll_body|intros polled].
  quiet.
Qed.

(** What [n] attempts sleep at most: [per] each, and [pause] between
    two of them. *)
Lemma attempts_budget_step per pause n :
  (per + (if (n =? 0)%nat then 0 else pause)
   + (N.of_nat n * per + N.of_nat (n - 1) * pause)
   = N.of_nat (S n) * per + N.of_nat (S n - 1) * pause)%N.
Proof. destruct n as [|n]; cbn [Nat.eqb Nat.sub]; lia. Qed.

Lemma paced_link_attempts fuel w remaining :
  paced (N.of_nat remaining * 5200 + N.of_nat (remaining - 1) * 1000)
    (link_attempts fuel w remaining).
Proof.
  induction remaining as [|r IH].
  - cbn [link_attempts]. apply (paced_weaken 0); [lia|]. quiet.
  - rewrite <- (attempts_budget_step 5200 1000 r). cbn [link_attempts].
    set (budget := (N.of_nat r * 5200 + N.of_nat (r - 1) * 1000)%N) in *.
    apply (paced_weaken (0 + (5200 + ((if (r =? 0)%nat then 0 else 1000) + budget))));
      [lia|].
    apply paced_bind; [apply paced_log_attempt|intros _].
    apply paced_bind; [apply paced_link_attempt|intros a].
    destruct a as [s| |].
    + apply (paced_weaken 0); [lia|]. quiet.
    + apply paced_bind; [|intros _; exact IH].
      destruct r as [|r'].
      * unfold MAX_CLIPBOARD_ATTEMPTS. cbn [Nat.sub Nat.ltb Nat.leb when Nat.eqb].
        apply paced_ret.
      * cbn [Nat.eqb]. apply paced_when, paced_sleep.
    + apply (paced_weaken 0); [lia|]. quiet.
Qed.

Lemma paced_trigger_screenshot_and_get_link fuel w :
  paced 30000 (_trigger_screenshot_and_get_link fuel w).
Proof.
  unfold _trigger_screenshot_and_get_link.
  apply (paced_weaken (0 + 30000)); [lia|].
  apply paced_bind; [apply paced_get_driver|intros d].
  destruct (negb d); [apply (paced_weaken 0); [lia|apply paced_raise]|].
  apply (paced_weaken (N.of_nat MAX_CLIPBOARD_ATTEMPTS * 5200
                       + N.of_nat (MAX_CLIPBOARD_ATTEMPTS - 1) * 1000));
    [unfold MAX_CLIPBOARD_ATTEMPTS; cbn; lia|].
  apply paced_link_attempts.
Qed.

(** The alternative shortcuts pause once at most: after the chord that
    was sent. *)
Lemma paced_try_shortcuts w shortcuts : paced 2000 (try_shortcuts w shortcuts).
Proof.
  induction shortcuts as [|sc rest IH]; cbn [try_shortcuts].
  - apply (paced_weaken 0); [lia|apply paced_ret].
  - intros st.
    match goal with
    | |- context [snd (?m st)] => destruct (m st) as [r s'] eqn:Hrun
    end.
    cbn [snd]. unfold bind at 1 in Hrun. unfold try_except at 1 in Hrun.
    unfold bind at 1 in Hrun. unfold act at 1 in Hrun.
    set (st1 := emit (Call (Perform sc)) _ st) in Hrun.
    assert (Hs1 : slept (trace st1) = slept (trace st)) by reflexivity.
    assert (Hn1 : (now st <= now st1)%N) by (cbn; lia).
    clearbody st1.
    destruct (outcome w (trace st) (Perform sc)) as [e|].
    + cbn [select_handler] in Hrun. destruct (is_WebDriverException e).
      * cbn [ret] in Hrun. specialize (IH st1). rewrite Hrun in IH.
        cbn [snd] in IH. lia.
      * injection Hrun as <- <-. lia.
    + unfold bind, sleep, ret in Hrun. injection Hrun as <- <-.
      cbn [emit trace slept now]. lia.
Qed.

Lemma paced_text_attempt fuel w : paced 5100 (text_attempt fuel w).
Proof.
  unfold text_attempt.
  apply (paced_weaken (MAX_CLIPBOARD_WAIT_TIME + 100 + 2000));
    [unfold MAX_CLIPBOARD_WAIT_TIME; lia|].
  apply (paced_poll fuel 30 100 MAX_CLIPBOARD_WAIT_TIME);
    [lia|reflexivity|apply paced_text_poll_body|intros polled].
  apply (paced_weaken (0 + (0 + 2000))); [lia|].
  apply paced_bind; [quiet|intros content].
  apply paced_bind; [apply paced_nonblank_text|intros valid].
  destruct valid as [s|].
  - apply (paced_weaken 0); [lia|]. quiet. apply paced_check_server_error.
  - apply (paced_weaken (0 + (2000 + 0))); [lia|].
    apply paced_bind; [apply paced_log|intros _].
    apply paced_bind; [apply paced_try_shortcuts|intros sent].
    quiet. apply paced_nonblank_text.
Qed.

Lemma paced_image_attempt w : paced 300 (image_attempt w).
Proof.
  unfold image_attempt. apply (paced_weaken (SAVE_SHORTCUT_IMAGE_DELAY + (0 + 0)));
    [unfold SAVE_SHORTCUT_IMAGE_DELAY; lia|].
  apply paced_bind; [apply paced_sleep|intros _].
  apply paced_bind; [apply paced_read_image_from_clipboard|intros data].
  quiet.
Qed.

Lemma paced_clipboard_attempt fuel w c :
  paced (if use_save_shortcut c then 300 else 5100) (clipboard_attempt fuel w c).
Proof.
  unfold clipboard_attempt.
  apply (paced_weaken ((0 + (if use_save_shortcut c then 300 else 5100)) + 0));
    [lia|].
  apply paced_try_except; [|quiet].
  apply paced_bind; [apply paced_send_save_shortcut|intros _].
  destruct (use_save_shortcut c); [apply paced_image_attempt|apply paced_text_attempt].
Qed.

Lemma paced_clipboard_attempts fuel w c remaining :
  paced (N.of_nat remaining * (if use_save_shortcut c then 300 else 5100)
         + N.of_nat (remaining - 1) * (if use_save_shortcut c then 500 else 1000))
    (clipboard_attempts fuel w c remaining).
Proof.
  set (per := if use_save_shortcut c then 300%N else 5100%N).
  set (pause := if use_save_shortcut c then 500%N else 1000%N).
  induction remaining as [|r IH].
  - cbn [clipboard_attempts]. apply (paced_weaken 0); [lia|]. quiet.
  - rewrite <- (attempts_budget_step per pause r). cbn [clipboard_attempts].
    set (budget := (N.of_nat r * per + N.of_nat (r - 1) * pause)%N) in *.
    apply (paced_weaken (0 + (per + ((if (r =? 0)%nat then 0 else pause) + budget))));
      [lia|].
    apply paced_bind; [apply paced_log_attempt|intros _].
    apply paced_bind; [apply paced_clipboard_attempt|intros a].
    assert (Hretry : paced ((if (r =? 0)%nat then 0 else pause) + budget)
                       (when (MAX_CLIPBOARD_ATTEMPTS - S r
                              <? MAX_CLIPBOARD_ATTEMPTS - 1)%nat
                          (sleep (if use_save_shortcut c
                                  then 500%N else CLIPBOARD_RETRY_INTERVAL)) ;;
                        clipboard_attempts fuel w c r)).
    { apply paced_bind; [|intros _; exact IH].
      destruct r as [|r'].
      - unfold MAX_CLIPBOARD_ATTEMPTS. cbn [Nat.sub Nat.ltb Nat.leb when Nat.eqb].
        apply paced_ret.
      - cbn [Nat.eqb]. apply paced_when. unfold pause, CLIPBOARD_RETRY_INTERVAL.
        destruct (use_save_shortcut c); apply paced_sleep. }
    destruct a as [s| |]; [|exact Hretry|exact Hretry].
    apply (paced_weaken 0); [lia|]. apply paced_ret.
Qed.

Lemma paced_get_clipboard_content fuel w c :
  paced (clipboard_budget c) (_get_clipboard_content fuel w c).
Proof.
  unfold _get_clipboard_content.
  apply (paced_weaken (0 + clipboard_budget c)); [lia|].
  apply paced_bind; [apply paced_get_driver|intros d].
  destruct (negb d); [apply (paced_weaken 0); [lia|apply paced_raise]|].
  eapply paced_weaken; [|apply paced_clipboard_attempts].
  unfold clipboard_budget, MAX_CLIPBOARD_ATTEMPTS.
  destruct (use_save_shortcut c); cbn; lia.
Qed.

(** X17.  The time a capture spends in [time.sleep] is bounded, whatever
    the browser does and however long its answers take.  A polling loop
    tests its limit at the head of a pass, and the floats may still let a
    pass in when the limit has just been reached, so a loop with limit
    [l] and pause [p] sleeps for [l + p] at most.
    [get_screenshot_link] sleeps for at most the readiness probing (2.1 s
    for the element poll and 1.6 s or 2.1 s for the gate) and 30 s in the
    link loop (five polls of 5.2 s and four pauses of 1 s).
    [get_chart_image_url] sleeps for at most the readiness probing, the
    0.3 s after clearing the clipboard, and 3.5 s with the save shortcut
    (five delays of 0.3 s, four pauses of 0.5 s) or 29.5 s with the
    traditional one (five times a poll of 3.1 s and the 2 s after an
    alternative shortcut, four pauses of 1 s). *)
Theorem capture_sleep_budget fuel w c ticker interval st :
  (slept (trace (snd (get_screenshot_link fuel w c ticker interval st)))
   <= slept (trace st) + (if use_save_shortcut c then 3700 else 4200) + 30000)%N
  /\ (slept (trace (snd (get_chart_image_url fuel w c ticker interval st)))
      <= slept (trace st) + (if use_save_shortcut c then 3700 else 4200) + 300
         + (if use_save_shortcut c then 3500 else 29500))%N.
Proof.
  fold (probing_budget c). fold (clipboard_budget c). split.
  - assert (H : paced (probing_budget c + 30000)
                  (get_screenshot_link fuel w c ticker interval)).
    { unfold get_screenshot_link.
      apply (paced_weaken (0 + ((0 + (0 + (probing_budget c + 30000))) + 0)));
        [lia|].
      apply paced_bind; [apply paced_get_driver|intros d].
      destruct (negb d); [apply (paced_weaken 0); [lia|apply paced_raise]|].
      destruct (negb (truthy ticker) || negb (truthy interval));
        [apply (paced_weaken 0); [lia|apply paced_raise]|].
      apply paced_try_except; [|quiet].
      apply paced_bind; [apply paced_set_auth_cookies_optimized|intros a].
      apply paced_bind; [quiet|intros _].
      apply paced_bind; [apply paced_navigate_and_wait|intros _].
      apply paced_trigger_screenshot_and_get_link. }
    specialize (H st). lia.
  - assert (H : paced (probing_budget c + 300 + clipboard_budget c)
                  (get_chart_image_url fuel w c ticker interval)).
    { unfold get_chart_image_url, chart_image_steps.
      apply (paced_weaken
               (0 + (0 + ((0 + (0 + (probing_budget c
                                      + ((300 + 0) + (clipboard_budget c + (0 + 0))))))
                          + 0))));
        [lia|].
      apply paced_bind; [apply paced_log|intros _].
      apply paced_bind; [apply paced_get_driver|intros d].
      destruct (negb d); [apply (paced_weaken 0); [lia|apply paced_raise]|].
      destruct (negb (truthy ticker) || negb (truthy interval));
        [apply (paced_weaken 0); [lia|apply paced_raise]|].
      apply paced_try_except; [|quiet].
      apply paced_bind; [apply paced_set_auth_cookies_optimized|intros a].
      apply paced_bind; [quiet|intros _].
      apply paced_bind; [apply paced_navigate_and_wait|intros _].
      apply paced_bind.
      { apply paced_try_except; [|quiet].
        apply (paced_weaken (0 + ACTION_DELAY)); [unfold ACTION_DELAY; lia|].
        apply paced_bind; [apply paced_run_script|intros _]. apply paced_sleep. }
      intros _.
      apply paced_bind; [apply paced_get_clipboard_content|intros url].
      apply paced_bind; [|intros _; apply paced_ret].
      destruct (truthy url && _); apply paced_log. }
    specialize (H st). lia.
Qed.

(** In the idle browser every loop runs to its limit.  Started with the
    clock at 0, no loop is let in again at its limit and the pauses add
    up to 33 s; started with the clock at 0.85 s, the floats let in one
    more pass five times. *)
Lemma capture_sleep_budget_is_approached :
  slept (trace (snd (get_screenshot_link 31 idle_world linux_link_config
                       "BYBIT:BTCUSDT.P" "15" ready_state)))
  = 33000%N
  /\ slept (trace (snd (get_screenshot_link 31 idle_world linux_link_config
                          "BYBIT:BTCUSDT.P" "15"
                          {| driver := true; now := 850; trace := [] |})))
     = 33500%N.
Proof. vm_compute. split; reflexivity. Qed.

End SleepBudget.

(** ** Finding the ChromeDriver executable *)

Section InstallProperties.
Import PyStr Py Install.

Lemma first_executable_spec h paths hist :
  exists found hist',
    first_executable h paths hist = (Returns found, hist')
    /\ (forall path, found = Some path ->
                     In path paths
                     /\ exists probed_at, executable h probed_at path = true)
    /\ installs hist' = installs hist
    /\ cache_probed hist' = cache_probed hist.
Proof.
  revert hist. induction paths as [|p rest IH]; intros hist; cbn [first_executable].
  - exists None, hist. split; [reflexivity|]. split; [discriminate|]. auto.
  - unfold hbind, probe_executable. destruct (executable h hist p) eqn:Hx.
    + exists (Some p), (ProbeExecutable p :: hist). split; [reflexivity|].
      split; [|auto]. intros path [= <-]. split; [now left|eauto].
    + destruct (IH (ProbeExecutable p :: hist)) as (found & hist' & Hrun & Hin & Hi & Hc).
      exists found, hist'. rewrite Hrun. split; [reflexivity|].
      split; [|auto]. intros path Hp. destruct (Hin path Hp) as [H1 H2].
      split; [now right|exact H2].
Qed.

Lemma clear_cache_on_windows h hist :
  system h = "Windows" ->
  exists hist',
    _clear_chromedriver_cache h hist = (Returns tt, hist')
    /\ installs hist' = installs hist
    /\ cache_probed hist' = true
    /\ probed hist' = probed hist.
Proof.
  intros Hsys. unfold _clear_chromedriver_cache. rewrite Hsys. cbn [String.eqb].
  change (String.eqb "Windows" "Windows") with true. cbv iota.
  destruct (cache_exists h hist).
  - destruct (rmtree h (ProbeCache :: hist)); eexists; repeat split; reflexivity.
  - eexists; repeat split; reflexivity.
Qed.

(** X18.  [_get_chromedriver_path] lets nothing out but its own
    [TradingViewScraperError].  Off Windows it asks the driver manager
    once and returns the path it got as it is, without looking at the
    file system. *)
Theorem chromedriver_path_outcome h hist :
  let run := _get_chromedriver_path h hist in
  (forall e, fst run = Raises e -> e = PATH_FAILED)
  /\ (system h <> "Windows" ->
      run = (match install h hist with
             | Returns path => Returns path
             | Raises _ => Raises PATH_FAILED
             end, InstallDriver :: hist)).
Proof.
  cbv zeta. split.
  - intros e. unfold _get_chromedriver_path.
    destruct (search_chromedriver h hist) as [[path|e'] hist']; cbn [fst].
    + discriminate.
    + intros [= <-]. reflexivity.
  - intros Hsys. apply String.eqb_neq in Hsys.
    unfold _get_chromedriver_path, search_chromedriver, hbind, install_driver.
    rewrite Hsys. destruct (install h hist); reflexivity.
Qed.

(** X19.  [_get_chromedriver_path] on Windows.  The path it returns is
    one of the three candidates next to the first download, found
    executable, or the [chromedriver] of the search path; the path the
    driver manager gave is not returned as such.  When that first path
    does end in [.exe], no candidate is probed: the cache directory is
    dealt with, the driver is installed a second time, and only the
    search path can give the result. *)
Theorem chromedriver_path_on_windows h hist :
  system h = "Windows" ->
  let run := _get_chromedriver_path h hist in
  match fst run with
  | Returns path =>
      (exists first,
         install h hist = Returns first
         /\ endswith first ".exe" = false
         /\ In path (possible_paths h (dirname h first))
         /\ exists probed_at, executable h probed_at path = true)
      \/ (installs (snd run) = installs hist + 2
          /\ cache_probed (snd run) = true
          /\ exists hist', which h hist' = Some path)
  | Raises e => e = PATH_FAILED
  end
  /\ (forall first,
        install h hist = Returns first ->
        endswith first ".exe" = true ->
        installs (snd run) = installs hist + 2
        /\ cache_probed (snd run) = true
        /\ probed (snd run) = probed hist
        /\ forall path, fst run = Returns path ->
                        exists hist', which h hist' = Some path).
Proof.
  intros Hsys run. subst run.
  destruct (_get_chromedriver_path h hist) as [r final] eqn:Hrun. cbn [fst snd].
  unfold _get_chromedriver_path, search_chromedriver in Hrun.
  unfold hbind at 1 in Hrun. unfold install_driver at 1 in Hrun.
  rewrite Hsys in Hrun. change (String.eqb "Windows" "Windows") with true in Hrun.
  cbv iota in Hrun.
  destruct (install h hist) as [first|e1] eqn:Hfirst.
  2:{ injection Hrun as <- <-. split; [reflexivity|]. intros first [=]. }
  cbv zeta in Hrun.
  destruct (endswith first ".exe") eqn:Hexe; cbn [negb] in Hrun.
  - (* the first path is an executable *)
    unfold hbind at 1 in Hrun. cbn [hret] in Hrun.
    destruct (clear_cache_on_windows h (InstallDriver :: hist) Hsys)
      as (h1 & Hclear & Hi1 & Hc1 & Hp1).
    unfold hbind at 1 in Hrun. rewrite Hclear in Hrun.
    unfold hbind at 1 in Hrun. unfold install_driver at 1 in Hrun.
    destruct (install h h1) as [second|e2].
    2:{ injection Hrun as <- <-. cbn [installs cache_probed probed fst snd].
        cbn [installs] in Hi1. cbn [probed] in Hp1.
        split; [reflexivity|]. intros first' _ _.
        split; [lia|]. split; [exact Hc1|]. split; [exact Hp1|]. discriminate. }
    destruct (endswith second ".exe"); cbn [negb] in Hrun.
    2:{ unfold hbind, hraise in Hrun. injection Hrun as <- <-.
        cbn [installs cache_probed probed fst snd].
        cbn [installs] in Hi1. cbn [probed] in Hp1.
        split; [reflexivity|]. intros first' _ _.
        split; [lia|]. split; [exact Hc1|]. split; [exact Hp1|]. discriminate. }
    unfold hbind, hret, find_on_path, hraise in Hrun.
    cbn [installs] in Hi1. cbn [probed] in Hp1.
    destruct (which h (InstallDriver :: h1)) as [sys|] eqn:Hwhich.
    + destruct (truthy sys).
      * injection Hrun as <- <-. cbn [installs cache_probed probed fst snd].
        split.
        -- right. split; [lia|]. split; [exact Hc1|]. eauto.
        -- intros first' _ _. split; [lia|]. split; [exact Hc1|].
           split; [exact Hp1|]. intros path [= <-]. eauto.
      * injection Hrun as <- <-. cbn [installs cache_probed probed fst snd].
        split; [reflexivity|]. intros first' _ _.
        split; [lia|]. split; [exact Hc1|]. split; [exact Hp1|]. discriminate.
    + injection Hrun as <- <-. cbn [installs cache_probed probed fst snd].
      split; [reflexivity|]. intros first' _ _.
      split; [lia|]. split; [exact Hc1|]. split; [exact Hp1|]. discriminate.
  - (* the first path is not: the candidates are probed *)
    destruct (first_executable_spec h (possible_paths h (dirname h first))
                (InstallDriver :: hist)) as (found1 & h1 & Hprobe1 & Hin1 & Hi1 & Hc1).
    unfold hbind at 1 in Hrun. rewrite Hprobe1 in Hrun.
    destruct found1 as [path1|].
    { cbn [hret] in Hrun. injection Hrun as <- <-. split.
      - left. exists first. destruct (Hin1 _ eq_refl) as [Hcand Hexec]. auto.
      - intros first' Hf He. injection Hf as <-. congruence. }
    destruct (clear_cache_on_windows h h1 Hsys) as (h2 & Hclear & Hi2 & Hc2 & Hp2).
    unfold hbind at 1 in Hrun. rewrite Hclear in Hrun.
    unfold hbind at 1 in Hrun. unfold install_driver at 1 in Hrun.
    cbn [installs] in Hi1.
    destruct (install h h2) as [second|e2].
    2:{ injection Hrun as <- <-. split; [reflexivity|].
        intros first' Hf He. injection Hf as <-. congruence. }
    assert (Hround2 : exists found2 h3,
               (if negb (endswith second ".exe")
                then first_executable h (possible_paths h (dirname h first))
                else hret None) (InstallDriver :: h2) = (Returns found2, h3)
               /\ (forall path, found2 = Some path ->
                                In path (possible_paths h (dirname h first))
                                /\ exists probed_at,
                                     executable h probed_at path = true)
               /\ installs h3 = S (installs h2)
               /\ cache_probed h3 = true).
    { destruct (endswith second ".exe"); cbn [negb].
      - exists None, (InstallDriver :: h2). cbn [installs cache_probed hret].
        split; [reflexivity|]. split; [discriminate|]. auto.
      - destruct (first_executable_spec h (possible_paths h (dirname h first))
                    (InstallDriver :: h2)) as (f & h3 & Hr & Hin & Hi & Hc).
        exists f, h3. cbn [installs cache_probed] in Hi, Hc.
        split; [exact Hr|]. split; [exact Hin|]. split; [exact Hi|].
        rewrite Hc. exact Hc2. }
    destruct Hround2 as (found2 & h3 & Hprobe2 & Hin2 & Hi3 & Hc3).
    unfold hbind at 1 in Hrun. rewrite Hprobe2 in Hrun.
    destruct found2 as [path2|].
    { cbn [hret] in Hrun. injection Hrun as <- <-. split.
      - left. exists first. destruct (Hin2 _ eq_refl) as [Hcand Hexec]. auto.
      - intros first' Hf He. injection Hf as <-. congruence. }
    unfold hbind, find_on_path, hret, hraise in Hrun.
    destruct (which h h3) as [sys|] eqn:Hwhich.
    + destruct (truthy sys).
      * injection Hrun as <- <-. cbn [installs cache_probed fst snd]. split.
        -- right. split; [lia|]. split; [exact Hc3|]. eauto.
        -- intros first' Hf He. injection Hf as <-. congruence.
      * injection Hrun as <- <-. split; [reflexivity|].
        intros first' Hf He. injection Hf as <-. congruence.
    + injection Hrun as <- <-. split; [reflexivity|].
      intros first' Hf He. injection Hf as <-. congruence.
Qed.

Lemma chromedriver_path_on_windows_witness :
  let run := _get_chromedriver_path windows_host [] in
  match fst run with
  | Returns path =>
      (exists first,
         install windows_host [] = Returns first
         /\ endswith first ".exe" = false
         /\ In path (possible_paths windows_host (dirname windows_host first))
         /\ exists probed_at, executable windows_host probed_at path = true)
      \/ (installs (snd run) = installs [] + 2
          /\ cache_probed (snd run) = true
          /\ exists hist', which windows_host hist' = Some path)
  | Raises e => e = PATH_FAILED
  end
  /\ (forall first,
        install windows_host [] = Returns first ->
        endswith first ".exe" = true ->
        installs (snd run) = installs [] + 2
        /\ cache_probed (snd run) = true
        /\ probed (snd run) = probed []
        /\ forall path, fst run = Returns path ->
                        exists hist', which windows_host hist' = Some path).
Proof.
  apply chromedriver_path_on_windows. reflexivity.
Defined.

(** On a Windows host where the driver manager does its work and no
    [chromedriver] is on the search path, the path is not found. *)
Lemma chromedriver_path_on_windows_host :
  _get_chromedriver_path windows_host []
  = (Raises PATH_FAILED, [Which; InstallDriver; RemoveCache; ProbeCache; InstallDriver]).
Proof. vm_compute. reflexivity. Qed.

Lemma chromedriver_path_on_linux_host :
  _get_chromedriver_path linux_host []
  = (Returns "/root/.wdm/chromedriver", [InstallDriver]).
Proof. vm_compute. reflexivity. Qed.

End InstallProperties.

(** ** The text read after an alternative shortcut *)

Section AlternativeShortcutText.
Import PyStr Py Scraper Observe Main Prompts Behaviour.
Open Scope py_scope.

Lemma text_poll_body_empty_steady w s :
  empty_for_text (execute w (trace s) ReadText) = true ->
  exists s', text_poll_body w s = (Ok None, s')
             /\ kept s s'
             /\ chords_of CtrlAltS (trace s') = chords_of CtrlAltS (trace s).
Proof.
  intros He. unfold text_poll_body, try_except, bind, run_script, of_reply.
  unfold empty_for_text in He.
  destruct (execute w (trace s) ReadText) as [v|e].
  - rewrite (nonblank_text_empty v _ He).
    eexists. split; [reflexivity|]. split; [apply kept_call|reflexivity].
  - cbn [select_handler]. rewrite He. cbn [ret].
    eexists. split; [reflexivity|]. split; [apply kept_call|reflexivity].
Qed.

Lemma final_read_empty_steady w s msg :
  empty_for_text (execute w (trace s) ReadText) = true ->
  exists v s',
    try_except (run_script w ReadText)
      [(is_WebDriverException, fun _ => log (Log Warning msg) ;; ret JsNull)] s
    = (Ok v, s')
    /\ (kept s s'
        /\ chords_of CtrlAltS (trace s') = chords_of CtrlAltS (trace s))
    /\ forall st, nonblank_text v st = (Ok None, st).
Proof.
  intros He. unfold try_except, run_script, of_reply. unfold empty_for_text in He.
  destruct (execute w (trace s) ReadText) as [v|e].
  - exists v. eexists. split; [reflexivity|].
    split; [split; [apply kept_call|reflexivity]|].
    intros st. now apply nonblank_text_empty.
  - cbn [select_handler]. rewrite He. cbn [bind log ret].
    exists JsNull. eexists. split; [reflexivity|].
    split; [split; [eapply kept_trans; [apply kept_call|apply kept_log]|reflexivity]|].
    intros st. reflexivity.
Qed.

(** One pass of the traditional capture in which the clipboard is empty
    until Ctrl+Alt+S is sent and holds [payload] afterwards. *)
Lemma clipboard_attempt_alternative fuel w c s payload :
  (ENOUGH_FUEL <= fuel)%nat ->
  driver s = true ->
  use_save_shortcut c = false ->
  truthy (strip payload) = true ->
  (forall h, attempts_of h = attempts_of (trace s) ->
             outcome w h (Perform (save_chord c)) = None
             /\ outcome w h (Perform CtrlAltS) = None) ->
  (forall h, attempts_of h = attempts_of (trace s) ->
             chords_of CtrlAltS h = chords_of CtrlAltS (trace s) ->
             empty_for_text (execute w h ReadText) = true) ->
  (forall h, attempts_of h = attempts_of (trace s) ->
             chords_of CtrlAltS h = S (chords_of CtrlAltS (trace s)) ->
             execute w h ReadText = Returns (JsStr payload)) ->
  exists s', clipboard_attempt fuel w c s = (Ok (Return payload), s') /\ kept s s'.
Proof.
  intros Hfuel Hd Hmode Htext Hc He Hp. unfold clipboard_attempt, try_except.
  destruct (Hc _ eq_refl) as [Hsent _].
  destruct (send_save_shortcut_run w c s Hd) as (s1 & K1 & Hsend).
  { rewrite Hsent. reflexivity. }
  destruct Hsend as [(Hrun & _ & Hs1) | (e' & Hrun & _)].
  2:{ rewrite (send_save_shortcut_unfold w c s Hd) in Hrun.
      unfold try_except, act in Hrun. rewrite Hsent in Hrun. discriminate. }
  unfold bind at 1. rewrite Hrun. rewrite Hmode.
  assert (C1 : chords_of CtrlAltS (trace s1) = chords_of CtrlAltS (trace s)).
  { rewrite Hs1. cbn [emit trace chords_of].
    unfold save_chord. destruct (String.eqb (platform_system c) "Darwin"); reflexivity. }
  clear Hs1 Hrun.
  unfold text_attempt. unfold bind at 1, time_now.
  destruct (poll_all_none (fun x => kept s x
                                    /\ chords_of CtrlAltS (trace x)
                                       = chords_of CtrlAltS (trace s))
              fuel MAX_CLIPBOARD_WAIT_TIME 100 (text_poll_body w) s1)
    as (s2 & Hpoll & [K2 C2] & _).
  - reflexivity.
  - unfold ENOUGH_FUEL in Hfuel. lia.
  - unfold ENOUGH_FUEL, MAX_CLIPBOARD_WAIT_TIME in *. lia.
  - intros x [Kx Cx].
    destruct (text_poll_body_empty_steady w x) as (x' & Hx & Kx' & Cx').
    { apply He; [destruct Kx as (_ & Ha & _); exact Ha|exact Cx]. }
    exists x'. split; [exact Hx|]. split.
    + split; [eapply kept_trans; eauto|congruence].
    + destruct Kx' as (_ & _ & Hn). exact Hn.
  - intros x [Kx Cx]. split; [eapply kept_trans; [exact Kx|apply kept_sleep]|exact Cx].
  - split; [exact K1|exact C1].
  - unfold bind at 1. rewrite Hpoll.
    destruct (final_read_empty_steady w s2 "Failed to read text from clipboard")
      as (v & s3 & Hread & [K3 C3] & Hblank).
    { apply He; [destruct K2 as (_ & Ha & _); exact Ha|exact C2]. }
    unfold bind at 1. rewrite Hread.
    unfold bind at 1. rewrite Hblank.
    unfold bind at 1. unfold log at 1.
    set (s4 := emit (Log Info "No content found, trying alternative shortcuts...") 0 s3).
    assert (K4 : kept s s4).
    { eapply kept_trans; [exact K2|]. eapply kept_trans; [exact K3|apply kept_log]. }
    assert (C4 : chords_of CtrlAltS (trace s4) = chords_of CtrlAltS (trace s))
      by (cbn [s4 emit trace chords_of]; congruence).
    clearbody s4.
    unfold _try_alternative_shortcuts. cbn [try_shortcuts].
    unfold bind at 1. unfold bind at 1. unfold try_except at 1.
    unfold bind at 1. unfold act at 1.
    destruct (Hc (trace s4)) as [_ Halt].
    { destruct K4 as (_ & Ha & _). exact Ha. }
    rewrite Halt. unfold bind at 1. unfold sleep at 1. cbn [ret].
    set (s5 := emit (Sleep 2000) 2000 _).
    assert (K5 : kept s s5).
    { eapply kept_trans; [exact K4|]. eapply kept_trans; [apply kept_call|].
      apply kept_sleep. }
    assert (C5 : chords_of CtrlAltS (trace s5) = S (chords_of CtrlAltS (trace s)))
      by (cbn [s5 emit trace chords_of]; rewrite C4; reflexivity).
    clearbody s5. cbv beta iota.
    unfold try_except at 1. unfold bind at 1. unfold run_script at 1.
    rewrite (Hp (trace s5)); [|destruct K5 as (_ & Ha & _); exact Ha|exact C5].
    cbn [of_reply]. unfold bind at 1.
    rewrite (nonblank_text_valid payload _ Htext). cbn [ret].
    eexists. split; [reflexivity|].
    eapply kept_trans; [exact K5|apply kept_call].
Qed.

(** X20.  The traditional capture checks the clipboard text for a
    retryable server error only where it reads it before the alternative
    shortcuts.  When the clipboard is empty until Ctrl+Alt+S is sent and
    holds a text afterwards, [_get_clipboard_content] returns this text
    after one attempt as it is, whatever it holds, a retryable server
    error included. *)
Theorem text_after_alternative_shortcut_is_returned fuel w c st payload :
  (ENOUGH_FUEL <= fuel)%nat ->
  driver st = true ->
  use_save_shortcut c = false ->
  truthy (strip payload) = true ->
  (forall h, attempts_of h = (attempts_of (trace st) + 1)%nat ->
             outcome w h (Perform (save_chord c)) = None
             /\ outcome w h (Perform CtrlAltS) = None) ->
  (forall h, attempts_of h = (attempts_of (trace st) + 1)%nat ->
             chords_of CtrlAltS h = chords_of CtrlAltS (trace st) ->
             empty_for_text (execute w h ReadText) = true) ->
  (forall h, attempts_of h = (attempts_of (trace st) + 1)%nat ->
             chords_of CtrlAltS h = S (chords_of CtrlAltS (trace st)) ->
             execute w h ReadText = Returns (JsStr payload)) ->
  let run := _get_clipboard_content fuel w c st in
  fst run = Ok payload
  /\ attempts_of (trace (snd run)) = (attempts_of (trace st) + 1)%nat.
Proof.
  intros Hfuel Hd Hmode Htext Hc He Hp run. subst run.
  assert (Hrun : exists st',
             _get_clipboard_content fuel w c st = (Ok payload, st')
             /\ attempts_of (trace st') = (attempts_of (trace st) + 1)%nat).
  { rewrite (get_clipboard_content_unfold _ _ _ _ Hd).
    unfold MAX_CLIPBOARD_ATTEMPTS. cbn [clipboard_attempts].
    unfold bind at 1. unfold log at 1.
    set (st0 := emit (LogAttempt _ _) 0 st).
    assert (Ha0 : attempts_of (trace st0) = S (attempts_of (trace st)))
      by reflexivity.
    assert (Hc0 : chords_of CtrlAltS (trace st0) = chords_of CtrlAltS (trace st))
      by reflexivity.
    assert (Hd0 : driver st0 = true) by exact Hd.
    clearbody st0.
    destruct (clipboard_attempt_alternative fuel w c st0 payload Hfuel Hd0 Hmode Htext)
      as (st1 & Hrun & K1).
    - intros h Hh. apply Hc. lia.
    - intros h Hh Hch. apply He; [lia|congruence].
    - intros h Hh Hch. apply Hp; [lia|congruence].
    - unfold bind at 1. rewrite Hrun. cbn [ret].
      exists st1. split; [reflexivity|]. destruct K1 as (_ & Ha1 & _). lia. }
  destruct Hrun as (st' & -> & Ha). cbn [fst snd]. auto.
Qed.

Lemma text_after_alternative_shortcut_is_returned_witness :
  let run := _get_clipboard_content 31 (alt_shortcut_world SERVER_ERROR_PAYLOAD)
               linux_link_config ready_state in
  fst run = Ok SERVER_ERROR_PAYLOAD
  /\ attempts_of (trace (snd run)) = (attempts_of (trace ready_state) + 1)%nat.
Proof.
  apply (text_after_alternative_shortcut_is_returned 31
           (alt_shortcut_world SERVER_ERROR_PAYLOAD) linux_link_config ready_state
           SERVER_ERROR_PAYLOAD).
  - unfold ENOUGH_FUEL. lia.
  - reflexivity.
  - reflexivity.
  - reflexivity.
  - intros h _. split; reflexivity.
  - intros h _ Hch. cbn in Hch. cbn. rewrite Hch. reflexivity.
  - intros h _ Hch. cbn in Hch. cbn. rewrite Hch. reflexivity.
Defined.

(** The payload returned in the example is one the check before the
    alternative shortcuts would have retried. *)
Lemma unchecked_payload_is_retryable :
  clipboard_server_error (alt_shortcut_world SERVER_ERROR_PAYLOAD)
    SERVER_ERROR_PAYLOAD = true.
Proof. reflexivity. Qed.

End AlternativeShortcutText.

(** ** Capture Strategy: a payload that arrives during an attempt, and
    content that is not retried *)

Section LatePayload.
Import PyStr Py Scraper Observe Behaviour.
Open Scope py_scope.

(** A pass of the text polling loop over an empty clipboard, with the
    state it leaves. *)
Lemma text_poll_body_empty_at w s :
  empty_for_text (execute w (trace s) ReadText) = true ->
  text_poll_body w s
  = (Ok None,
     emit (Call (Execute ReadText)) (latency w (trace s) (Execute ReadText)) s).
Proof.
  intros He. unfold text_poll_body, try_except, bind, run_script, of_reply.
  unfold empty_for_text in He.
  destruct (execute w (trace s) ReadText) as [v|e].
  - rewrite (nonblank_text_empty v _ He). reflexivity.
  - cbn [select_handler]. rewrite He. reflexivity.
Qed.

(** The text branch when the first read of the attempt is empty and the
    second one, made by the polling loop or after it, finds [text]: up
    to the server error check. *)
Lemma text_attempt_reads_late fuel w s text :
  (2 <= fuel)%nat ->
  empty_for_text (execute w (trace s) ReadText) = true ->
  (forall h, attempts_of h = attempts_of (trace s) ->
             reads_in_attempt h = S (reads_in_attempt (trace s)) ->
             execute w h ReadText = Returns (JsStr text)) ->
  truthy (strip text) = true ->
  exists s1,
    kept s s1
    /\ text_attempt fuel w s
       = (check_server_error w text ;;
          log (Log Info "Successfully retrieved text content from clipboard.") ;;
          ret (Return text)) s1.
Proof.
  intros Hfuel He Hlate Htext.
  destruct fuel as [|[|fuel]]; [lia|lia|].
  unfold text_attempt. unfold bind at 1, time_now. cbv beta iota.
  unfold bind at 1.
  rewrite poll_unfold, elapsed_below_start by reflexivity.
  rewrite (text_poll_body_empty_at w s He).
  set (s1 := emit (Call (Execute ReadText)) (latency w (trace s) (Execute ReadText)) s).
  set (s2 := emit (Sleep 100) 100 s1).
  assert (K2 : kept s s2).
  { eapply kept_trans; [apply kept_call|apply kept_sleep]. }
  assert (Hread : execute w (trace s2) ReadText = Returns (JsStr text)).
  { apply Hlate; reflexivity. }
  exists (emit (Call (Execute ReadText)) (latency w (trace s2) (Execute ReadText)) s2).
  split; [eapply kept_trans; [exact K2|apply kept_call]|].
  clearbody s2. clear s1.
  rewrite poll_unfold.
  destruct (elapsed_below (now s) (now s2) MAX_CLIPBOARD_WAIT_TIME).
  - rewrite (text_poll_body_reads w s2 text Hread Htext).
    cbv beta iota. unfold bind at 1. cbn [ret].
    unfold bind at 1. rewrite (nonblank_text_valid _ _ Htext).
    reflexivity.
  - cbv beta iota. unfold bind at 1.
    unfold try_except at 1, run_script at 1, of_reply. rewrite Hread.
    unfold bind at 1. rewrite (nonblank_text_valid _ _ Htext).
    reflexivity.
Qed.

(** One pass of the loop of [_get_clipboard_content] in which the
    payload reaches the text clipboard after the first read. *)
Lemma clipboard_attempt_late fuel w c s url :
  (2 <= fuel)%nat -> driver s = true ->
  reads_in_attempt (trace s) = 0%nat ->
  (forall h, attempts_of h = attempts_of (trace s) ->
             clipboard_arrives_at w c h 1 url) ->
  exists s', clipboard_attempt fuel w c s = (Ok (Return url), s') /\ kept s s'.
Proof.
  intros Hfuel Hd Hfresh Hv. unfold clipboard_attempt, try_except.
  pose proof (Hv _ eq_refl) as H0. unfold clipboard_arrives_at in H0.
  rewrite Hfresh in H0. cbn [Nat.ltb Nat.leb] in H0.
  destruct H0 as (Hsent & Hmode & _).
  destruct (send_save_shortcut_run w c s Hd) as (s1 & K1 & Hsend).
  { rewrite Hsent. reflexivity. }
  destruct Hsend as [(Hrun & _ & Hs1) | (e & Hrun & _)].
  2:{ rewrite (send_save_shortcut_unfold w c s Hd) in Hrun.
      unfold try_except, act in Hrun. rewrite Hsent in Hrun. discriminate. }
  unfold bind at 1. rewrite Hrun. rewrite Hmode.
  assert (Ha1 : attempts_of (trace s1) = attempts_of (trace s))
    by (destruct K1 as (_ & H & _); exact H).
  assert (Hf1 : reads_in_attempt (trace s1) = 0%nat).
  { rewrite Hs1. cbn [emit trace reads_in_attempt]. exact Hfresh. }
  pose proof (Hv _ Ha1) as H1. unfold clipboard_arrives_at in H1.
  rewrite Hf1 in H1. cbn [Nat.ltb Nat.leb] in H1.
  destruct H1 as (_ & _ & Hempty).
  assert (Hafter : forall h, attempts_of h = attempts_of (trace s1) ->
                             reads_in_attempt h = S (reads_in_attempt (trace s1)) ->
                             execute w h ReadText = Returns (JsStr url)
                             /\ truthy (strip url) = true
                             /\ clipboard_text_passes w url = true).
  { intros h Hh Hr. pose proof (Hv h ltac:(congruence)) as Hx.
    unfold clipboard_arrives_at in Hx. rewrite Hr, Hf1 in Hx.
    cbn [Nat.ltb Nat.leb] in Hx. destruct Hx as [_ Hx].
    rewrite Hmode in Hx. exact Hx. }
  destruct (Hafter (Call (Execute ReadText) :: trace s1)) as (_ & Htext & Hok);
    [reflexivity|reflexivity|].
  destruct (text_attempt_reads_late fuel w s1 url Hfuel Hempty) as (s2 & K2 & ->);
    [intros h Hh Hr; now apply Hafter|exact Htext|].
  unfold bind at 1. rewrite (check_server_error_passes _ _ _ Hok).
  cbn [bind log ret].
  eexists. split; [reflexivity|].
  eapply kept_trans; [exact K1|]. eapply kept_trans; [exact K2|apply kept_log].
Qed.

(** One pass of the loop in which a retryable server error reaches the
    text clipboard at the first or the second read asks for the next
    attempt. *)
Lemma clipboard_attempt_server_error_late fuel w c s late payload :
  (2 <= fuel)%nat -> driver s = true -> use_save_shortcut c = false ->
  reads_in_attempt (trace s) = 0%nat -> (late <= 1)%nat ->
  (forall h, attempts_of h = attempts_of (trace s) ->
             server_error_arrives_at w h late payload) ->
  exists s', clipboard_attempt fuel w c s = (Ok Retry, s') /\ kept s s'.
Proof.
  intros Hfuel Hd Hmode Hfresh Hlate Hv.
  destruct late as [|[|late]]; [| |lia].
  - (* the payload is there from the first read on *)
    apply (clipboard_attempt_server_error fuel w c s payload);
      [lia|exact Hd|exact Hmode|].
    intros h Hh. destruct (Hv h Hh) as (Hc & Ht & Herr & Hr).
    unfold text_arrives_at in Hr. cbn [Nat.ltb Nat.leb] in Hr.
    repeat split; auto.
  - (* the first read is empty *)
    unfold clipboard_attempt, try_except.
    destruct (send_save_shortcut_run w c s Hd) as (s1 & K1 & Hsend).
    { destruct (Hv _ eq_refl) as [Hc _]. apply Hc. }
    assert (Ha1 : attempts_of (trace s1) = attempts_of (trace s))
      by (destruct K1 as (_ & H & _); exact H).
    unfold bind at 1.
    destruct Hsend as [(-> & _ & Hs1) | (e & -> & Hwd)].
    + rewrite Hmode.
      assert (Hf1 : reads_in_attempt (trace s1) = 0%nat).
      { rewrite Hs1. cbn [emit trace reads_in_attempt]. exact Hfresh. }
      destruct (Hv _ Ha1) as (_ & Htext & Herr & Hempty).
      unfold text_arrives_at in Hempty.
      rewrite Hf1 in Hempty. cbn [Nat.ltb Nat.leb] in Hempty.
      destruct (text_attempt_reads_late fuel w s1 payload Hfuel Hempty)
        as (s2 & K2 & ->); [|exact Htext|].
      { intros h Hh Hr. destruct (Hv h ltac:(congruence)) as (_ & _ & _ & Hx).
        unfold text_arrives_at in Hx.
        rewrite Hr, Hf1 in Hx. cbn [Nat.ltb Nat.leb] in Hx. exact Hx. }
      unfold bind at 1.
      destruct (check_server_error_raises w payload s2 Herr)
        as (e & s3 & -> & He & K3).
      cbn [select_handler]. rewrite He. cbn [bind log ret].
      eexists. split; [reflexivity|].
      eapply kept_trans; [exact K1|]. eapply kept_trans; [exact K2|].
      eapply kept_trans; [exact K3|apply kept_log].
    + cbn [select_handler].
      rewrite (driver_error_not_server_error _ Hwd), Hwd. cbn [bind log ret].
      eexists. split; [reflexivity|].
      eapply kept_trans; [exact K1|apply kept_log].
Qed.


(** The loop passes over [j] attempts that ask for the next one and
    goes on with the passes that remain; every attempt starts with no
    read made. *)
Lemma clipboard_attempts_retry_prefix_fresh fuel w c j :
  forall remaining st,
    driver st = true -> (j <= remaining)%nat ->
    (forall s, driver s = true ->
               reads_in_attempt (trace s) = 0%nat ->
               (attempts_of (trace st) < attempts_of (trace s)
                <= attempts_of (trace st) + j)%nat ->
               exists s', clipboard_attempt fuel w c s = (Ok Retry, s')
                          /\ kept s s') ->
    exists st1,
      clipboard_attempts fuel w c remaining st
      = clipboard_attempts fuel w c (remaining - j) st1
      /\ driver st1 = true
      /\ attempts_of (trace st1) = (attempts_of (trace st) + j)%nat.
Proof.
  induction j as [|j IH]; intros remaining st Hd Hj Hretry.
  - exists st. rewrite Nat.sub_0_r, Nat.add_0_r. auto.
  - destruct remaining as [|r]; [lia|].
    cbn [clipboard_attempts]. unfold bind at 1. unfold log at 1.
    set (st0 := emit (LogAttempt _ _) 0 st).
    assert (Ha0 : attempts_of (trace st0) = S (attempts_of (trace st)))
      by reflexivity.
    assert (Hd0 : driver st0 = true) by exact Hd.
    assert (Hf0 : reads_in_attempt (trace st0) = 0%nat) by reflexivity.
    clearbody st0.
    destruct (Hretry st0 Hd0 Hf0) as (st2 & Hrun & K2); [lia|].
    unfold bind at 1. rewrite Hrun.
    set (pause := when _ _).
    assert (Hpause : exists st3, pause st2 = (Ok tt, st3) /\ kept st2 st3).
    { unfold pause, when. destruct (_ <? _)%nat.
      - eexists. split; [reflexivity|apply kept_sleep].
      - exists st2. split; [reflexivity|apply kept_refl]. }
    destruct Hpause as (st3 & Hp & K3).
    unfold bind at 1. rewrite Hp.
    pose proof (kept_trans _ _ _ K2 K3) as (Hd3 & Ha3 & _).
    destruct (IH r st3) as (st1 & Hrest & Hd1 & Ha1).
    + congruence.
    + lia.
    + intros s Hs Hf Hrange. apply Hretry; [exact Hs|exact Hf|lia].
    + exists st1. split; [exact Hrest|]. split; [exact Hd1|]. lia.
Qed.

(** [k] passes that ask for the next attempt, then a pass that ends the
    loop with a value or an exception. *)
Lemma get_clipboard_content_ends_after fuel w c st k (r : result string) :
  driver st = true ->
  (k < MAX_CLIPBOARD_ATTEMPTS)%nat ->
  r <> OutOfFuel ->
  (forall s, driver s = true ->
             reads_in_attempt (trace s) = 0%nat ->
             (attempts_of (trace st) < attempts_of (trace s)
              <= attempts_of (trace st) + k)%nat ->
             exists s', clipboard_attempt fuel w c s = (Ok Retry, s')
                        /\ kept s s') ->
  (forall s, driver s = true ->
             reads_in_attempt (trace s) = 0%nat ->
             attempts_of (trace s) = (attempts_of (trace st) + k + 1)%nat ->
             exists s',
               clipboard_attempt fuel w c s
               = (match r with
                  | Ok url => Ok (Return url)
                  | Raise e => Raise e
                  | OutOfFuel => OutOfFuel
                  end, s')
               /\ kept s s') ->
  exists st',
    _get_clipboard_content fuel w c st = (r, st')
    /\ attempts_of (trace st') = (attempts_of (trace st) + k + 1)%nat.
Proof.
  intros Hd Hk Hr Hretry Hlast.
  rewrite (get_clipboard_content_unfold _ _ _ _ Hd).
  destruct (clipboard_attempts_retry_prefix_fresh fuel w c k
              MAX_CLIPBOARD_ATTEMPTS st Hd ltac:(lia) Hretry)
    as (st1 & Hrun & Hd1 & Ha1).
  rewrite Hrun.
  destruct (MAX_CLIPBOARD_ATTEMPTS - k)%nat as [|n] eqn:Hn; [lia|].
  cbn [clipboard_attempts]. unfold bind at 1. unfold log at 1.
  set (st0 := emit (LogAttempt _ _) 0 st1).
  assert (Ha0 : attempts_of (trace st0) = S (attempts_of (trace st1)))
    by reflexivity.
  assert (Hd0 : driver st0 = true) by exact Hd1.
  assert (Hf0 : reads_in_attempt (trace st0) = 0%nat) by reflexivity.
  clearbody st0.
  destruct (Hlast st0 Hd0 Hf0) as (st2 & Hrun2 & K2); [lia|].
  unfold bind at 1. rewrite Hrun2.
  destruct K2 as (_ & Ha2 & _).
  destruct r as [url|e|]; [| |contradiction].
  - cbn [ret]. eexists. split; [reflexivity|]. lia.
  - eexists. split; [reflexivity|]. lia.
Qed.



End LatePayload.

(** ** Capture Strategy: the retry bound *)

Section RetryBound.
Import PyStr Py Scraper Observe Behaviour.
Open Scope py_scope.

(** Five passes that ask for the next attempt exhaust the loop. *)
Lemma get_clipboard_content_exhausted_fresh fuel w c st :
  driver st = true ->
  (forall s, driver s = true ->
             reads_in_attempt (trace s) = 0%nat ->
             (attempts_of (trace st) < attempts_of (trace s)
              <= attempts_of (trace st) + MAX_CLIPBOARD_ATTEMPTS)%nat ->
             exists s', clipboard_attempt fuel w c s = (Ok Retry, s')
                        /\ kept s s') ->
  exists st',
    _get_clipboard_content fuel w c st = (Raise CLIPBOARD_EXHAUSTED, st')
    /\ attempts_of (trace st')
       = (attempts_of (trace st) + MAX_CLIPBOARD_ATTEMPTS)%nat.
Proof.
  intros Hd Hretry. rewrite (get_clipboard_content_unfold _ _ _ _ Hd).
  destruct (clipboard_attempts_retry_prefix_fresh fuel w c MAX_CLIPBOARD_ATTEMPTS
              MAX_CLIPBOARD_ATTEMPTS st Hd (le_n _) Hretry)
    as (st1 & Hrun & _ & Ha1).
  rewrite Hrun, Nat.sub_diag. cbn [clipboard_attempts bind log raise].
  eexists. split; [reflexivity|]. cbn. exact Ha1.
Qed.

(** A payload that is there from the first or from the second read of
    the attempt on is returned by that attempt. *)
Lemma clipboard_attempt_arrives fuel w c s late url :
  (2 <= fuel)%nat -> driver s = true ->
  reads_in_attempt (trace s) = 0%nat -> (late <= 1)%nat ->
  (forall h, attempts_of h = attempts_of (trace s) ->
             clipboard_arrives_at w c h late url) ->
  exists s', clipboard_attempt fuel w c s = (Ok (Return url), s') /\ kept s s'.
Proof.
  intros Hfuel Hd Hfresh Hlate Hv.
  destruct late as [|[|late]]; [| |lia].
  - apply clipboard_attempt_valid; [lia|exact Hd|].
    intros h Hh. apply (Hv h Hh).
  - now apply clipboard_attempt_late.
Qed.




End RetryBound.

(** ** Server errors on the text clipboard *)

Section ServerErrorClassification.
Import PyStr Py Scraper Observe Behaviour.
Open Scope py_scope.

Lemma server_error_payload_is_retryable w :
  json_loads w SERVER_ERROR_PAYLOAD = Returns SERVER_ERROR_OBJECT ->
  clipboard_server_error w SERVER_ERROR_PAYLOAD = true
  /\ truthy (strip SERVER_ERROR_PAYLOAD) = true.
Proof.
  intros H. unfold clipboard_server_error. rewrite H. split; reflexivity.
Qed.

Lemma bad_input_payload_is_not_retryable w :
  json_loads w BAD_INPUT_PAYLOAD = Returns BAD_INPUT_OBJECT ->
  clipboard_text_passes w BAD_INPUT_PAYLOAD = true
  /\ truthy (strip BAD_INPUT_PAYLOAD) = true.
Proof.
  intros H. unfold clipboard_text_passes. rewrite H. split; reflexivity.
Qed.

(** C2, as amended.  The traditional path of [_get_clipboard_content],
    with [json.loads] decoding the two payloads as it does.  The payload
    with code 50000, found by the polling loop or by the read that
    follows it (it is on the clipboard from the first or from the second
    read of the attempt on), is neither returned nor does it fail the
    request at once: the pass that reads it asks for the next attempt, so
    that a payload found at the second attempt is returned, and a
    clipboard that keeps holding the error is read at five attempts before
    it counts as exhausted.  The payload with code 40099 takes no retry
    path and is not taken for empty either: it is returned as ordinary
    text content by the attempt that finds it. *)
Theorem server_error_payload_classification fuel w c st :
  (ENOUGH_FUEL <= fuel)%nat ->
  driver st = true ->
  use_save_shortcut c = false ->
  json_loads w SERVER_ERROR_PAYLOAD = Returns SERVER_ERROR_OBJECT ->
  json_loads w BAD_INPUT_PAYLOAD = Returns BAD_INPUT_OBJECT ->
  let base := attempts_of (trace st) in
  let run := _get_clipboard_content fuel w c st in
  (forall late,
      (late <= 1)%nat ->
      (forall h, (base < attempts_of h)%nat ->
                 (forall ch, chord_sent_or_driver_error
                               (outcome w h (Perform ch)) = true)
                 /\ text_arrives_at w h late SERVER_ERROR_PAYLOAD) ->
      fst run = Raise CLIPBOARD_EXHAUSTED
      /\ attempts_of (trace (snd run)) = (base + MAX_CLIPBOARD_ATTEMPTS)%nat)
  /\ (forall late late' url,
        (late <= 1)%nat -> (late' <= 1)%nat ->
        (forall h, attempts_of h = (base + 1)%nat ->
                   (forall ch, chord_sent_or_driver_error
                                 (outcome w h (Perform ch)) = true)
                   /\ text_arrives_at w h late SERVER_ERROR_PAYLOAD) ->
        (forall h, attempts_of h = (base + 2)%nat ->
                   clipboard_arrives_at w c h late' url) ->
        fst run = Ok url
        /\ attempts_of (trace (snd run)) = (base + 2)%nat)
  /\ (forall late,
        (late <= 1)%nat ->
        (forall h, attempts_of h = (base + 1)%nat ->
                   outcome w h (Perform (save_chord c)) = None
                   /\ text_arrives_at w h late BAD_INPUT_PAYLOAD) ->
        fst run = Ok BAD_INPUT_PAYLOAD
        /\ attempts_of (trace (snd run)) = (base + 1)%nat).
Proof.
  intros Hfuel Hd Hmode Hj1 Hj2 base run. subst base run.
  assert (Hf2 : (2 <= fuel)%nat) by (unfold ENOUGH_FUEL in Hfuel; lia).
  destruct (server_error_payload_is_retryable w Hj1) as [Herr Htext1].
  destruct (bad_input_payload_is_not_retryable w Hj2) as [Hok Htext2].
  split; [|split].
  - intros late Hlate Hw.
    destruct (get_clipboard_content_exhausted_fresh fuel w c st Hd)
      as (st' & -> & Ha).
    { intros s Hs Hfresh Hrange.
      apply (clipboard_attempt_server_error_late fuel w c s late
               SERVER_ERROR_PAYLOAD); auto.
      intros h Hh. destruct (Hw h) as [Hc Hr]; [lia|].
      repeat split; auto. }
    cbn [fst snd]. auto.
  - intros late late' url Hlate Hlate' Hw Hv.
    destruct (get_clipboard_content_ends_after fuel w c st 1 (Ok url) Hd)
      as (st' & -> & Ha).
    + unfold MAX_CLIPBOARD_ATTEMPTS. lia.
    + discriminate.
    + intros s Hs Hfresh Hrange.
      apply (clipboard_attempt_server_error_late fuel w c s late
               SERVER_ERROR_PAYLOAD); auto.
      intros h Hh. destruct (Hw h) as [Hc Hr]; [lia|].
      repeat split; auto.
    + intros s Hs Hfresh Ha.
      apply (clipboard_attempt_arrives fuel w c s late' url); auto.
      intros h Hh. apply Hv. lia.
    + cbn [fst snd]. split; [reflexivity|lia].
  - intros late Hlate Hw.
    destruct (get_clipboard_content_ends_after fuel w c st 0
                (Ok BAD_INPUT_PAYLOAD) Hd) as (st' & -> & Ha).
    + unfold MAX_CLIPBOARD_ATTEMPTS. lia.
    + discriminate.
    + intros s Hs Hfresh Hrange. lia.
    + intros s Hs Hfresh Ha.
      apply (clipboard_attempt_arrives fuel w c s late BAD_INPUT_PAYLOAD); auto.
      intros h Hh. destruct (Hw h) as [Hc Hr]; [lia|].
      unfold clipboard_arrives_at, clipboard_valid_at. rewrite Hmode.
      unfold text_arrives_at in Hr.
      destruct (reads_in_attempt h <? late)%nat; auto.
    + cbn [fst snd]. split; [reflexivity|lia].
Qed.

Lemma server_error_payload_classification_witness :
  (fst (_get_clipboard_content 31 (clipboard_holds_world SERVER_ERROR_PAYLOAD)
          linux_link_config ready_state) = Raise CLIPBOARD_EXHAUSTED
   /\ attempts_of (trace (snd (_get_clipboard_content 31
                                 (clipboard_holds_world SERVER_ERROR_PAYLOAD)
                                 linux_link_config ready_state))) = 5%nat)
  /\ (fst (_get_clipboard_content 31 (late_clipboard_world SERVER_ERROR_PAYLOAD)
             linux_link_config ready_state) = Raise CLIPBOARD_EXHAUSTED
      /\ attempts_of (trace (snd (_get_clipboard_content 31
                                    (late_clipboard_world SERVER_ERROR_PAYLOAD)
                                    linux_link_config ready_state))) = 5%nat)
  /\ (fst (_get_clipboard_content 31 (clipboard_holds_world BAD_INPUT_PAYLOAD)
             linux_link_config ready_state) = Ok BAD_INPUT_PAYLOAD
      /\ attempts_of (trace (snd (_get_clipboard_content 31
                                    (clipboard_holds_world BAD_INPUT_PAYLOAD)
                                    linux_link_config ready_state))) = 1%nat).
Proof.
  assert (Hfuel : (ENOUGH_FUEL <= 31)%nat) by (unfold ENOUGH_FUEL; lia).
  destruct (server_error_payload_classification 31
              (clipboard_holds_world SERVER_ERROR_PAYLOAD) linux_link_config
              ready_state Hfuel eq_refl eq_refl eq_refl eq_refl) as (H1 & _ & _).
  destruct (server_error_payload_classification 31
              (late_clipboard_world SERVER_ERROR_PAYLOAD) linux_link_config
              ready_state Hfuel eq_refl eq_refl eq_refl eq_refl) as (H2 & _ & _).
  destruct (server_error_payload_classification 31
              (clipboard_holds_world BAD_INPUT_PAYLOAD) linux_link_config
              ready_state Hfuel eq_refl eq_refl eq_refl eq_refl) as (_ & _ & H3).
  split; [|split].
  - apply (H1 0%nat); [lia|]. intros h _. split; [intros ch|]; reflexivity.
  - apply (H2 1%nat); [lia|]. intros h _. split; [intros ch; reflexivity|].
    unfold text_arrives_at. cbn [late_clipboard_world execute].
    destruct (reads_in_attempt h <? 1)%nat; reflexivity.
  - apply (H3 0%nat); [lia|]. intros h _. split; reflexivity.
Defined.

(** C2 as stated does not hold for the second payload: it is not
    treated as empty content, which would exhaust the attempts, but
    returned. *)
Lemma unrecognized_error_payload_is_returned :
  ~ (forall fuel w c st,
        (ENOUGH_FUEL <= fuel)%nat ->
        driver st = true ->
        use_save_shortcut c = false ->
        json_loads w BAD_INPUT_PAYLOAD = Returns BAD_INPUT_OBJECT ->
        (forall h, outcome w h (Perform (save_chord c)) = None
                   /\ execute w h ReadText = Returns (JsStr BAD_INPUT_PAYLOAD)) ->
        fst (_get_clipboard_content fuel w c st) = Raise CLIPBOARD_EXHAUSTED).
Proof.
  intros H.
  specialize (H 31%nat (clipboard_holds_world BAD_INPUT_PAYLOAD)
                linux_link_config ready_state).
  assert (Hrun : fst (_get_clipboard_content 31
                        (clipboard_holds_world BAD_INPUT_PAYLOAD)
                        linux_link_config ready_state)
                 = Ok BAD_INPUT_PAYLOAD) by (vm_compute; reflexivity).
  rewrite Hrun in H.
  assert (Hbad : Ok BAD_INPUT_PAYLOAD = Raise CLIPBOARD_EXHAUSTED).
  { apply H.
    - unfold ENOUGH_FUEL. lia.
    - reflexivity.
    - reflexivity.
    - reflexivity.
    - intros h. split; reflexivity. }
  discriminate Hbad.
Qed.

End ServerErrorClassification.
